(** * Adaptive metadata-extraction pipeline: a shallow embedding

    The development follows the Python sources
    [src/core/pipeline.py] (segmenter, extractors, validator, orchestrator)
    and [src/utils/data_checker.py] (feedback memory, preference inference).

    Python strings are sequences of Unicode code points; they are modelled as
    lists of [N].  Exceptions are modelled by an explicit result type, mutable
    state by explicit state passing. *)

From Stdlib Require Import String Ascii List NArith ZArith Arith Bool Lia.
Import ListNotations.

(* ================================================================== *)
(** * Python strings *)
(* ================================================================== *)

Module PyStr.

Definition char := N.
Definition pystr := list char.

(** A source-code string literal (ASCII) as a Python [str]. *)
Definition py (s : string) : pystr := map N_of_ascii (list_ascii_of_string s).

(** [len(s)] *)
Definition len (s : pystr) : nat := length s.

Definition char_eqb (a b : char) : bool := N.eqb a b.

Fixpoint str_eqb (a b : pystr) : bool :=
  match a, b with
  | [], [] => true
  | x :: a', y :: b' => char_eqb x y && str_eqb a' b'
  | _, _ => false
  end.

Definition in_range (lo hi c : char) : bool := (N.leb lo c) && (N.leb c hi).

(** [Py_UNICODE_ISSPACE]: the code points for which [str.isspace], [str.strip]
    and the regular-expression class [\s] agree. *)
Definition isspace (c : char) : bool :=
  (in_range 9 13 c || in_range 28 32 c || char_eqb c 133 || char_eqb c 160
   || char_eqb c 5760 || in_range 8192 8202 c || char_eqb c 8232
   || char_eqb c 8233 || char_eqb c 8239 || char_eqb c 8287
   || char_eqb c 12288)%N.

Definition NL : char := 10%N.
Definition SPACE : char := 32%N.

(** The Unicode character database of the interpreter, for the code points
    outside ASCII.  ASCII code points are classified by the definitions
    below, whatever the tables say. *)
Record UnicodeTables := {
  uni_alpha : char -> bool;
  uni_decimal : char -> bool;
  uni_digit : char -> bool;
  uni_numeric : char -> bool;
  uni_upper : char -> bool;
  uni_lower : char -> bool;
  uni_title : char -> bool;
  uni_lowercase : pystr -> pystr
}.

(** A database that knows no cased, alphabetic or numeric character beyond
    ASCII. *)
Definition ascii_tables : UnicodeTables := {|
  uni_alpha := fun _ => false;
  uni_decimal := fun _ => false;
  uni_digit := fun _ => false;
  uni_numeric := fun _ => false;
  uni_upper := fun _ => false;
  uni_lower := fun _ => false;
  uni_title := fun _ => false;
  uni_lowercase := fun s => s
|}.

Definition is_ascii (c : char) : bool := N.ltb c 128%N.
Definition ascii_upper (c : char) : bool := in_range 65%N 90%N c.
Definition ascii_lower (c : char) : bool := in_range 97%N 122%N c.
Definition ascii_digit (c : char) : bool := in_range 48%N 57%N c.

Section Classes.
Variable U : UnicodeTables.

Definition isalpha (c : char) : bool :=
  if is_ascii c then ascii_upper c || ascii_lower c else uni_alpha U c.
Definition isdecimal (c : char) : bool :=
  if is_ascii c then ascii_digit c else uni_decimal U c.
Definition isdigit (c : char) : bool :=
  if is_ascii c then ascii_digit c else uni_digit U c.
Definition isnumeric (c : char) : bool :=
  if is_ascii c then ascii_digit c else uni_numeric U c.
Definition isupper_char (c : char) : bool :=
  if is_ascii c then ascii_upper c else uni_upper U c.
Definition islower_char (c : char) : bool :=
  if is_ascii c then ascii_lower c else uni_lower U c.
Definition istitle_char (c : char) : bool :=
  if is_ascii c then false else uni_title U c.

(** [Py_UNICODE_ISALNUM] *)
Definition isalnum (c : char) : bool :=
  isalpha c || isdecimal c || isdigit c || isnumeric c.

(** The regular-expression class [\w]. *)
Definition is_word (c : char) : bool := isalnum c || char_eqb c 95%N.

(** The loop of [str.isupper]: no lowercase or titlecase character, and
    at least one uppercase one. *)
Fixpoint isupper_from (cased : bool) (s : list char) : bool :=
  match s with
  | [] => cased
  | c :: r =>
      if islower_char c || istitle_char c then false
      else isupper_from (cased || isupper_char c) r
  end.

(** [s.isupper()] *)
Definition isupper (s : list char) : bool :=
  match s with
  | [c] => isupper_char c
  | _ => isupper_from false s
  end.

(** The loop of [str.istitle]: uppercase and titlecase characters follow
    uncased ones only, lowercase characters follow cased ones only. *)
Fixpoint istitle_from (cased previous_is_cased : bool) (s : list char)
  : bool :=
  match s with
  | [] => cased
  | c :: r =>
      if isupper_char c || istitle_char c
      then if previous_is_cased then false else istitle_from true true r
      else if islower_char c
           then if previous_is_cased then istitle_from true true r
                else false
           else istitle_from cased false r
  end.

(** [s.istitle()] *)
Definition istitle (s : list char) : bool :=
  match s with
  | [c] => istitle_char c || isupper_char c
  | _ => istitle_from false false s
  end.

Definition ascii_to_lower (c : char) : char :=
  if ascii_upper c then (c + 32)%N else c.

(** [s.lower()] *)
Definition lower (s : list char) : list char :=
  if forallb is_ascii s then map ascii_to_lower s else uni_lowercase U s.
End Classes.

(** ** Slicing, stripping, searching *)

(** [s[:n]] *)
Definition prefix_slice (n : nat) (s : pystr) : pystr := firstn n s.

Fixpoint drop_while (p : char -> bool) (s : pystr) : pystr :=
  match s with
  | [] => []
  | c :: r => if p c then drop_while p r else s
  end.

Definition lstrip (s : pystr) : pystr := drop_while isspace s.
Definition rstrip (s : pystr) : pystr := rev (drop_while isspace (rev s)).

(** [s.strip()] *)
Definition strip (s : pystr) : pystr := rstrip (lstrip s).

Fixpoint starts_with (p s : pystr) : bool :=
  match p, s with
  | [], _ => true
  | x :: p', y :: s' => char_eqb x y && starts_with p' s'
  | _ :: _, [] => false
  end.

(** [p in s] for strings: substring search. *)
Fixpoint contains (p s : pystr) : bool :=
  starts_with p s ||
  match s with
  | [] => false
  | _ :: r => contains p r
  end.

(** [s.replace(old, new)] for non-empty [old]: occurrences are replaced left
    to right, without overlap; [skip] counts the characters of a matched
    occurrence still to be passed over. *)
Fixpoint replace_from (old new : pystr) (skip : nat) (s : pystr) : pystr :=
  match s with
  | [] => []
  | c :: r =>
      match skip with
      | S k => replace_from old new k r
      | O =>
          if starts_with old s
          then new ++ replace_from old new (length old - 1) r
          else c :: replace_from old new 0 r
      end
  end.

Definition replace (old new s : pystr) : pystr := replace_from old new 0 s.

(** [s.split(sep)] for non-empty [sep]; [acc] holds the current piece,
    reversed. *)
Fixpoint split_from (sep : pystr) (skip : nat) (acc : pystr) (s : pystr)
  : list pystr :=
  match s with
  | [] => [rev acc]
  | c :: r =>
      match skip with
      | S k => split_from sep k acc r
      | O =>
          if starts_with sep s
          then rev acc :: split_from sep (length sep - 1) [] r
          else split_from sep 0 (c :: acc) r
      end
  end.

Definition split (sep s : pystr) : list pystr := split_from sep 0 [] s.

(** ['\n'.join(parts)] and the like. *)
Fixpoint join (sep : pystr) (parts : list pystr) : pystr :=
  match parts with
  | [] => []
  | [p] => p
  | p :: rest => p ++ sep ++ join sep rest
  end.

(** ** The regular expressions of the segmenter *)

(** [re.sub(r'\s+', ' ', s)]: every maximal run of whitespace becomes one
    space; [in_run] tells that the previous character was whitespace. *)
Fixpoint sub_ws_runs (in_run : bool) (s : pystr) : pystr :=
  match s with
  | [] => []
  | c :: r =>
      if isspace c
      then if in_run then sub_ws_runs true r else SPACE :: sub_ws_runs true r
      else c :: sub_ws_runs false r
  end.

Definition normalize_whitespace (s : pystr) : pystr := sub_ws_runs false s.

(** The punctuation listed in the class [[^\w\s\.\,\;\:\!\?\-\(\)]]. *)
Definition kept_punct (c : char) : bool :=
  existsb (char_eqb c) [46; 44; 59; 58; 33; 63; 45; 40; 41]%N.

Definition kept_char (U : UnicodeTables) (c : char) : bool :=
  is_word U c || isspace c || kept_punct c.

(** [re.sub(r'[^\w\s\.\,\;\:\!\?\-\(\)]', '', s)] *)
Definition remove_artifacts (U : UnicodeTables) (s : pystr) : pystr :=
  filter (kept_char U) s.

(** The class [[.!?]]. *)
Definition is_terminator (c : char) : bool :=
  existsb (char_eqb c) [46; 33; 63]%N.

(** [re.split(r'[.!?]+', s)]; [acc] holds the current piece, reversed. *)
Fixpoint split_sentences_from (in_run : bool) (acc : pystr) (s : pystr)
  : list pystr :=
  match s with
  | [] => [rev acc]
  | c :: r =>
      if is_terminator c
      then if in_run then split_sentences_from true acc r
           else rev acc :: split_sentences_from true [] r
      else split_sentences_from false (c :: acc) r
  end.

Definition split_sentences (s : pystr) : list pystr :=
  split_sentences_from false [] s.

End PyStr.

(* ================================================================== *)
(** * Python values, exceptions and results *)
(* ================================================================== *)

Module Py.
Import PyStr.

(** An exception of class [Exception] or below: its class name and the text
    [str(e)].  [KeyboardInterrupt] and [SystemExit] are outside the model. *)
Record exn := Exn { exn_class : string; exn_message : pystr }.

(** The outcome of a call: a value, or an exception in flight. *)
Inductive result (A : Type) : Type :=
| Return (a : A)
| Raise (e : exn).
Arguments Return {A} a.
Arguments Raise {A} e.

Definition bind {A B} (m : result A) (k : A -> result B) : result B :=
  match m with
  | Return a => k a
  | Raise e => Raise e
  end.

(** [try: body / except Exception as e: handler(e)] *)
Definition try_except {A} (body : result A) (handler : exn -> result A)
  : result A :=
  match body with
  | Return a => Return a
  | Raise e => handler e
  end.

(** The values [json.load] produces and [json.dump] accepts.  A dictionary
    keeps its insertion order; a float is kept as its literal. *)
#[local] Unset Elimination Schemes.
Inductive value : Type :=
| VNone
| VBool (b : bool)
| VInt (n : Z)
| VFloat (literal : pystr)
| VStr (s : pystr)
| VList (items : list value)
| VDict (entries : list (pystr * value)).
#[local] Set Elimination Schemes.

Definition dict := list (pystr * value).

(** [type(v).__name__] *)
Definition type_name (v : value) : string :=
  match v with
  | VNone => "NoneType"
  | VBool _ => "bool"
  | VInt _ => "int"
  | VFloat _ => "float"
  | VStr _ => "str"
  | VList _ => "list"
  | VDict _ => "dict"
  end.

(** ** Dictionaries *)

Fixpoint lookup (k : pystr) (d : dict) : option value :=
  match d with
  | [] => None
  | (k', v) :: rest => if str_eqb k k' then Some v else lookup k rest
  end.

(** [d[k] = v]: an existing key keeps its place, a new key goes last. *)
Fixpoint upsert (k : pystr) (v : value) (d : dict) : dict :=
  match d with
  | [] => [(k, v)]
  | (k', v') :: rest =>
      if str_eqb k k' then (k', v) :: rest else (k', v') :: upsert k v rest
  end.

(** [repr(k)] for a key that needs no escaping. *)
Definition key_repr (k : pystr) : pystr := py "'" ++ k ++ py "'".

Definition no_attribute (v : value) (attr : string) : exn :=
  Exn "AttributeError"
      (py "'" ++ py (type_name v) ++ py "' object has no attribute '"
          ++ py attr ++ py "'").

(** [v.strip()] *)
Definition str_strip (v : value) : result pystr :=
  match v with
  | VStr s => Return (strip s)
  | _ => Raise (no_attribute v "strip")
  end.

End Py.

Declare Scope py_scope.
Delimit Scope py_scope with py.
Notation "x <- m ;; k" := (Py.bind m (fun x => k))
  (at level 61, m at next level, right associativity) : py_scope.

(* ================================================================== *)
(** * Segmenter: [TextPreprocessor.clean_and_segment] *)
(* ================================================================== *)

Module Segmenter.
Import PyStr Py.

Section WithTables.
Variable U : UnicodeTables.

(** Lines 36-38: the cleaned text. *)
Definition clean (raw_text : pystr) : pystr :=
  let text := replace [NL; NL] [NL] (strip raw_text) in
  let text := normalize_whitespace text in
  remove_artifacts U text.

Definition long_enough (p : pystr) : bool := 20 <? len (strip p).

(** Line 41: the paragraph split. *)
Definition paragraphs (text : pystr) : list pystr :=
  map strip (filter long_enough (split [NL; NL] text)).

(** Lines 45-46: the sentence split. *)
Definition sentences (text : pystr) : list pystr :=
  map strip (filter long_enough (split_sentences text)).

(** The segments before the cap of line 48. *)
Definition candidate_segments (text : pystr) : list pystr :=
  match paragraphs text with
  | [] => sentences text
  | segments => segments
  end.

(** The body of the [try]. *)
Definition segment_attempt (raw_text : pystr) : result (list pystr) :=
  Return (firstn 10 (candidate_segments (clean raw_text))).

(** The [except] branch. *)
Definition segment_fallback (raw_text : pystr) (e : exn)
  : result (list pystr) :=
  Return [prefix_slice 1000 raw_text].

Definition clean_and_segment (raw_text : pystr) : result (list pystr) :=
  try_except (segment_attempt raw_text) (segment_fallback raw_text).

End WithTables.

End Segmenter.

(* ================================================================== *)
(** * Field extraction: [MetadataExtractor] *)
(* ================================================================== *)

Module Extractor.
Import PyStr Py.

Definition lines (ls : list pystr) : pystr := join [NL] ls.
Definition quoted (s : pystr) : pystr := [34%N] ++ s ++ [34%N].
Definition numero : pystr := py "N" ++ [250%N] ++ py "mero".
Definition preamble : pystr :=
  py "You are a multilingual metadata bot that understands ALL languages.".

Section WithService.
(** The exchange with the inference service for the payload
    [{model: "llama3.2", prompt, stream: False}]: the parsed JSON body of a
    2xx response, or the exception [requests] raises (no connection,
    timeout after 60 seconds, error status, body that is not JSON). *)
Variable post_json : pystr -> result value.

(** [str(v)] as an f-string renders a value that is not a string. *)
Variable format_value : value -> pystr.

Definition to_str (v : value) : pystr :=
  match v with
  | VStr s => s
  | _ => format_value v
  end.

(** Lines 59-72.  The declared result is [str]; the value is whatever the
    body holds under ["response"]. *)
Definition _query_ollama (prompt : pystr) : value :=
  match post_json prompt with
  | Return (VDict body) =>
      match lookup (py "response") body with
      | Some v => v
      | None => VStr []
      end
  | Return _ => VStr []
  | Raise _ => VStr []
  end.

Definition title_prompt (text : pystr) : pystr :=
  lines [ preamble;
          py "From the following text segment, extract ONLY the document's title.";
          py "The text may be in Spanish, Portuguese, English, or any other language.";
          py "Return just the title in its original language, nothing else. If uncertain, return blank.";
          [];
          py "Text:";
          text;
          [];
          py "Title:" ].

Definition extract_title (segments : list pystr) : result pystr :=
  let text := join [NL] (firstn 3 segments) in
  str_strip (_query_ollama (title_prompt text)).

Definition date_base_prompt (target_date_range : option pystr) : pystr :=
  let base_prompt :=
    lines [ preamble;
            py "From the following text, find the most likely publication date.";
            py "The text may be in Spanish (e.g., 'junio 1979', 'marzo de 1978'), Portuguese, English, or any other language." ] in
  match target_date_range with
  | Some (c :: r) =>
      base_prompt ++ [NL; NL]
        ++ py "IMPORTANT: Look specifically for dates around " ++ (c :: r)
        ++ py ". This document should contain dates from this time period."
  | _ => base_prompt
  end.

Definition date_prompt (target_date_range : option pystr) (text : pystr)
  : pystr :=
  lines [ date_base_prompt target_date_range;
          py "Return the date in a clear format (e.g., 'June 1979', 'March 1978'). If no date is present, return blank.";
          [];
          py "Text:";
          text;
          [];
          py "Date:" ].

Definition extract_date (segments : list pystr)
           (target_date_range : option pystr) : result pystr :=
  let text := join [NL] (firstn 5 segments) in
  str_strip (_query_ollama (date_prompt target_date_range text)).

Definition truthy_dict (d : dict) : bool :=
  match d with [] => false | _ => true end.

Definition description_base_prompt (user_preferences : dict) : pystr :=
  let base_prompt :=
    lines [ preamble;
            py "Extract a brief description that summarizes the entire document.";
            py "The text may be in Spanish, Portuguese, English, or any other language.";
            py "Provide the description in English for consistency." ] in
  let base_prompt :=
    match truthy_dict user_preferences,
          lookup (py "description_style") user_preferences with
    | true, Some style_guide =>
        base_prompt ++ [NL; NL] ++ py "User preferences: "
          ++ to_str style_guide
    | _, _ => base_prompt
    end in
  match truthy_dict user_preferences,
        lookup (py "description_examples") user_preferences with
  | true, Some examples =>
      base_prompt ++ [NL; NL] ++ py "Examples of good descriptions: "
        ++ to_str examples
  | _, _ => base_prompt
  end.

Definition description_prompt (user_preferences : dict) (text : pystr)
  : pystr :=
  lines [ description_base_prompt user_preferences;
          [];
          py "Text:";
          text;
          [];
          py "Description:" ].

Definition extract_description (segments : list pystr)
           (user_preferences : dict) : result pystr :=
  let text := join [NL] segments in
  str_strip (_query_ollama (description_prompt user_preferences text)).

Definition volume_prompt (text : pystr) : pystr :=
  lines [ preamble;
          py "From the text below, extract volume and issue information.";
          py "The text may be in Spanish (e.g., "
            ++ quoted (py "Volumen 5, " ++ numero ++ py " 2") ++ py ", "
            ++ quoted (py "Tomo 12") ++ py "), Portuguese (e.g., "
            ++ quoted (py "Volume 5, " ++ numero ++ py " 2")
            ++ py "), English (e.g., " ++ quoted (py "Vol. 5, No. 2")
            ++ py "), or any other language.";
          py "Return the volume/issue info in a clear format (e.g., "
            ++ quoted (py "Vol. 5, No. 2")
            ++ py "). If none found, return blank.";
          [];
          py "Text:";
          text;
          [];
          py "Volume/Issue:" ].

Definition extract_volume_issue (segments : list pystr) : result pystr :=
  let text := join [NL] (firstn 3 segments) in
  str_strip (_query_ollama (volume_prompt text)).

End WithService.

End Extractor.

(* ================================================================== *)
(** * Validation: [MetadataValidator] *)
(* ================================================================== *)

Module Validator.
Import PyStr Py.

(** [PipelineResult] *)
Record PipelineResult := {
  data : dict;
  warnings : list pystr;
  success : bool;
  stage : pystr
}.

Definition is_empty {A} (l : list A) : bool :=
  match l with [] => true | _ => false end.

Section WithTables.
Variable U : UnicodeTables.

(** The assertion [\b] between two neighbours; a missing neighbour (either
    end of the string) counts as a non-word character. *)
Definition word_at (c : option char) : bool :=
  match c with
  | Some x => is_word U x
  | None => false
  end.

Definition boundary (before after : option char) : bool :=
  xorb (word_at before) (word_at after).

(** [(19|20)] *)
Definition century (a b : char) : bool :=
  (char_eqb a 49%N && char_eqb b 57%N)
  || (char_eqb a 50%N && char_eqb b 48%N).

(** A match of [\b(19|20)\d{2}\b] that starts at the head of [s], where
    [prev] is the character before it. *)
Definition year_here (prev : option char) (s : pystr) : bool :=
  match s with
  | a :: b :: c :: d :: rest =>
      boundary prev (Some a) && century a b
      && isdecimal U c && isdecimal U d
      && boundary (Some d) (hd_error rest)
  | _ => false
  end.

(** [re.search(r'\b(19|20)\d{2}\b', s)] finds a match, scanning from
    [s] with [prev] before it. *)
Fixpoint year_search_from (prev : option char) (s : pystr) : bool :=
  year_here prev s ||
  match s with
  | [] => false
  | c :: r => year_search_from (Some c) r
  end.

Definition year_search (s : pystr) : bool := year_search_from None s.

(** jsonschema's message for a record that violates [SCHEMA]. *)
Variable violation_message : dict -> pystr.

Definition is_string_or_absent (k : pystr) (d : dict) : bool :=
  match lookup k d with
  | Some (VStr _) => true
  | Some _ => false
  | None => true
  end.

Definition is_present (k : pystr) (d : dict) : bool :=
  match lookup k d with Some _ => true | None => false end.

(** [SCHEMA]: an object whose four properties, where present, are
    strings, and which has [title] and [description]. *)
Definition conforms (d : dict) : bool :=
  is_string_or_absent (py "title") d
  && is_string_or_absent (py "pub_date") d
  && is_string_or_absent (py "description") d
  && is_string_or_absent (py "volume_issue") d
  && is_present (py "title") d && is_present (py "description") d.

(** [jsonschema.validate(data, cls.SCHEMA)] *)
Definition validate (d : dict) : result unit :=
  if conforms d then Return tt
  else Raise (Exn "ValidationError" (violation_message d)).

Definition title_warnings (title : pystr) : list pystr :=
  if is_empty title || (len title <? 3)
  then [py "Title missing or too short"]
  else if 200 <? len title
       then [py "Title unusually long - may be incorrect"]
       else [].

Definition date_warning : pystr :=
  py "Date format unexpected - no 4-digit year found".

Definition date_warnings (pub_date : pystr) : list pystr :=
  if negb (is_empty pub_date) && negb (year_search pub_date)
  then [date_warning]
  else [].

Definition description_warnings (description : pystr) : list pystr :=
  if is_empty description || (len description <? 10)
  then [py "Description missing or too short"]
  else if 1000 <? len description
       then [py "Description unusually long - may include extra content"]
       else [].

Definition schema_warnings (d : dict) : list pystr :=
  match validate d with
  | Return _ => []
  | Raise e => [py "Schema validation error: " ++ exn_message e]
  end.

Definition metadata (title pub_date description volume_issue : pystr)
  : dict :=
  [ (py "title", VStr title);
    (py "pub_date", VStr pub_date);
    (py "description", VStr description);
    (py "volume_issue", VStr volume_issue) ].

(** Lines 158-196. *)
Definition validate_metadata
           (title pub_date description volume_issue : pystr)
  : PipelineResult :=
  let warnings :=
    title_warnings title ++ date_warnings pub_date
      ++ description_warnings description in
  let data := metadata title pub_date description volume_issue in
  let warnings := warnings ++ schema_warnings data in
  {| data := data;
     warnings := warnings;
     success := is_empty warnings;
     stage := py "validation" |}.

End WithTables.

End Validator.

(* ================================================================== *)
(** * Orchestration: [PDFMetadataPipeline] *)
(* ================================================================== *)

Module Orchestrator.
Import PyStr Py Validator.
Local Open Scope py_scope.

Section WithEnvironment.
Variable U : UnicodeTables.
Variable post_json : pystr -> result value.
Variable format_value : value -> pystr.
Variable violation_message : dict -> pystr.

(** [self.user_preferences], that is [user_preferences or {}]. *)
Variable user_preferences : dict.

Definition no_segments : PipelineResult :=
  {| data := [];
     warnings := [py "No text segments found after preprocessing"];
     success := false;
     stage := py "preprocessing" |}.

(** The body of the [try] of [process_pdf]. *)
Definition process_attempt (pdf_text : pystr)
           (target_date_range : option pystr) : result PipelineResult :=
  segments <- Segmenter.clean_and_segment U pdf_text ;;
  if is_empty segments then Return no_segments
  else
    title <- Extractor.extract_title post_json segments ;;
    pub_date <-
      Extractor.extract_date post_json segments target_date_range ;;
    description <-
      Extractor.extract_description post_json format_value segments
        user_preferences ;;
    volume_issue <- Extractor.extract_volume_issue post_json segments ;;
    Return (validate_metadata U violation_message
              title pub_date description volume_issue).

(** The [except] branch of [process_pdf]. *)
Definition pipeline_failure (e : exn) : PipelineResult :=
  {| data := [];
     warnings := [py "Pipeline error: " ++ exn_message e];
     success := false;
     stage := py "pipeline" |}.

Definition process_pdf (pdf_text : pystr)
           (target_date_range : option pystr) : result PipelineResult :=
  try_except (process_attempt pdf_text target_date_range)
             (fun e => Return (pipeline_failure e)).

End WithEnvironment.

End Orchestrator.

(* ================================================================== *)
(** * Feedback memory: [FeedbackMemory] *)
(* ================================================================== *)

Module Feedback.
Import PyStr Py.
Local Open Scope py_scope.

(** ** Operations on values, with the errors of the interpreter *)

Definition type_error (msg : pystr) : exn := Exn "TypeError" msg.

(** [v[k]] for a string [k] *)
Definition getitem (v : value) (k : pystr) : result value :=
  match v with
  | VDict d =>
      match lookup k d with
      | Some x => Return x
      | None => Raise (Exn "KeyError" (key_repr k))
      end
  | VList _ =>
      Raise (type_error (py "list indices must be integers or slices, not str"))
  | VStr _ =>
      Raise (type_error (py "string indices must be integers, not 'str'"))
  | _ =>
      Raise (type_error
               (py "'" ++ py (type_name v) ++ py "' object is not subscriptable"))
  end.

(** [v[k] = x] for a string [k]; the result is [v] after the assignment. *)
Definition setitem (v : value) (k : pystr) (x : value) : result value :=
  match v with
  | VDict d => Return (VDict (upsert k x d))
  | VList _ =>
      Raise (type_error (py "list indices must be integers or slices, not str"))
  | _ =>
      Raise (type_error
               (py "'" ++ py (type_name v)
                   ++ py "' object does not support item assignment"))
  end.

(** [v.append(x)]; the result is [v] after the call. *)
Definition append (v : value) (x : value) : result value :=
  match v with
  | VList l => Return (VList (l ++ [x]))
  | _ => Raise (no_attribute v "append")
  end.

Definition is_str (s : pystr) (v : value) : bool :=
  match v with
  | VStr t => str_eqb s t
  | _ => false
  end.

Definition has_key (k : pystr) (d : dict) : bool :=
  match lookup k d with Some _ => true | None => false end.

(** [s in v] for a string [s] *)
Definition contains_str (s : pystr) (v : value) : result bool :=
  match v with
  | VDict d => Return (has_key s d)
  | VList l => Return (existsb (is_str s) l)
  | VStr t => Return (contains s t)
  | _ =>
      Raise (type_error
               (py "argument of type '" ++ py (type_name v)
                   ++ py "' is not iterable"))
  end.

(** [len(v)] *)
Definition py_len (v : value) : result nat :=
  match v with
  | VStr s => Return (length s)
  | VList l => Return (length l)
  | VDict d => Return (length d)
  | _ =>
      Raise (type_error
               (py "object of type '" ++ py (type_name v) ++ py "' has no len()"))
  end.

(** [v.pop(0)]; the result is [v] after the call. *)
Definition pop0 (v : value) : result value :=
  match v with
  | VList (_ :: rest) => Return (VList rest)
  | VList [] => Raise (Exn "IndexError" (py "pop from empty list"))
  | VDict _ => Raise (Exn "KeyError" (py "0"))
  | _ => Raise (no_attribute v "pop")
  end.

(** [d[k].f(...)]: the object under [k] is changed in place.  A loaded or
    freshly built memory is a tree, no object is reachable twice, so the
    change is visible under [k] only. *)
Definition update_entry (k : pystr) (f : value -> result value) (d : value)
  : result value :=
  x <- getitem d k ;;
  x' <- f x ;;
  setitem d k x'.

(** ** The state of a [FeedbackMemory] and its file *)

Inductive file : Type :=
| Absent
| Garbled
| JsonFile (content : value).

Record world := {
  feedback_data : value;
  disk : file;
  (** what [open(self.memory_file, 'w')] raises, if it does *)
  write_failure : option exn;
  (** the readings of [datetime.now().isoformat()], in order *)
  clock : nat -> pystr;
  ticks : nat
}.

Definition with_data (w : world) (v : value) : world :=
  {| feedback_data := v; disk := disk w; write_failure := write_failure w;
     clock := clock w; ticks := ticks w |}.

Definition with_disk (w : world) (f : file) : world :=
  {| feedback_data := feedback_data w; disk := f;
     write_failure := write_failure w; clock := clock w; ticks := ticks w |}.

Definition tick (w : world) : world :=
  {| feedback_data := feedback_data w; disk := disk w;
     write_failure := write_failure w; clock := clock w;
     ticks := S (ticks w) |}.

(** A method: it returns or raises, and leaves a state behind either way. *)
Definition M (A : Type) : Type := world -> result A * world.

Definition ret {A} (a : A) : M A := fun w => (Return a, w).

Definition bindM {A B} (m : M A) (k : A -> M B) : M B :=
  fun w =>
    match m w with
    | (Return a, w') => k a w'
    | (Raise e, w') => (Raise e, w')
    end.

Definition lift {A} (r : result A) : M A := fun w => (r, w).

(** A statement that reads [self.feedback_data]. *)
Definition read {A} (f : value -> result A) : M A :=
  fun w => (f (feedback_data w), w).

(** A statement that changes [self.feedback_data], or raises and leaves it
    as it was. *)
Definition modify (f : value -> result value) : M unit :=
  fun w =>
    match f (feedback_data w) with
    | Return v => (Return tt, with_data w v)
    | Raise e => (Raise e, w)
    end.

(** [datetime.now().isoformat()] *)
Definition now : M pystr := fun w => (Return (clock w (ticks w)), tick w).

End Feedback.

Declare Scope mem_scope.
Delimit Scope mem_scope with mem.
Notation "x <- m ;; k" := (Feedback.bindM m (fun x => k))
  (at level 61, m at next level, right associativity) : mem_scope.
Notation "m ;; k" := (Feedback.bindM m (fun _ => k))
  (at level 61, right associativity) : mem_scope.

Module FeedbackMemory.
Import PyStr Py Feedback.
Local Open Scope mem_scope.

Definition empty_preferences : value :=
  VDict [ (py "description_style", VStr []);
          (py "description_examples", VList []);
          (py "title_format", VStr []);
          (py "date_format", VStr []);
          (py "volume_format", VStr []) ].

(** The memory of lines 40-57. *)
Definition default_memory : value :=
  VDict [ (py "corrections", VList []);
          (py "patterns", VDict []);
          (py "user_preferences", empty_preferences);
          (py "fine_tuning_prompts",
            VDict [ (py "title", VStr []);
                    (py "date", VStr []);
                    (py "description", VStr []);
                    (py "volume_issue", VStr []) ]);
          (py "last_updated", VNone) ].

(** [load_memory]: whatever the file holds when it exists and parses, the
    default memory otherwise. *)
Definition load_memory (f : file) : value :=
  match f with
  | JsonFile content => content
  | Garbled => default_memory
  | Absent => default_memory
  end.

(** [FeedbackMemory(memory_file)] *)
Definition init (f : file) (write_failure : option exn)
           (clock : nat -> pystr) : world :=
  {| feedback_data := load_memory f; disk := f;
     write_failure := write_failure; clock := clock; ticks := 0 |}.

(** [open(self.memory_file, 'w')] and [json.dump] *)
Definition write_file : M unit :=
  fun w =>
    match write_failure w with
    | Some e => (Raise e, w)
    | None => (Return tt, with_disk w (JsonFile (feedback_data w)))
    end.

Definition save_memory : M unit :=
  stamp <- now ;;
  modify (fun fd => setitem fd (py "last_updated") (VStr stamp)) ;;
  write_file.

(** [self.feedback_data["user_preferences"][k] = v] *)
Definition set_preference (k : pystr) (v : pystr) : M unit :=
  modify (update_entry (py "user_preferences")
                       (fun up => setitem up k (VStr v))).

(** [self.feedback_data["user_preferences"][k]] *)
Definition preference (k : pystr) : M value :=
  read (fun fd => Py.bind (getitem fd (py "user_preferences"))
                          (fun up => getitem up k)).

(** [self.feedback_data["user_preferences"][k].f(...)] *)
Definition update_preference (k : pystr) (f : value -> result value)
  : M unit :=
  modify (update_entry (py "user_preferences") (update_entry k f)).

Definition brief_style : pystr := py "Keep descriptions brief and concise".
Definition detailed_style : pystr :=
  py "Provide detailed comprehensive descriptions".
Definition uppercase_titles : pystr := py "Prefer uppercase titles".
Definition title_case : pystr := py "Prefer title case".
Definition volume_issue_format : pystr := py "Use 'Volume X, Issue Y' format".
Definition vol_no_format : pystr := py "Use 'Vol. X, No. Y' format".

Section WithTables.
Variable U : UnicodeTables.

(** Lines 93-104. *)
Definition learn_description (corrected_value : pystr) : M unit :=
  (if length corrected_value <? 50
   then set_preference (py "description_style") brief_style
   else if 200 <? length corrected_value
        then set_preference (py "description_style") detailed_style
        else ret tt) ;;
  examples <- preference (py "description_examples") ;;
  known <- lift (contains_str corrected_value examples) ;;
  if known then ret tt
  else
    update_preference (py "description_examples")
                      (fun l => append l (VStr corrected_value)) ;;
    examples <- preference (py "description_examples") ;;
    n <- lift (py_len examples) ;;
    if 5 <? n
    then update_preference (py "description_examples") pop0
    else ret tt.

(** Lines 107-111. *)
Definition learn_title (corrected_value : pystr) : M unit :=
  if isupper U corrected_value
  then set_preference (py "title_format") uppercase_titles
  else if istitle U corrected_value
       then set_preference (py "title_format") title_case
       else ret tt.

(** Lines 114-118. *)
Definition learn_volume_issue (corrected_value : pystr) : M unit :=
  if contains (py "Volume") corrected_value
     && contains (py "Issue") corrected_value
  then set_preference (py "volume_format") volume_issue_format
  else if contains (py "Vol.") corrected_value
          && contains (py "No.") corrected_value
       then set_preference (py "volume_format") vol_no_format
       else ret tt.

Definition update_fine_tuning_preferences
           (field original_value corrected_value : pystr) : M unit :=
  if str_eqb field (py "description") then learn_description corrected_value
  else if str_eqb field (py "title") then learn_title corrected_value
  else if str_eqb field (py "volume_issue")
       then learn_volume_issue corrected_value
       else ret tt.

(** Lines 81 and 127. *)
Definition pattern_key (original_value : pystr) : pystr :=
  match original_value with
  | [] => py "empty"
  | _ => firstn 50 (lower U original_value)
  end.

Definition correction_record
           (filename field original_value corrected_value context
              stamp : pystr) : value :=
  VDict [ (py "filename", VStr filename);
          (py "field", VStr field);
          (py "original", VStr original_value);
          (py "corrected", VStr corrected_value);
          (py "context", VStr context);
          (py "timestamp", VStr stamp) ].

(** Lines 65-88; the closing [print] has no effect on the state. *)
Definition add_correction
           (filename field original_value corrected_value context : pystr)
  : M unit :=
  stamp <- now ;;
  modify (update_entry (py "corrections")
            (fun l => append l (correction_record filename field
                                  original_value corrected_value context
                                  stamp))) ;;
  patterns <- read (fun fd => getitem fd (py "patterns")) ;;
  known <- lift (contains_str field patterns) ;;
  (if known then ret tt
   else modify (update_entry (py "patterns")
                  (fun p => setitem p field (VDict [])))) ;;
  modify (update_entry (py "patterns")
            (update_entry field
               (fun d => setitem d (pattern_key original_value)
                           (VStr corrected_value)))) ;;
  update_fine_tuning_preferences field original_value corrected_value ;;
  save_memory.

(** Lines 124-130. *)
Definition get_suggestion (field value : pystr) : M (option Py.value) :=
  patterns <- read (fun fd => getitem fd (py "patterns")) ;;
  known <- lift (contains_str field patterns) ;;
  if known then
    entries <- lift (getitem patterns field) ;;
    present <- lift (contains_str (pattern_key value) entries) ;;
    if present
    then v <- lift (getitem entries (pattern_key value)) ;; ret (Some v)
    else ret None
  else ret None.

End WithTables.

(** Lines 120-122. *)
Definition get_user_preferences : M value :=
  read (fun fd => getitem fd (py "user_preferences")).

(** A correction as an operator enters it. *)
Record correction := {
  c_filename : pystr;
  c_field : pystr;
  c_original : pystr;
  c_corrected : pystr;
  c_context : pystr
}.

(** A history of corrections, applied oldest first. *)
Fixpoint add_corrections (U : UnicodeTables) (history : list correction)
  : M unit :=
  match history with
  | [] => ret tt
  | c :: rest =>
      add_correction U (c_filename c) (c_field c) (c_original c)
                     (c_corrected c) (c_context c) ;;
      add_corrections U rest
  end.

End FeedbackMemory.

(* ================================================================== *)
(** * The web application: [src/web/app.py] *)
(* ================================================================== *)

Module Web.
Import PyStr Py Validator.

Definition DOT : char := 46%N.

(** The last occurrence of [sep] in [s]: what stands before it and what
    stands after it. *)
Fixpoint rsplit1 (sep : char) (s : pystr) : option (pystr * pystr) :=
  match s with
  | [] => None
  | c :: r =>
      match rsplit1 sep r with
      | Some (before, after) => Some (c :: before, after)
      | None => if char_eqb c sep then Some ([], r) else None
      end
  end.

(** [s.rsplit(sep, 1)] for a separator of one character. *)
Definition rsplit_once (sep : char) (s : pystr) : list pystr :=
  match rsplit1 sep s with
  | Some (before, after) => [before; after]
  | None => [s]
  end.

Definition ALLOWED_EXTENSIONS : list pystr := [py "pdf"].

(** Lines 63-64. *)
Definition allowed_file (U : UnicodeTables) (filename : pystr) : result bool :=
  if contains [DOT] filename
  then match nth_error (rsplit_once DOT filename) 1 with
       | Some extension =>
           Return (existsb (str_eqb (lower U extension)) ALLOWED_EXTENSIONS)
       | None => Raise (Exn "IndexError" (py "list index out of range"))
       end
  else Return false.

(** Lines 72-81.  [pages] is what the PDF reader gives: the text of each
    page, or the exception it raises. *)
Definition extract_text_from_pdf (pages : result (list pystr)) : pystr :=
  match pages with
  | Return texts => concat (map (fun page => page ++ [NL]) texts)
  | Raise e => py "Error extracting text from PDF: " ++ exn_message e
  end.

Definition failed : value := VStr (py "Pipeline processing failed").

(** Lines 267-281 of [upload_file]: the metadata shown for a result. *)
Definition upload_metadata (pipeline_result : PipelineResult) : dict :=
  let pipeline_warnings := VList (map VStr (warnings pipeline_result)) in
  if success pipeline_result
  then upsert (py "processing_stage") (VStr (stage pipeline_result))
         (upsert (py "pipeline_warnings") pipeline_warnings
            (data pipeline_result))
  else [ (py "date", failed);
         (py "title", failed);
         (py "description", failed);
         (py "volume_issue", failed);
         (py "error",
           VStr (py "Pipeline error: "
                    ++ join (py "; ") (warnings pipeline_result)));
         (py "pipeline_warnings", pipeline_warnings);
         (py "processing_stage", VStr (stage pipeline_result)) ].

End Web.

(* ================================================================== *)
(** * The batch checker: [InteractiveDataChecker] *)
(* ================================================================== *)

Module Checker.
Import PyStr Py Validator Feedback FeedbackMemory.
Local Open Scope mem_scope.

(** Lines 161-171. *)
Definition extract_text_from_pdf (pages : result (list pystr)) : pystr :=
  match pages with
  | Return texts => concat (map (fun page => page ++ [NL]) texts)
  | Raise e => py "Error extracting text: " ++ exn_message e
  end.

(** [os.path.basename(path)] on a POSIX system. *)
Definition basename (path : pystr) : pystr :=
  match Web.rsplit1 47%N path with
  | Some (_, name) => name
  | None => path
  end.

(** [try: body / except Exception as e: handler(e)] in a method. *)
Definition try_exceptM {A} (body : M A) (handler : exn -> M A) : M A :=
  fun w =>
    match body w with
    | (Return a, w') => (Return a, w')
    | (Raise e, w') => handler e w'
    end.

Section WithEnvironment.
Variable U : UnicodeTables.
Variable post_json : pystr -> result value.
Variable format_value : value -> pystr.
Variable violation_message : dict -> pystr.

(** [self.pipeline.user_preferences] *)
Variable user_preferences : dict.

(** [bool(x)] for the float with the literal [x]. *)
Variable float_nonzero : pystr -> bool.

(** [bool(v)] *)
Definition truthy (v : value) : bool :=
  match v with
  | VNone => false
  | VBool b => b
  | VInt n => negb (Z.eqb n 0)
  | VFloat literal => float_nonzero literal
  | VStr s => negb (is_empty s)
  | VList l => negb (is_empty l)
  | VDict d => negb (is_empty d)
  end.

(** [self.memory.get_suggestion(field, current)] for a value that need not
    be a string: a false value has the key ["empty"], and the key of a true
    value that is not a string, computed once the field is known to have
    patterns, raises. *)
Definition suggestion_for (field : pystr) (current : value)
  : M (option value) :=
  match current with
  | VStr s => get_suggestion U field s
  | other =>
      if truthy other then
        patterns <- read (fun fd => getitem fd (py "patterns")) ;;
        known <- lift (contains_str field patterns) ;;
        if known then lift (Raise (no_attribute other "lower")) else ret None
      else get_suggestion U field []
  end.

(** [suggestion != current] for a true [suggestion], where [current] is a
    string or a false value. *)
Definition differs (suggestion current : value) : bool :=
  match current with
  | VStr s => negb (is_str s suggestion)
  | _ => true
  end.

(** The body of the loop of lines 285-289. *)
Definition suggest (metadata : dict) (field_key : pystr) : M dict :=
  let current_value :=
    match lookup field_key metadata with
    | Some v => v
    | None => VStr []
    end in
  suggestion <- suggestion_for field_key current_value ;;
  match suggestion with
  | Some s =>
      if truthy s && differs s current_value
      then ret (upsert (field_key ++ py "_suggested") s metadata)
      else ret metadata
  | None => ret metadata
  end.

Fixpoint apply_suggestions (field_keys : list pystr) (metadata : dict)
  : M dict :=
  match field_keys with
  | [] => ret metadata
  | field_key :: rest =>
      metadata' <- suggest metadata field_key ;;
      apply_suggestions rest metadata'
  end.

Definition suggested_fields : list pystr :=
  [py "title"; py "pub_date"; py "abstract"; py "volume_issue"].

(** Lines 265-304; the result is the entry, or [None]. *)
Definition process_single_file (file_path : pystr)
           (pages : result (list pystr)) (target_date_range : option pystr)
  : M (option value) :=
  let filename := basename file_path in
  let text := extract_text_from_pdf pages in
  if starts_with (py "Error") text then ret None
  else
    try_exceptM
      (result <- lift (Orchestrator.process_pdf U post_json format_value
                         violation_message user_preferences text
                         target_date_range) ;;
       if success result
       then
         metadata <- apply_suggestions suggested_fields (data result) ;;
         ret (Some (VDict [ (py "filename", VStr filename);
                            (py "file_path", VStr file_path);
                            (py "metadata", VDict metadata);
                            (py "warnings",
                              VList (map VStr (warnings result)));
                            (py "text_length",
                              VInt (Z.of_nat (len text))) ]))
       else ret None)
      (fun e => ret None).

End WithEnvironment.

End Checker.

(* ================================================================== *)
(** * Vocabulary of the statements *)
(* ================================================================== *)

Module Spec.
Import PyStr Py.

(** [p] occurs in [t] as a run of consecutive characters. *)
Definition is_infix (p t : pystr) : Prop := exists a b, t = a ++ p ++ b.

(** Neither the first nor the last character is whitespace. *)
Definition tight (u : pystr) : Prop :=
  match u with [] => True | c :: _ => isspace c = false end
  /\ match rev u with [] => True | d :: _ => isspace d = false end.

(** The last character of [s], if any. *)
Definition last_char (s : pystr) : option char :=
  match rev s with
  | [] => None
  | c :: _ => Some c
  end.

(** [s] contains four consecutive characters, ["19"] or ["20"] and two
    decimal digits. *)
Definition has_year_digits (U : UnicodeTables) (s : pystr) : Prop :=
  exists pre a b c d post,
    s = pre ++ [a; b; c; d] ++ post
    /\ Validator.century a b = true
    /\ isdecimal U c = true /\ isdecimal U d = true.

(** As [has_year_digits], where moreover no word character (letter, digit,
    underscore) stands right before or right after the four characters. *)
Definition has_delimited_year (U : UnicodeTables) (s : pystr) : Prop :=
  exists pre a b c d post,
    s = pre ++ [a; b; c; d] ++ post
    /\ Validator.century a b = true
    /\ isdecimal U c = true /\ isdecimal U d = true
    /\ Validator.word_at U (last_char pre) = false
    /\ Validator.word_at U (hd_error post) = false.

(** The character before position [length pre] of [pre ++ s], when [prev]
    stands before [pre]. *)
Definition char_before (prev : option char) (pre : pystr) : option char :=
  fold_left (fun _ c => Some c) pre prev.

(** [self.feedback_data[k]] in the state [w]. *)
Definition data_at (w : Feedback.world) (k : pystr) : result value :=
  Feedback.getitem (Feedback.feedback_data w) k.

(** [self.feedback_data["user_preferences"][k]] in the state [w]. *)
Definition pref_at (w : Feedback.world) (k : pystr) : result value :=
  fst (FeedbackMemory.preference k w).

(** A method that returns leaves [self.feedback_data[k]] as it was. *)
Definition preserves {A} (k : pystr) (m : Feedback.M A) : Prop :=
  forall w a w', m w = (Return a, w') -> data_at w' k = data_at w k.

(** A method that returns leaves the preference [k] as it was. *)
Definition preserves_pref {A} (k : pystr) (m : Feedback.M A) : Prop :=
  forall w a w', m w = (Return a, w') -> pref_at w' k = pref_at w k.

(** Section 4.6 of the specification: the preference a corrected value
    calls for, if it calls for one. *)
Definition inferred_preference (U : UnicodeTables)
           (field corrected : pystr) : option pystr :=
  if str_eqb field (py "description") then
    if length corrected <? 50 then Some FeedbackMemory.brief_style
    else if 200 <? length corrected then Some FeedbackMemory.detailed_style
    else None
  else if str_eqb field (py "title") then
    if isupper U corrected then Some FeedbackMemory.uppercase_titles
    else if istitle U corrected then Some FeedbackMemory.title_case
    else None
  else if str_eqb field (py "volume_issue") then
    if contains (py "Volume") corrected && contains (py "Issue") corrected
    then Some FeedbackMemory.volume_issue_format
    else if contains (py "Vol.") corrected && contains (py "No.") corrected
         then Some FeedbackMemory.vol_no_format
         else None
  else None.

(** The preference that corrections of [field] re-derive. *)
Definition preference_key (field : pystr) : pystr :=
  if str_eqb field (py "description") then py "description_style"
  else if str_eqb field (py "title") then py "title_format"
  else py "volume_format".

Definition learning_fields : list pystr :=
  [py "description"; py "title"; py "volume_issue"].

(** [description_examples] after a correction: a corrected description that
    is not among the examples goes last, and the first example leaves when
    there are more than 5. *)
Definition expected_examples (field corrected : pystr) (examples : list value)
  : list value :=
  if str_eqb field (py "description")
     && negb (existsb (Feedback.is_str corrected) examples)
  then
    let grown := examples ++ [VStr corrected] in
    if 5 <? length grown then tl grown else grown
  else examples.

(** The shape [add_correction] relies on: a list of corrections, a table
    of pattern tables, and preferences that hold a list of examples. *)
Definition ok_corrections (x : value) : Prop := exists cs, x = VList cs.

Definition ok_patterns (x : value) : Prop :=
  exists pd, x = VDict pd
             /\ forall f y, lookup f pd = Some y -> exists dd, y = VDict dd.

Definition ok_preferences (x : value) : Prop :=
  exists up ex, x = VDict up
                /\ lookup (py "description_examples") up = Some (VList ex).

Definition well_shaped (v : value) : Prop :=
  (exists x, Feedback.getitem v (py "corrections") = Return x
             /\ ok_corrections x)
  /\ (exists x, Feedback.getitem v (py "patterns") = Return x
                /\ ok_patterns x)
  /\ (exists x, Feedback.getitem v (py "user_preferences") = Return x
                /\ ok_preferences x).

(** A well-shaped memory whose file can be written. *)
Definition good (w : Feedback.world) : Prop :=
  well_shaped (Feedback.feedback_data w) /\ Feedback.write_failure w = None.

(** The table of [field] in a pattern table, empty when there is none. *)
Definition pattern_table (field : pystr) (patterns : dict) : dict :=
  match lookup field patterns with
  | Some (VDict table) => table
  | _ => []
  end.

(** The two states agree on everything but [self.feedback_data]. *)
Definition same_frame (w w' : Feedback.world) : Prop :=
  Feedback.disk w' = Feedback.disk w
  /\ Feedback.write_failure w' = Feedback.write_failure w
  /\ Feedback.clock w' = Feedback.clock w
  /\ Feedback.ticks w' = Feedback.ticks w.

(** A method that reads and changes [self.feedback_data] only. *)
Definition on_data {A} (m : Feedback.M A) : Prop :=
  (forall w, same_frame w (snd (m w)))
  /\ (forall w1 w2,
         Feedback.feedback_data w1 = Feedback.feedback_data w2 ->
         fst (m w1) = fst (m w2)
         /\ Feedback.feedback_data (snd (m w1))
            = Feedback.feedback_data (snd (m w2))).

(** The statements of [add_correction] between the reading of the clock
    and [save_memory]. *)
Definition record_correction (U : UnicodeTables)
           (filename field original_value corrected_value context
              stamp : pystr) : Feedback.M unit :=
  (Feedback.modify
     (Feedback.update_entry (py "corrections")
        (fun l => Feedback.append l
                    (FeedbackMemory.correction_record filename field
                       original_value corrected_value context stamp))) ;;
   patterns <- Feedback.read (fun fd => Feedback.getitem fd (py "patterns")) ;;
   known <- Feedback.lift (Feedback.contains_str field patterns) ;;
   (if known then Feedback.ret tt
    else Feedback.modify
           (Feedback.update_entry (py "patterns")
              (fun p => Feedback.setitem p field (VDict [])))) ;;
   Feedback.modify
     (Feedback.update_entry (py "patterns")
        (Feedback.update_entry field
           (fun d => Feedback.setitem d
                       (FeedbackMemory.pattern_key U original_value)
                       (VStr corrected_value)))) ;;
   FeedbackMemory.update_fine_tuning_preferences U field original_value
     corrected_value)%mem.

(** The state [w] with a file that can be written. *)
Definition writable (w : Feedback.world) : Feedback.world :=
  {| Feedback.feedback_data := Feedback.feedback_data w;
     Feedback.disk := Feedback.disk w;
     Feedback.write_failure := None;
     Feedback.clock := Feedback.clock w;
     Feedback.ticks := Feedback.ticks w |}.

(** A method that leaves the state as it was, whether it returns or
    raises. *)
Definition read_only {A} (m : Feedback.M A) : Prop :=
  forall w, snd (m w) = w.

Definition is_string (v : value) : bool :=
  match v with VStr _ => true | _ => false end.

Definition field_names : list pystr :=
  [py "title"; py "pub_date"; py "description"; py "volume_issue"].

(** The record holds a string under each of the four field names. *)
Definition carries_all_fields (d : dict) : Prop :=
  forall k, In k field_names -> exists s, lookup k d = Some (VStr s).

End Spec.

(* ================================================================== *)
(** * Sample environments and inputs *)
(* ================================================================== *)

Module Samples.
Import PyStr Py.

(** A service that answers every request with [{"response": null}]. *)
Definition null_service (prompt : pystr) : result value :=
  Return (VDict [(py "response", VNone)]).

(** A service that cannot be reached. *)
Definition unreachable_service (prompt : pystr) : result value :=
  Raise (Exn "ConnectionError" (py "connection refused")).

Definition no_format (v : value) : pystr := [].
Definition no_message (d : dict) : pystr := [].

Definition fixed_clock (n : nat) : pystr := py "2024-01-01T00:00:00".

(** A memory opened on a missing file. *)
Definition fresh_memory : Feedback.world :=
  FeedbackMemory.init Feedback.Absent None fixed_clock.

(** A memory opened on a file that holds [{"corrections": []}] only. *)
Definition partial_memory : Feedback.world :=
  FeedbackMemory.init
    (Feedback.JsonFile (VDict [(py "corrections", VList [])]))
    None fixed_clock.

Definition vol_no_correction : FeedbackMemory.correction :=
  {| FeedbackMemory.c_filename := py "a.pdf";
     FeedbackMemory.c_field := py "volume_issue";
     FeedbackMemory.c_original := py "3/4";
     FeedbackMemory.c_corrected := py "Vol. 3, No. 4";
     FeedbackMemory.c_context := py "File: a.pdf" |}.

Definition plain_correction : FeedbackMemory.correction :=
  {| FeedbackMemory.c_filename := py "b.pdf";
     FeedbackMemory.c_field := py "volume_issue";
     FeedbackMemory.c_original := py "?";
     FeedbackMemory.c_corrected := py "tomo 12";
     FeedbackMemory.c_context := py "File: b.pdf" |}.

(** A service that answers every request with the same text. *)
Definition echo_service (prompt : pystr) : result value :=
  Return (VDict [(py "response", VStr (py " Boletin 1979 del sindicato "))]).

(** What [process_pdf] returns for [sample_text] with [echo_service]. *)
Definition echo_result : Validator.PipelineResult :=
  Validator.validate_metadata ascii_tables no_message
    (py "Boletin 1979 del sindicato") (py "Boletin 1979 del sindicato")
    (py "Boletin 1979 del sindicato") (py "Boletin 1979 del sindicato").

(** A memory that has learned an uppercase title. *)
Definition title_memory : Feedback.world :=
  snd (FeedbackMemory.add_correction ascii_tables
         (py "a.pdf") (py "title") (py "Boletin 1979 del sindicato")
         (py "BOLETIN 1979") (py "File: a.pdf") fresh_memory).

Definition any_float_nonzero (literal : pystr) : bool := true.

Definition sample_page : pystr :=
  py "Boletin informativo de la asociacion, junio 1979".

(** The entry of a file of one page, read with [echo_service] and
    [title_memory]. *)
Definition sample_entry : value :=
  match fst (Checker.process_single_file ascii_tables echo_service no_format
               no_message [] any_float_nonzero (py "raw/a.pdf")
               (Return [sample_page]) None title_memory) with
  | Return (Some entry) => entry
  | _ => VNone
  end.

Definition sample_text : pystr :=
  py "Boletin informativo de la asociacion, junio 1979".

End Samples.

(* ================================================================== *)
(** * Properties *)
(* ================================================================== *)

Import PyStr Py.

(** ** Strings *)

Section StringFacts.

Lemma char_eqb_eq (a b : char) : char_eqb a b = true <-> a = b.
Proof. unfold char_eqb. apply N.eqb_eq. Qed.

Lemma str_eqb_eq (a b : pystr) : str_eqb a b = true <-> a = b.
Proof.
  revert b. induction a as [|x a IH]; intros [|y b]; simpl;
    try (split; [discriminate | discriminate]); try tauto.
  rewrite andb_true_iff, char_eqb_eq, IH.
  split; [intros [-> ->]; reflexivity | intros H; inversion H; auto].
Qed.

Lemma str_eqb_refl (a : pystr) : str_eqb a a = true.
Proof. apply str_eqb_eq. reflexivity. Qed.

Lemma str_eqb_neq (a b : pystr) : str_eqb a b = false <-> a <> b.
Proof.
  rewrite <- str_eqb_eq. destruct (str_eqb a b); split; congruence.
Qed.

Lemma drop_while_suffix (p : char -> bool) (s : pystr) :
  exists l, s = l ++ drop_while p s.
Proof.
  induction s as [|c s [l IH]]; simpl.
  - exists []. reflexivity.
  - destruct (p c).
    + exists (c :: l). simpl. f_equal. exact IH.
    + exists []. reflexivity.
Qed.

Lemma drop_while_head (p : char -> bool) (s : pystr) c r :
  drop_while p s = c :: r -> p c = false.
Proof.
  induction s as [|x s IH]; simpl; [discriminate|].
  destruct (p x) eqn:E; [exact IH|].
  intros H. inversion H. subst. exact E.
Qed.

Lemma drop_while_stops (p : char -> bool) (a : pystr) c (u : pystr) :
  p c = false -> exists a', drop_while p (a ++ c :: u) = a' ++ c :: u.
Proof.
  intros Hc. induction a as [|x a [a' IH]]; simpl.
  - rewrite Hc. exists []. reflexivity.
  - destruct (p x).
    + exists a'. exact IH.
    + exists (x :: a). reflexivity.
Qed.

Lemma rstrip_prefix (s : pystr) : exists r, s = rstrip s ++ r.
Proof.
  unfold rstrip. destruct (drop_while_suffix isspace (rev s)) as [l H].
  exists (rev l). rewrite <- rev_app_distr, <- H, rev_involutive. reflexivity.
Qed.

Lemma strip_tight (s : pystr) : Spec.tight (strip s).
Proof.
  unfold Spec.tight, strip. split.
  - destruct (rstrip (lstrip s)) as [|c u] eqn:E; [exact I|].
    destruct (rstrip_prefix (lstrip s)) as [r Hr]. rewrite E in Hr.
    unfold lstrip in Hr. simpl in Hr.
    apply (drop_while_head isspace s _ _ Hr).
  - unfold rstrip. rewrite rev_involutive.
    destruct (drop_while isspace (rev (lstrip s))) as [|d v] eqn:E; [exact I|].
    apply (drop_while_head isspace _ _ _ E).
Qed.

Lemma strip_infix (s : pystr) : Spec.is_infix (strip s) s.
Proof.
  unfold strip, lstrip.
  destruct (drop_while_suffix isspace s) as [l Hl].
  destruct (rstrip_prefix (drop_while isspace s)) as [r Hr].
  exists l, r. rewrite <- Hr. exact Hl.
Qed.

Lemma is_infix_trans (a b c : pystr) :
  Spec.is_infix a b -> Spec.is_infix b c -> Spec.is_infix a c.
Proof.
  intros [x [y ->]] [x' [y' ->]]. exists (x' ++ x), (y ++ y').
  rewrite !app_assoc. reflexivity.
Qed.

(** A tight run inside [t] survives the stripping of [t]. *)
Lemma tight_infix_length (u t : pystr) :
  Spec.tight u -> Spec.is_infix u t -> length u <= length (strip t).
Proof.
  intros [Hfirst Hlast] [a [b ->]].
  destruct u as [|c u']; [simpl; lia|].
  unfold strip, lstrip, rstrip.
  simpl app. destruct (drop_while_stops isspace a c (u' ++ b) Hfirst) as [a' ->].
  destruct (rev (c :: u')) as [|d w] eqn:E.
  { apply (f_equal (@length _)) in E. rewrite length_rev in E. discriminate. }
  assert (Hu : c :: u' = rev w ++ [d]).
  { rewrite <- (rev_involutive (c :: u')), E. reflexivity. }
  replace (a' ++ c :: u' ++ b) with (a' ++ (c :: u') ++ b) by reflexivity.
  rewrite Hu, !rev_app_distr, rev_involutive. simpl app.
  rewrite <- !app_assoc. simpl app.
  destruct (drop_while_stops isspace (rev b) d (w ++ rev a') Hlast) as [b' ->].
  rewrite length_rev, !length_app. simpl. rewrite !length_app, length_rev.
  simpl. lia.
Qed.

Lemma strip_infix_length (p t : pystr) :
  Spec.is_infix p t -> length (strip p) <= length (strip t).
Proof.
  intros H. apply tight_infix_length.
  - apply strip_tight.
  - apply is_infix_trans with p; [apply strip_infix | exact H].
Qed.

End StringFacts.

(** ** Segmenter *)

Section SegmenterFacts.
Import Segmenter.

Lemma sub_ws_runs_space (s : pystr) :
  forall in_run c,
    In c (sub_ws_runs in_run s) -> isspace c = true -> c = SPACE.
Proof.
  induction s as [|x s IH]; intros in_run c; simpl; [tauto|].
  destruct (isspace x) eqn:Ex.
  - destruct in_run; simpl.
    + apply IH.
    + intros [<- | H] Hc; [reflexivity | exact (IH _ _ H Hc)].
  - simpl. intros [<- | H] Hc; [congruence | exact (IH _ _ H Hc)].
Qed.

Lemma clean_no_newline (U : UnicodeTables) (raw_text : pystr) :
  ~ In NL (clean U raw_text).
Proof.
  unfold clean, remove_artifacts, normalize_whitespace. intros H.
  apply filter_In in H. destruct H as [H _].
  apply sub_ws_runs_space in H; [discriminate | reflexivity].
Qed.

Lemma split_without_separator (s : pystr) :
  ~ In NL s -> forall acc, split_from [NL; NL] 0 acc s = [rev acc ++ s].
Proof.
  induction s as [|c s IH]; intros Hs acc.
  - simpl. rewrite app_nil_r. reflexivity.
  - assert (Hc : char_eqb NL c = false).
    { destruct (char_eqb NL c) eqn:E; [|reflexivity].
      apply char_eqb_eq in E. exfalso. apply Hs. left. congruence. }
    cbn [split_from starts_with]. rewrite Hc. cbn [andb].
    rewrite IH by (intros H; apply Hs; right; exact H).
    cbn [rev]. rewrite <- app_assoc. reflexivity.
Qed.

Lemma split_sentences_from_infix (s : pystr) :
  forall in_run acc pre,
    (in_run = true -> acc = []) ->
    Forall (fun p => Spec.is_infix p (pre ++ rev acc ++ s))
           (split_sentences_from in_run acc s).
Proof.
  induction s as [|c s IH]; intros in_run acc pre Hrun; simpl.
  - constructor; [|constructor]. exists pre, []. reflexivity.
  - destruct (is_terminator c).
    + destruct in_run.
      * rewrite (Hrun eq_refl). simpl.
        specialize (IH true [] (pre ++ [c]) (fun _ => eq_refl)).
        simpl in IH. rewrite <- app_assoc in IH. exact IH.
      * constructor.
        -- exists pre, (c :: s). reflexivity.
        -- specialize (IH true [] (pre ++ rev acc ++ [c]) (fun _ => eq_refl)).
           simpl in IH. rewrite <- !app_assoc in IH. exact IH.
    + specialize (IH false (c :: acc) pre).
      simpl in IH. rewrite <- app_assoc in IH. apply IH. discriminate.
Qed.

Lemma split_sentences_infix (s : pystr) :
  Forall (fun p => Spec.is_infix p s) (split_sentences s).
Proof.
  exact (split_sentences_from_infix s false [] [] (fun H => eq_refl)).
Qed.

Lemma long_segments (l : list pystr) :
  Forall (fun s => 20 < len s) (map strip (filter long_enough l)).
Proof.
  apply Forall_forall. intros s Hs.
  apply in_map_iff in Hs. destruct Hs as [p [<- Hp]].
  apply filter_In in Hp. destruct Hp as [_ Hp].
  unfold long_enough in Hp. apply Nat.ltb_lt in Hp. exact Hp.
Qed.

Lemma candidate_segments_long (text : pystr) :
  Forall (fun s => 20 < len s) (candidate_segments text).
Proof.
  unfold candidate_segments.
  destruct (paragraphs text) eqn:E.
  - apply long_segments.
  - rewrite <- E. apply long_segments.
Qed.

Lemma Forall_prefix {A} (P : A -> Prop) (n : nat) (l : list A) :
  Forall P l -> Forall P (firstn n l).
Proof.
  intros H. apply Forall_forall. intros x Hx.
  rewrite Forall_forall in H. apply H.
  rewrite <- (firstn_skipn n l). apply in_or_app. left. exact Hx.
Qed.

Lemma sentences_of_short_text (text : pystr) :
  len (strip text) <= 20 -> sentences text = [].
Proof.
  intros Hshort. unfold sentences.
  assert (H : filter long_enough (split_sentences text) = []).
  { pose proof (split_sentences_infix text) as Hinf.
    induction Hinf as [|p l Hp _ IH]; [reflexivity|].
    simpl. unfold long_enough at 1.
    pose proof (strip_infix_length p text Hp) as Hle.
    unfold len in *.
    destruct (20 <? length (strip p)) eqn:E.
    - apply Nat.ltb_lt in E. lia.
    - exact IH. }
  rewrite H. reflexivity.
Qed.

Lemma paragraphs_of_clean (U : UnicodeTables) (raw_text : pystr) :
  let text := clean U raw_text in
  paragraphs text = if long_enough text then [strip text] else [].
Proof.
  intros text. unfold paragraphs, split.
  rewrite (split_without_separator text (clean_no_newline U raw_text)).
  simpl. destruct (long_enough text); reflexivity.
Qed.

End SegmenterFacts.

(** C2.  For every string, the segmenter returns at most 10 segments, each
    longer than 20 characters; the exception fallback yields a single
    element of at most 1000 characters. *)
Theorem C2_segment_bounds (U : UnicodeTables) (raw_text : pystr) :
  (exists segments,
      Segmenter.clean_and_segment U raw_text = Return segments
      /\ length segments <= 10
      /\ Forall (fun s => 20 < len s) segments)
  /\ (forall e, exists s,
         Segmenter.segment_fallback raw_text e = Return [s]
         /\ len s <= 1000).
Proof.
  split.
  - eexists. split; [reflexivity|]. split.
    + apply firstn_le_length.
    + apply Forall_prefix. apply candidate_segments_long.
  - intros e. eexists. split; [reflexivity|].
    unfold len, prefix_slice. apply firstn_le_length.
Qed.

(** C10.  On the path without exception the segmenter returns at most one
    element: the cleaned text holds no newline, so the paragraph split gives
    the cleaned text as its only candidate; the sentence split is reached
    only when the stripped cleaned text has at most 20 characters, and then
    none of its fragments passes the length filter; the cap of 10 cuts
    nothing. *)
Theorem C10_at_most_one_segment (U : UnicodeTables) (raw_text : pystr) :
  let text := Segmenter.clean U raw_text in
  split [NL; NL] text = [text]
  /\ (len (strip text) <= 20 -> Segmenter.sentences text = [])
  /\ Segmenter.candidate_segments text
     = (if 20 <? len (strip text) then [strip text] else [])
  /\ firstn 10 (Segmenter.candidate_segments text)
     = Segmenter.candidate_segments text
  /\ exists segments,
       Segmenter.segment_attempt U raw_text = Return segments
       /\ Segmenter.clean_and_segment U raw_text = Return segments
       /\ length segments <= 1.
Proof.
  intros text.
  assert (Hsplit : split [NL; NL] text = [text]).
  { unfold split.
    rewrite (split_without_separator text (clean_no_newline U raw_text)).
    reflexivity. }
  assert (Hcand : Segmenter.candidate_segments text
                  = if 20 <? len (strip text) then [strip text] else []).
  { unfold Segmenter.candidate_segments.
    unfold text at 1. rewrite paragraphs_of_clean. fold text.
    unfold Segmenter.long_enough.
    destruct (20 <? len (strip text)) eqn:E; [reflexivity|].
    apply sentences_of_short_text. apply Nat.ltb_ge in E. exact E. }
  split; [exact Hsplit|].
  split; [apply sentences_of_short_text|].
  split; [exact Hcand|].
  assert (Hlen : length (Segmenter.candidate_segments text) <= 1).
  { rewrite Hcand. destruct (20 <? len (strip text)); simpl; lia. }
  assert (Hcap : firstn 10 (Segmenter.candidate_segments text)
                 = Segmenter.candidate_segments text).
  { apply firstn_all2. lia. }
  split; [exact Hcap|].
  exists (Segmenter.candidate_segments text).
  unfold Segmenter.clean_and_segment, Segmenter.segment_attempt. fold text.
  rewrite Hcap. simpl. auto.
Qed.

(** ** Validator *)

Section ValidatorFacts.
Import Validator.
Variable U : UnicodeTables.

Lemma century_is_word (a b : char) : century a b = true -> is_word U a = true.
Proof.
  unfold century. rewrite orb_true_iff, !andb_true_iff, !char_eqb_eq.
  intros [[-> _] | [-> _]]; reflexivity.
Qed.

Lemma isdecimal_is_word (c : char) : isdecimal U c = true -> is_word U c = true.
Proof.
  intros H. unfold is_word, isalnum. rewrite H.
  rewrite orb_true_r. reflexivity.
Qed.

Lemma boundary_before_word (prev : option char) (a : char) :
  is_word U a = true ->
  boundary U prev (Some a) = true <-> word_at U prev = false.
Proof.
  intros Ha. unfold boundary. simpl. rewrite Ha.
  destruct (word_at U prev); simpl; split; congruence.
Qed.

Lemma boundary_after_word (d : char) (next : option char) :
  is_word U d = true ->
  boundary U (Some d) next = true <-> word_at U next = false.
Proof.
  intros Hd. unfold boundary. simpl. rewrite Hd.
  destruct (word_at U next); simpl; split; congruence.
Qed.

Lemma char_before_last (pre : pystr) :
  Spec.char_before None pre = Spec.last_char pre.
Proof.
  unfold Spec.char_before, Spec.last_char.
  rewrite <- fold_left_rev_right.
  destruct (rev pre); reflexivity.
Qed.

Lemma year_here_spec (prev : option char) (s : pystr) :
  year_here U prev s = true <->
  exists a b c d post,
    s = [a; b; c; d] ++ post
    /\ century a b = true /\ isdecimal U c = true /\ isdecimal U d = true
    /\ word_at U prev = false /\ word_at U (hd_error post) = false.
Proof.
  split.
  - destruct s as [|a [|b [|c [|d post]]]]; simpl; try discriminate.
    rewrite !andb_true_iff. intros [[[[Hb Hc] H3] H4] He].
    exists a, b, c, d, post.
    apply (boundary_before_word _ _ (century_is_word _ _ Hc)) in Hb.
    apply (boundary_after_word _ _ (isdecimal_is_word _ H4)) in He.
    auto 10.
  - intros (a & b & c & d & post & -> & Hc & H3 & H4 & Hb & He).
    simpl. rewrite Hc, H3, H4.
    apply (boundary_before_word _ _ (century_is_word _ _ Hc)) in Hb.
    apply (boundary_after_word _ _ (isdecimal_is_word _ H4)) in He.
    rewrite Hb, He. reflexivity.
Qed.

Lemma year_search_from_spec (s : pystr) :
  forall prev,
    year_search_from U prev s = true <->
    exists pre a b c d post,
      s = pre ++ [a; b; c; d] ++ post
      /\ century a b = true /\ isdecimal U c = true /\ isdecimal U d = true
      /\ word_at U (Spec.char_before prev pre) = false
      /\ word_at U (hd_error post) = false.
Proof.
  induction s as [|x s IH]; intros prev.
  - split.
    + simpl. discriminate.
    + intros (pre & a & b & c & d & post & H & _).
      destruct pre; discriminate.
  - cbn [year_search_from]. rewrite orb_true_iff, year_here_spec, IH. split.
    + intros [(a & b & c & d & post & H) | (pre & a & b & c & d & post & H)].
      * exists [], a, b, c, d, post. exact H.
      * exists (x :: pre), a, b, c, d, post.
        destruct H as (-> & H). split; [reflexivity | exact H].
    + intros (pre & a & b & c & d & post & Heq & H).
      destruct pre as [|y pre].
      * left. exists a, b, c, d, post. split; [exact Heq | exact H].
      * right. simpl in Heq. inversion Heq; subst.
        exists pre, a, b, c, d, post. split; [reflexivity | exact H].
Qed.

Lemma year_search_spec (s : pystr) :
  year_search U s = true <-> Spec.has_delimited_year U s.
Proof.
  unfold year_search, Spec.has_delimited_year.
  rewrite year_search_from_spec.
  split; intros (pre & a & b & c & d & post & H);
    exists pre, a, b, c, d, post;
    [rewrite <- char_before_last | rewrite char_before_last]; exact H.
Qed.

Variable violation_message : dict -> pystr.

Lemma metadata_conforms (title pub_date description volume_issue : pystr) :
  schema_warnings violation_message
    (metadata title pub_date description volume_issue) = [].
Proof. reflexivity. Qed.

Lemma date_warning_not_title (title : pystr) :
  ~ In date_warning (title_warnings title).
Proof.
  unfold title_warnings.
  destruct (is_empty title || (len title <? 3)).
  - intros [H | []]. vm_compute in H. discriminate.
  - destruct (200 <? len title); [|intros []].
    intros [H | []]. vm_compute in H. discriminate.
Qed.

Lemma date_warning_not_description (description : pystr) :
  ~ In date_warning (description_warnings description).
Proof.
  unfold description_warnings.
  destruct (is_empty description || (len description <? 10)).
  - intros [H | []]. vm_compute in H. discriminate.
  - destruct (1000 <? len description); [|intros []].
    intros [H | []]. vm_compute in H. discriminate.
Qed.

Lemma date_warning_present
      (title pub_date description volume_issue : pystr) :
  In date_warning
     (warnings (validate_metadata U violation_message
                  title pub_date description volume_issue))
  <-> pub_date <> [] /\ year_search U pub_date = false.
Proof.
  unfold validate_metadata. cbn [warnings].
  rewrite metadata_conforms, app_nil_r, !in_app_iff.
  pose proof (date_warning_not_title title) as Ht.
  pose proof (date_warning_not_description description) as Hd.
  unfold date_warnings.
  destruct pub_date as [|c r]; simpl.
  - split; [intros [H | [[] | H]]; tauto | intros [H _]; congruence].
  - destruct (year_search U (c :: r)); simpl.
    + split; [intros [H | [[] | H]]; tauto | intros [_ H]; discriminate].
    + split; [intros _; split; [discriminate | reflexivity] | auto].
Qed.

End ValidatorFacts.

(** C3, as stated, fails: the date ["19790"] holds the four digits [1979],
    yet the warning is appended, because a digit follows them. *)
Lemma C3_counterexample :
  ~ (forall title pub_date description volume_issue : pystr,
        In Validator.date_warning
           (Validator.warnings
              (Validator.validate_metadata ascii_tables (fun _ => [])
                 title pub_date description volume_issue))
        <-> pub_date <> [] /\ ~ Spec.has_year_digits ascii_tables pub_date).
Proof.
  intros H. specialize (H [] (py "19790") [] []).
  destruct H as [H _]. destruct H as [_ Hno].
  - apply date_warning_present. split; [discriminate | reflexivity].
  - apply Hno. exists [], 49%N, 57%N, 55%N, 57%N, [48%N]. repeat split.
Qed.

(** C3, amended.  The date warning is appended exactly when [pub_date] is
    not empty and holds no ["19"] or ["20"] followed by two decimal digits
    that stands between non-word neighbours (or the ends of the string);
    ["June 1979"] yields no date warning, ["no year here"] yields one. *)
Theorem C3_date_warning (U : UnicodeTables) (violation_message : dict -> pystr)
        (title pub_date description volume_issue : pystr) :
  (In Validator.date_warning
      (Validator.warnings
         (Validator.validate_metadata U violation_message
            title pub_date description volume_issue))
   <-> pub_date <> [] /\ ~ Spec.has_delimited_year U pub_date)
  /\ ~ In Validator.date_warning
         (Validator.warnings
            (Validator.validate_metadata U violation_message
               title (py "June 1979") description volume_issue))
  /\ In Validator.date_warning
        (Validator.warnings
           (Validator.validate_metadata U violation_message
              title (py "no year here") description volume_issue)).
Proof.
  split; [|split].
  - rewrite date_warning_present, <- year_search_spec.
    destruct (Validator.year_search U pub_date);
      split; intros [H1 H2]; split; congruence.
  - rewrite date_warning_present. intros [_ H]. discriminate H.
  - rewrite date_warning_present. split; [discriminate | reflexivity].
Qed.

(** ** Orchestrator *)

Section OrchestratorFacts.
Import Validator Orchestrator.
Variable U : UnicodeTables.
Variable post_json : pystr -> result value.
Variable format_value : value -> pystr.
Variable violation_message : dict -> pystr.
Variable user_preferences : dict.

Lemma process_pdf_returns (pdf_text : pystr) (target : option pystr) :
  process_pdf U post_json format_value violation_message user_preferences
              pdf_text target
  = Return
      (match process_attempt U post_json format_value violation_message
                             user_preferences pdf_text target with
       | Return r => r
       | Raise e => pipeline_failure e
       end).
Proof.
  unfold process_pdf, try_except.
  destruct (process_attempt _ _ _ _ _ _ _); reflexivity.
Qed.

(** The three shapes of a result of [process_attempt]. *)
Lemma process_attempt_shape (pdf_text : pystr) (target : option pystr) r :
  process_attempt U post_json format_value violation_message user_preferences
                  pdf_text target = Return r ->
  r = no_segments
  \/ exists title pub_date description volume_issue,
       r = validate_metadata U violation_message
             title pub_date description volume_issue.
Proof.
  unfold process_attempt.
  destruct (Segmenter.clean_and_segment U pdf_text) as [segments|e];
    simpl; [|discriminate].
  destruct (is_empty segments).
  - intros H. inversion H. left. reflexivity.
  - destruct (Extractor.extract_title post_json segments) as [t|e];
      simpl; [|discriminate].
    destruct (Extractor.extract_date post_json segments target) as [p|e];
      simpl; [|discriminate].
    destruct (Extractor.extract_description post_json format_value segments
                user_preferences) as [d|e]; simpl; [|discriminate].
    destruct (Extractor.extract_volume_issue post_json segments) as [v|e];
      simpl; [|discriminate].
    intros H. inversion H. right. exists t, p, d, v. reflexivity.
Qed.

End OrchestratorFacts.

(** C1.  [process_pdf] returns a result for every text and every date hint
    and never raises; when the sequence raises an exception, the result has
    stage ["pipeline"], [success = False] and one warning, which carries
    the message of the exception. *)
Theorem C1_process_pdf_never_raises
        (U : UnicodeTables) (post_json : pystr -> result value)
        (format_value : value -> pystr) (violation_message : dict -> pystr)
        (user_preferences : dict)
        (pdf_text : pystr) (target_date_range : option pystr) :
  exists r,
    Orchestrator.process_pdf U post_json format_value violation_message
      user_preferences pdf_text target_date_range = Return r
    /\ (forall e,
           Orchestrator.process_attempt U post_json format_value
             violation_message user_preferences pdf_text target_date_range
           = Raise e ->
           Validator.stage r = py "pipeline"
           /\ Validator.success r = false
           /\ Validator.warnings r = [py "Pipeline error: " ++ exn_message e]).
Proof.
  eexists. split; [apply process_pdf_returns|].
  intros e He. rewrite He. repeat split.
Qed.

Lemma C1_witness :
  exists r,
    Orchestrator.process_pdf ascii_tables Samples.null_service
      Samples.no_format Samples.no_message [] Samples.sample_text None
    = Return r
    /\ Validator.stage r = py "pipeline"
    /\ Validator.success r = false
    /\ Validator.warnings r
       = [py "Pipeline error: 'NoneType' object has no attribute 'strip'"].
Proof.
  destruct (C1_process_pdf_never_raises ascii_tables Samples.null_service
              Samples.no_format Samples.no_message [] Samples.sample_text None)
    as [r [Hr Hfail]].
  exists r. split; [exact Hr|].
  apply (Hfail (no_attribute VNone "strip")). reflexivity.
Defined.

(** C4, as stated, fails: for the empty text the preprocessing result
    carries an empty record, without a title. *)
Lemma C4_counterexample :
  exists r,
    Orchestrator.process_pdf ascii_tables Samples.unreachable_service
      Samples.no_format Samples.no_message [] [] None = Return r
    /\ ~ Spec.carries_all_fields (Validator.data r).
Proof.
  eexists. split; [reflexivity|].
  intros H. destruct (H (py "title")) as [s Hs].
  - left. reflexivity.
  - discriminate Hs.
Qed.

(** C4, amended.  A result of stage ["validation"] carries the four fields,
    each a string, which is empty when the request to the service failed;
    the preprocessing result and the pipeline-failure result carry an empty
    record. *)
Theorem C4_result_data
        (U : UnicodeTables) (post_json : pystr -> result value)
        (format_value : value -> pystr) (violation_message : dict -> pystr)
        (user_preferences : dict)
        (pdf_text : pystr) (target_date_range : option pystr)
        (r : Validator.PipelineResult) :
  Orchestrator.process_pdf U post_json format_value violation_message
    user_preferences pdf_text target_date_range = Return r ->
  ((Validator.stage r = py "validation"
    /\ Spec.carries_all_fields (Validator.data r))
   \/ (Validator.stage r = py "preprocessing" /\ Validator.data r = [])
   \/ (Validator.stage r = py "pipeline" /\ Validator.data r = []))
  /\ (forall prompt e,
         post_json prompt = Raise e ->
         str_strip (Extractor._query_ollama post_json prompt) = Return []).
Proof.
  intros H. split.
  - rewrite process_pdf_returns in H. inversion H as [Hr]. clear H.
    destruct (Orchestrator.process_attempt U post_json format_value
                violation_message user_preferences pdf_text
                target_date_range) as [r'|e] eqn:E.
    + apply process_attempt_shape in E.
      destruct E as [-> | (t & p & d & v & ->)].
      * right. left. split; reflexivity.
      * left. split; [reflexivity|].
        intros k [<- | [<- | [<- | [<- | []]]]]; eexists; reflexivity.
    + right. right. split; reflexivity.
  - intros prompt e He. unfold Extractor._query_ollama. rewrite He.
    reflexivity.
Qed.

Lemma C4_witness :
  ((Validator.stage
      (Validator.validate_metadata ascii_tables Samples.no_message
         [] [] [] []) = py "validation"
    /\ Spec.carries_all_fields
         (Validator.data
            (Validator.validate_metadata ascii_tables Samples.no_message
               [] [] [] [])))
   \/ (Validator.stage
         (Validator.validate_metadata ascii_tables Samples.no_message
            [] [] [] []) = py "preprocessing"
       /\ Validator.data
            (Validator.validate_metadata ascii_tables Samples.no_message
               [] [] [] []) = [])
   \/ (Validator.stage
         (Validator.validate_metadata ascii_tables Samples.no_message
            [] [] [] []) = py "pipeline"
       /\ Validator.data
            (Validator.validate_metadata ascii_tables Samples.no_message
               [] [] [] []) = []))
  /\ (forall prompt e,
         Samples.unreachable_service prompt = Raise e ->
         str_strip (Extractor._query_ollama Samples.unreachable_service prompt)
         = Return []).
Proof.
  apply (C4_result_data ascii_tables Samples.unreachable_service
           Samples.no_format Samples.no_message [] Samples.sample_text None).
  reflexivity.
Defined.

(** ** Dictionaries *)

Section DictFacts.

Lemma str_eqb_sym (a b : pystr) : str_eqb a b = str_eqb b a.
Proof.
  destruct (str_eqb a b) eqn:E.
  - apply str_eqb_eq in E. subst. symmetry. apply str_eqb_refl.
  - symmetry. apply str_eqb_neq. apply str_eqb_neq in E. congruence.
Qed.

Lemma lookup_upsert_eq (k : pystr) (v : value) (d : dict) :
  lookup k (upsert k v d) = Some v.
Proof.
  induction d as [|[k' v'] d IH]; simpl.
  - rewrite str_eqb_refl. reflexivity.
  - destruct (str_eqb k k') eqn:E; simpl; rewrite E; [reflexivity | exact IH].
Qed.

Lemma lookup_upsert_neq (k k' : pystr) (v : value) (d : dict) :
  str_eqb k' k = false -> lookup k' (upsert k v d) = lookup k' d.
Proof.
  intros Hneq. induction d as [|[k0 v0] d IH]; simpl.
  - rewrite Hneq. reflexivity.
  - destruct (str_eqb k k0) eqn:E; simpl.
    + apply str_eqb_eq in E. subst k0. rewrite Hneq. reflexivity.
    + rewrite IH. reflexivity.
Qed.

Lemma upsert_same (k : pystr) (v : value) (d : dict) :
  lookup k d = Some v -> upsert k v d = d.
Proof.
  induction d as [|[k' v'] d IH]; simpl; [discriminate|].
  destruct (str_eqb k k') eqn:E.
  - intros H. inversion H. reflexivity.
  - intros H. rewrite (IH H). reflexivity.
Qed.

End DictFacts.

(** ** Feedback memory: statements and their effects *)

Section MemoryFacts.
Import Feedback FeedbackMemory.

Lemma getitem_dict (v : value) (k : pystr) (x : value) :
  getitem v k = Return x -> exists d, v = VDict d /\ lookup k d = Some x.
Proof.
  destruct v; simpl; try discriminate.
  destruct (lookup k entries) eqn:E; [|discriminate].
  intros H. inversion H. subst. eauto.
Qed.

Lemma setitem_dict (v : value) (k : pystr) (x v' : value) :
  setitem v k x = Return v' -> exists d, v = VDict d /\ v' = VDict (upsert k x d).
Proof.
  destruct v; simpl; try discriminate.
  intros H. inversion H. eauto.
Qed.

Lemma getitem_setitem_eq (v : value) (k : pystr) (x v' : value) :
  setitem v k x = Return v' -> getitem v' k = Return x.
Proof.
  intros H. apply setitem_dict in H. destruct H as (d & -> & ->).
  simpl. rewrite lookup_upsert_eq. reflexivity.
Qed.

Lemma getitem_setitem_neq (v : value) (k k' : pystr) (x v' : value) :
  setitem v k x = Return v' -> str_eqb k' k = false ->
  getitem v' k' = getitem v k'.
Proof.
  intros H Hneq. apply setitem_dict in H. destruct H as (d & -> & ->).
  simpl. rewrite lookup_upsert_neq by exact Hneq. reflexivity.
Qed.

Lemma bind_inv {A B} (m : result A) (k : A -> result B) (b : B) :
  Py.bind m k = Return b -> exists a, m = Return a /\ k a = Return b.
Proof. destruct m; simpl; [eauto | discriminate]. Qed.

Lemma update_entry_inv (k : pystr) (f : value -> result value) (v v' : value) :
  update_entry k f v = Return v' ->
  exists x x', getitem v k = Return x /\ f x = Return x'
               /\ setitem v k x' = Return v'.
Proof.
  unfold update_entry. intros H.
  apply bind_inv in H. destruct H as (x & Hx & H).
  apply bind_inv in H. destruct H as (x' & Hx' & H). eauto.
Qed.

Lemma update_entry_neq (k k' : pystr) (f : value -> result value)
      (v v' : value) :
  update_entry k f v = Return v' -> str_eqb k' k = false ->
  getitem v' k' = getitem v k'.
Proof.
  intros H Hneq. apply update_entry_inv in H.
  destruct H as (x & x' & _ & _ & H).
  exact (getitem_setitem_neq _ _ _ _ _ H Hneq).
Qed.

Lemma update_entry_eq (k : pystr) (f : value -> result value) (v v' : value) :
  update_entry k f v = Return v' ->
  exists x x', getitem v k = Return x /\ f x = Return x'
               /\ getitem v' k = Return x'.
Proof.
  intros H. apply update_entry_inv in H.
  destruct H as (x & x' & Hx & Hx' & H).
  exists x, x'. repeat split; try assumption.
  exact (getitem_setitem_eq _ _ _ _ H).
Qed.

(** Inversion of the statements of a method that returned. *)

Lemma bindM_inv {A B} (m : M A) (k : A -> M B) (w w' : world) (b : B) :
  bindM m k w = (Return b, w') ->
  exists a w1, m w = (Return a, w1) /\ k a w1 = (Return b, w').
Proof.
  unfold bindM. destruct (m w) as [[a|e] w1]; [eauto | discriminate].
Qed.

Lemma ret_inv {A} (a b : A) (w w' : world) :
  ret a w = (Return b, w') -> b = a /\ w' = w.
Proof. unfold ret. intros H. inversion H. auto. Qed.

Lemma lift_inv {A} (r : result A) (a : A) (w w' : world) :
  lift r w = (Return a, w') -> r = Return a /\ w' = w.
Proof. unfold lift. intros H. inversion H. auto. Qed.

Lemma read_inv {A} (f : value -> result A) (a : A) (w w' : world) :
  read f w = (Return a, w') -> f (feedback_data w) = Return a /\ w' = w.
Proof. unfold read. intros H. inversion H. auto. Qed.

Lemma modify_inv (f : value -> result value) (a : unit) (w w' : world) :
  modify f w = (Return a, w') ->
  exists v, f (feedback_data w) = Return v /\ w' = with_data w v.
Proof.
  unfold modify. destruct (f (feedback_data w)) as [v|e]; [|discriminate].
  intros H. inversion H. eauto.
Qed.

Lemma now_inv (a : pystr) (w w' : world) :
  now w = (Return a, w') -> w' = tick w.
Proof. unfold now. intros H. inversion H. reflexivity. Qed.

Lemma write_file_inv (a : unit) (w w' : world) :
  write_file w = (Return a, w') ->
  write_failure w = None /\ w' = with_disk w (JsonFile (feedback_data w)).
Proof.
  unfold write_file. destruct (write_failure w); [discriminate|].
  intros H. inversion H. auto.
Qed.

(** Preservation of the entries of [self.feedback_data]. *)

Lemma preserves_ret {A} (k : pystr) (a : A) : Spec.preserves k (ret a).
Proof. intros w b w' H. apply ret_inv in H. destruct H as [_ ->]. reflexivity. Qed.

Lemma preserves_lift {A} (k : pystr) (r : result A) : Spec.preserves k (lift r).
Proof. intros w b w' H. apply lift_inv in H. destruct H as [_ ->]. reflexivity. Qed.

Lemma preserves_read {A} (k : pystr) (f : value -> result A) :
  Spec.preserves k (read f).
Proof. intros w b w' H. apply read_inv in H. destruct H as [_ ->]. reflexivity. Qed.

Lemma preserves_now (k : pystr) : Spec.preserves k now.
Proof. intros w b w' H. apply now_inv in H. subst. reflexivity. Qed.

Lemma preserves_write_file (k : pystr) : Spec.preserves k write_file.
Proof.
  intros w b w' H. apply write_file_inv in H. destruct H as [_ ->].
  reflexivity.
Qed.

Lemma preserves_bind {A B} (k : pystr) (m : M A) (f : A -> M B) :
  Spec.preserves k m -> (forall a, Spec.preserves k (f a)) ->
  Spec.preserves k (bindM m f).
Proof.
  intros Hm Hf w b w' H. apply bindM_inv in H.
  destruct H as (a & w1 & H1 & H2).
  rewrite (Hf a _ _ _ H2). exact (Hm _ _ _ H1).
Qed.

Lemma preserves_update (k k' : pystr) (f : value -> result value) :
  str_eqb k k' = false -> Spec.preserves k (modify (update_entry k' f)).
Proof.
  intros Hneq w b w' H. apply modify_inv in H. destruct H as (v & Hv & ->).
  unfold Spec.data_at. simpl. exact (update_entry_neq _ _ _ _ _ Hv Hneq).
Qed.

Lemma preserves_assign (k k' : pystr) (x : value) :
  str_eqb k k' = false ->
  Spec.preserves k (modify (fun fd => setitem fd k' x)).
Proof.
  intros Hneq w b w' H. apply modify_inv in H. destruct H as (v & Hv & ->).
  unfold Spec.data_at. simpl. exact (getitem_setitem_neq _ _ _ _ _ Hv Hneq).
Qed.

Lemma preserves_save_memory (k : pystr) :
  str_eqb k (py "last_updated") = false -> Spec.preserves k save_memory.
Proof.
  intros Hneq. unfold save_memory.
  apply preserves_bind; [apply preserves_now | intros stamp].
  apply preserves_bind; [apply preserves_assign; exact Hneq | intros _].
  apply preserves_write_file.
Qed.

End MemoryFacts.

(** ** Feedback memory: [add_correction] *)

Section CorrectionFacts.
Import Feedback FeedbackMemory.
Variable U : UnicodeTables.

Ltac invert_bind H a w1 H1 :=
  apply bindM_inv in H; destruct H as (a & w1 & H1 & H).

(** What a call of [add_correction] that returned has done before it reached
    [update_fine_tuning_preferences]: the preferences are untouched, the
    pattern table holds the corrected value under the key of the original,
    and a table that held it already is unchanged. *)
Lemma add_correction_inv
      (filename field original corrected context : pystr) (w w' : world) :
  add_correction U filename field original corrected context w
  = (Return tt, w') ->
  exists w1 w2,
    Spec.data_at w1 (py "user_preferences")
    = Spec.data_at w (py "user_preferences")
    /\ (exists pd dd,
           Spec.data_at w1 (py "patterns") = Return (VDict pd)
           /\ lookup field pd = Some (VDict dd)
           /\ lookup (pattern_key U original) dd = Some (VStr corrected))
    /\ (forall pd dd,
           Spec.data_at w (py "patterns") = Return (VDict pd) ->
           lookup field pd = Some (VDict dd) ->
           lookup (pattern_key U original) dd = Some (VStr corrected) ->
           Spec.data_at w1 (py "patterns") = Return (VDict pd))
    /\ update_fine_tuning_preferences U field original corrected w1
       = (Return tt, w2)
    /\ save_memory w2 = (Return tt, w').
Proof.
  unfold add_correction. intros H.
  invert_bind H stamp w0 Hnow. apply now_inv in Hnow. subst w0.
  invert_bind H u1 wa Ha. apply modify_inv in Ha. destruct Ha as (va & Hva & ->).
  invert_bind H patterns wb Hb. apply read_inv in Hb. destruct Hb as [Hpat ->].
  invert_bind H known wc Hc. apply lift_inv in Hc. destruct Hc as [Hknown ->].
  invert_bind H u2 wd Hd.
  invert_bind H u3 w1 H1. apply modify_inv in H1. destruct H1 as (v1 & Hv1 & ->).
  invert_bind H u4 w2 H2. destruct u4.
  exists (with_data wd v1), w2.
  simpl in Hpat.
  assert (Hpat0 : getitem va (py "patterns")
                  = getitem (feedback_data w) (py "patterns")).
  { simpl in Hva.
    exact (update_entry_neq _ (py "patterns") _ _ _ Hva eq_refl). }
  assert (Hup0 : getitem va (py "user_preferences")
                 = getitem (feedback_data w) (py "user_preferences")).
  { simpl in Hva.
    exact (update_entry_neq _ (py "user_preferences") _ _ _ Hva eq_refl). }
  assert (Hupd : getitem (feedback_data wd) (py "user_preferences")
                 = getitem va (py "user_preferences")).
  { destruct known.
    - apply ret_inv in Hd. destruct Hd as [_ ->]. reflexivity.
    - apply modify_inv in Hd. destruct Hd as (vd & Hvd & ->).
      exact (update_entry_neq _ (py "user_preferences") _ _ _ Hvd eq_refl). }
  split; [|split; [|split; [|split]]].
  - unfold Spec.data_at. simpl.
    rewrite (update_entry_neq _ (py "user_preferences") _ _ _ Hv1 eq_refl).
    rewrite Hupd. exact Hup0.
  - apply update_entry_eq in Hv1. destruct Hv1 as (x & x' & _ & Hx' & Hget).
    apply update_entry_inv in Hx'. destruct Hx' as (y & y' & Hy & Hy' & Hset).
    apply setitem_dict in Hy'. destruct Hy' as (yd & -> & ->).
    apply setitem_dict in Hset. destruct Hset as (xd & -> & ->).
    exists (upsert field (VDict (upsert (pattern_key U original)
                                        (VStr corrected) yd)) xd),
           (upsert (pattern_key U original) (VStr corrected) yd).
    split; [exact Hget|]. rewrite !lookup_upsert_eq. auto.
  - intros pd dd Hpd Hfield Hkey. unfold Spec.data_at in *. simpl.
    rewrite Hpat0, Hpd in Hpat. inversion Hpat. subst patterns.
    simpl in Hknown. unfold has_key in Hknown. rewrite Hfield in Hknown.
    inversion Hknown. subst known.
    apply ret_inv in Hd. destruct Hd as [_ ->]. simpl in Hv1.
    apply update_entry_inv in Hv1. destruct Hv1 as (x & x' & Hx & Hx' & Hset).
    rewrite Hpat0, Hpd in Hx. inversion Hx. subst x.
    apply update_entry_inv in Hx'. destruct Hx' as (y & y' & Hy & Hy' & Hset').
    simpl in Hy. rewrite Hfield in Hy. inversion Hy. subst y.
    simpl in Hy'. rewrite (upsert_same _ _ _ Hkey) in Hy'.
    inversion Hy'. subst y'.
    simpl in Hset'. rewrite (upsert_same _ _ _ Hfield) in Hset'.
    inversion Hset'. subst x'.
    rewrite (getitem_setitem_eq _ _ _ _ Hset). reflexivity.
  - exact H2.
  - exact H.
Qed.

(** Preferences. *)

Lemma pref_at_data (w w' : world) (k : pystr) :
  Spec.data_at w' (py "user_preferences")
  = Spec.data_at w (py "user_preferences") ->
  Spec.pref_at w' k = Spec.pref_at w k.
Proof.
  unfold Spec.pref_at, Spec.data_at, preference, read. simpl.
  intros ->. reflexivity.
Qed.

Lemma preserves_to_pref {A} (k : pystr) (m : M A) :
  Spec.preserves (py "user_preferences") m -> Spec.preserves_pref k m.
Proof. intros Hm w a w' H. apply pref_at_data. exact (Hm _ _ _ H). Qed.

Lemma set_preference_inv (k v : pystr) (w w' : world) (a : unit) :
  set_preference k v w = (Return a, w') ->
  Spec.pref_at w' k = Return (VStr v)
  /\ forall k', str_eqb k' k = false -> Spec.pref_at w' k' = Spec.pref_at w k'.
Proof.
  unfold set_preference. intros H.
  apply modify_inv in H. destruct H as (fd & Hfd & ->).
  apply update_entry_eq in Hfd. destruct Hfd as (x & x' & Hx & Hx' & Hget).
  unfold Spec.pref_at, preference, read. simpl. rewrite Hget, Hx. simpl.
  split.
  - exact (getitem_setitem_eq _ _ _ _ Hx').
  - intros k' Hneq. exact (getitem_setitem_neq _ _ _ _ _ Hx' Hneq).
Qed.

Lemma update_preference_inv (k : pystr) (f : value -> result value)
      (w w' : world) (a : unit) :
  update_preference k f w = (Return a, w') ->
  exists x x',
    Spec.pref_at w k = Return x /\ f x = Return x'
    /\ Spec.pref_at w' k = Return x'
    /\ forall k', str_eqb k' k = false ->
                  Spec.pref_at w' k' = Spec.pref_at w k'.
Proof.
  unfold update_preference. intros H.
  apply modify_inv in H. destruct H as (fd & Hfd & ->).
  apply update_entry_eq in Hfd. destruct Hfd as (up & up' & Hup & Hup' & Hget).
  unfold Spec.pref_at, preference, read. simpl. rewrite Hget, Hup. simpl.
  pose proof (update_entry_eq _ _ _ _ Hup') as (x & x' & Hx & Hx' & Hget').
  exists x, x'. repeat split; try assumption.
  intros k' Hneq. exact (update_entry_neq _ _ _ _ _ Hup' Hneq).
Qed.

Lemma preference_inv (k : pystr) (w w' : world) (v : value) :
  preference k w = (Return v, w') -> Spec.pref_at w k = Return v /\ w' = w.
Proof.
  unfold Spec.pref_at. intros H. rewrite H. simpl. split; [reflexivity|].
  unfold preference in H. apply read_inv in H. tauto.
Qed.

Lemma preserves_set_preference (K k v : pystr) :
  str_eqb K (py "user_preferences") = false ->
  Spec.preserves K (set_preference k v).
Proof. intros H. apply preserves_update. exact H. Qed.

Lemma preserves_update_preference (K k : pystr) (f : value -> result value) :
  str_eqb K (py "user_preferences") = false ->
  Spec.preserves K (update_preference k f).
Proof. intros H. apply preserves_update. exact H. Qed.

Lemma preserves_fine_tuning (K field original corrected : pystr) :
  str_eqb K (py "user_preferences") = false ->
  Spec.preserves K (update_fine_tuning_preferences U field original corrected).
Proof.
  intros HK. unfold update_fine_tuning_preferences.
  destruct (str_eqb field (py "description")).
  { unfold learn_description.
    apply preserves_bind.
    { destruct (length corrected <? 50);
        [apply preserves_set_preference; exact HK|].
      destruct (200 <? length corrected);
        [apply preserves_set_preference; exact HK | apply preserves_ret]. }
    intros _. apply preserves_bind; [apply preserves_read | intros examples].
    apply preserves_bind; [apply preserves_lift | intros known].
    destruct known; [apply preserves_ret|].
    apply preserves_bind;
      [apply preserves_update_preference; exact HK | intros _].
    apply preserves_bind; [apply preserves_read | intros examples'].
    apply preserves_bind; [apply preserves_lift | intros n].
    destruct (5 <? n);
      [apply preserves_update_preference; exact HK | apply preserves_ret]. }
  destruct (str_eqb field (py "title")).
  { unfold learn_title.
    destruct (isupper U corrected);
      [apply preserves_set_preference; exact HK|].
    destruct (istitle U corrected);
      [apply preserves_set_preference; exact HK | apply preserves_ret]. }
  destruct (str_eqb field (py "volume_issue")); [|apply preserves_ret].
  unfold learn_volume_issue.
  destruct (contains (py "Volume") corrected && contains (py "Issue") corrected);
    [apply preserves_set_preference; exact HK|].
  destruct (contains (py "Vol.") corrected && contains (py "No.") corrected);
    [apply preserves_set_preference; exact HK | apply preserves_ret].
Qed.

End CorrectionFacts.


Section PreferenceFacts.
Import Feedback FeedbackMemory.
Variable U : UnicodeTables.

Lemma pref_after_save (k : pystr) (w w' : world) :
  save_memory w = (Return tt, w') -> Spec.pref_at w' k = Spec.pref_at w k.
Proof.
  intros H. apply pref_at_data.
  exact (preserves_save_memory (py "user_preferences") eq_refl _ _ _ H).
Qed.

(** The effect of a correction on a preference is the effect of
    [update_fine_tuning_preferences]. *)
Lemma add_correction_pref
      (filename field original corrected context k : pystr) (w w' : world) :
  add_correction U filename field original corrected context w
  = (Return tt, w') ->
  exists w1 w2,
    Spec.pref_at w1 k = Spec.pref_at w k
    /\ Spec.pref_at w' k = Spec.pref_at w2 k
    /\ update_fine_tuning_preferences U field original corrected w1
       = (Return tt, w2).
Proof.
  intros H. apply add_correction_inv in H.
  destruct H as (w1 & w2 & Hup & _ & _ & Hft & Hsave).
  exists w1, w2. split; [exact (pref_at_data _ _ k Hup)|].
  split; [exact (pref_after_save k _ _ Hsave) | exact Hft].
Qed.

(** A choice between two assignments of the same preference. *)
Lemma choose_preference (k a b : pystr) (ca cb : bool) (w w' : world) :
  (if ca then set_preference k a
   else if cb then set_preference k b else ret tt) w = (Return tt, w') ->
  (Spec.pref_at w' k
   = if ca then Return (VStr a)
     else if cb then Return (VStr b) else Spec.pref_at w k)
  /\ forall k', str_eqb k' k = false -> Spec.pref_at w' k' = Spec.pref_at w k'.
Proof.
  destruct ca; [|destruct cb].
  - intros H. exact (set_preference_inv _ _ _ _ _ H).
  - intros H. exact (set_preference_inv _ _ _ _ _ H).
  - intros H. apply ret_inv in H. destruct H as [_ ->]. auto.
Qed.

(** The statements of [learn_description] on the examples. *)
Lemma remember_example (corrected : pystr) (w w' : world) :
  (examples <- preference (py "description_examples") ;;
   known <- lift (contains_str corrected examples) ;;
   if known then ret tt
   else
     update_preference (py "description_examples")
                       (fun l => append l (VStr corrected)) ;;
     examples <- preference (py "description_examples") ;;
     n <- lift (py_len examples) ;;
     if 5 <? n
     then update_preference (py "description_examples") pop0
     else ret tt)%mem w = (Return tt, w') ->
  (forall k, str_eqb k (py "description_examples") = false ->
             Spec.pref_at w' k = Spec.pref_at w k)
  /\ forall ex,
       Spec.pref_at w (py "description_examples") = Return (VList ex) ->
       Spec.pref_at w' (py "description_examples")
       = Return (VList (Spec.expected_examples (py "description") corrected ex)).
Proof.
  intros H.
  apply bindM_inv in H. destruct H as (examples & wa & Ha & H).
  apply preference_inv in Ha. destruct Ha as [Hex ->].
  apply bindM_inv in H. destruct H as (known & wb & Hb & H).
  apply lift_inv in Hb. destruct Hb as [Hknown ->].
  destruct known.
  { apply ret_inv in H. destruct H as [_ ->]. split; [reflexivity|].
    intros ex Hw. rewrite Hw in Hex. inversion Hex. subst examples.
    simpl in Hknown. injection Hknown as Hk.
    unfold Spec.expected_examples. rewrite Hk. simpl. exact Hw. }
  apply bindM_inv in H. destruct H as (u1 & wc & Hc & H).
  apply update_preference_inv in Hc.
  destruct Hc as (x & x' & Hx & Happ & Hx' & Hother).
  apply bindM_inv in H. destruct H as (examples' & wd & Hd & H).
  apply preference_inv in Hd. destruct Hd as [Hex' ->].
  apply bindM_inv in H. destruct H as (n & we & He & H).
  apply lift_inv in He. destruct He as [Hn ->].
  rewrite Hx' in Hex'. inversion Hex'. subst examples'.
  destruct x; simpl in Happ; try discriminate.
  inversion Happ. subst x'. simpl in Hn. inversion Hn. subst n.
  rewrite Hx in Hex. inversion Hex. subst examples.
  simpl in Hknown. injection Hknown as Hk.
  destruct (5 <? length (items ++ [VStr corrected])) eqn:Hfull.
  - apply update_preference_inv in H.
    destruct H as (y & y' & Hy & Hpop & Hy' & Hother').
    rewrite Hx' in Hy. inversion Hy. subst y.
    split.
    + intros k Hk'. rewrite (Hother' k Hk'). exact (Hother k Hk').
    + intros ex Hw. rewrite Hw in Hx. inversion Hx. subst ex.
      unfold Spec.expected_examples. rewrite Hk. simpl. rewrite Hfull.
      rewrite Hy'. destruct (items ++ [VStr corrected]) eqn:E.
      * destruct items; discriminate.
      * simpl in Hpop. inversion Hpop. reflexivity.
  - apply ret_inv in H. destruct H as [_ ->]. split.
    + exact Hother.
    + intros ex Hw. rewrite Hw in Hx. inversion Hx. subst ex.
      unfold Spec.expected_examples. rewrite Hk. simpl. rewrite Hfull.
      exact Hx'.
Qed.

Lemma learn_description_inv (corrected : pystr) (w w' : world) :
  learn_description corrected w = (Return tt, w') ->
  (Spec.pref_at w' (py "description_style")
   = if length corrected <? 50 then Return (VStr brief_style)
     else if 200 <? length corrected then Return (VStr detailed_style)
     else Spec.pref_at w (py "description_style"))
  /\ forall ex,
       Spec.pref_at w (py "description_examples") = Return (VList ex) ->
       Spec.pref_at w' (py "description_examples")
       = Return (VList (Spec.expected_examples (py "description") corrected ex)).
Proof.
  unfold learn_description. intros H.
  apply bindM_inv in H. destruct H as ([] & w1 & H1 & H).
  apply choose_preference in H1. destruct H1 as [Hstyle Hother].
  apply remember_example in H. destruct H as [Hkeep Hex].
  split.
  - rewrite (Hkeep (py "description_style") eq_refl). exact Hstyle.
  - intros ex Hw. apply Hex.
    rewrite (Hother (py "description_examples") eq_refl). exact Hw.
Qed.

(** The preference of its field after [update_fine_tuning_preferences]. *)
Lemma fine_tuning_own_preference (field original corrected : pystr)
      (w w' : world) :
  In field Spec.learning_fields ->
  update_fine_tuning_preferences U field original corrected w
  = (Return tt, w') ->
  Spec.pref_at w' (Spec.preference_key field)
  = match Spec.inferred_preference U field corrected with
    | Some v => Return (VStr v)
    | None => Spec.pref_at w (Spec.preference_key field)
    end.
Proof.
  unfold update_fine_tuning_preferences, Spec.inferred_preference,
    Spec.preference_key.
  intros [<- | [<- | [<- | []]]]; simpl str_eqb; cbv iota; intros H.
  - apply learn_description_inv in H. destruct H as [H _]. rewrite H.
    destruct (length corrected <? 50); [reflexivity|].
    destruct (200 <? length corrected); reflexivity.
  - unfold learn_title in H. apply choose_preference in H.
    destruct H as [H _]. rewrite H.
    destruct (isupper U corrected); [reflexivity|].
    destruct (istitle U corrected); reflexivity.
  - unfold learn_volume_issue in H. apply choose_preference in H.
    destruct H as [H _]. rewrite H.
    destruct (contains (py "Volume") corrected
              && contains (py "Issue") corrected); [reflexivity|].
    destruct (contains (py "Vol.") corrected
              && contains (py "No.") corrected); reflexivity.
Qed.

(** The examples after [update_fine_tuning_preferences]. *)
Lemma fine_tuning_examples (field original corrected : pystr)
      (w w' : world) (ex : list value) :
  update_fine_tuning_preferences U field original corrected w
  = (Return tt, w') ->
  Spec.pref_at w (py "description_examples") = Return (VList ex) ->
  Spec.pref_at w' (py "description_examples")
  = Return (VList (Spec.expected_examples field corrected ex)).
Proof.
  unfold update_fine_tuning_preferences. intros H Hex.
  destruct (str_eqb field (py "description")) eqn:Efield.
  { apply str_eqb_eq in Efield. subst field.
    apply learn_description_inv in H. destruct H as [_ H]. exact (H ex Hex). }
  unfold Spec.expected_examples. rewrite Efield. simpl.
  rewrite <- Hex.
  destruct (str_eqb field (py "title")).
  { unfold learn_title in H. apply choose_preference in H.
    destruct H as [_ H]. exact (H (py "description_examples") eq_refl). }
  destruct (str_eqb field (py "volume_issue")).
  { unfold learn_volume_issue in H. apply choose_preference in H.
    destruct H as [_ H]. exact (H (py "description_examples") eq_refl). }
  apply ret_inv in H. destruct H as [_ ->]. reflexivity.
Qed.

End PreferenceFacts.


(** ** Feedback memory: a well-shaped memory accepts every correction *)

Section Totality.
Import Feedback FeedbackMemory.
Variable U : UnicodeTables.

Lemma bindM_returns {A B} (m : M A) (k : A -> M B) (w w1 : world) (a : A) :
  m w = (Return a, w1) -> bindM m k w = k a w1.
Proof. intros H. unfold bindM. rewrite H. reflexivity. Qed.

Lemma setitem_returns (v : value) (k0 k : pystr) (x y : value) :
  getitem v k0 = Return y -> exists v', setitem v k x = Return v'.
Proof.
  intros H. apply getitem_dict in H. destruct H as (d & -> & _).
  eexists. reflexivity.
Qed.

(** An entry that is replaced by one of the same shape. *)
Lemma update_entry_returns (k : pystr) (f : value -> result value)
      (v x x' : value) :
  getitem v k = Return x -> f x = Return x' ->
  exists v', update_entry k f v = Return v' /\ getitem v' k = Return x'
             /\ forall k', str_eqb k' k = false -> getitem v' k' = getitem v k'.
Proof.
  intros Hx Hx'. destruct (setitem_returns v k k x' _ Hx) as [v' Hv'].
  exists v'. unfold update_entry. rewrite Hx. simpl. rewrite Hx'. simpl.
  split; [exact Hv'|]. split.
  - exact (getitem_setitem_eq _ _ _ _ Hv').
  - intros k' Hneq. exact (getitem_setitem_neq _ _ _ _ _ Hv' Hneq).
Qed.

Lemma good_tick (w : world) : Spec.good w -> Spec.good (tick w).
Proof. intros H. exact H. Qed.

Lemma good_corrections (w : world) (f : value -> result value) :
  Spec.good w ->
  (forall x, Spec.ok_corrections x ->
             exists x', f x = Return x' /\ Spec.ok_corrections x') ->
  exists w', modify (update_entry (py "corrections") f) w = (Return tt, w')
             /\ Spec.good w'.
Proof.
  intros [(Hc & Hp & Hu) Hw] Hf. destruct Hc as (x & Hx & Hok).
  destruct (Hf x Hok) as (x' & Hx' & Hok').
  destruct (update_entry_returns _ _ _ _ _ Hx Hx') as (v' & Hv' & Hsame & Hother).
  exists (with_data w v'). unfold modify. rewrite Hv'.
  split; [reflexivity|]. split; [|exact Hw]. simpl. split; [|split].
  - exists x'. auto.
  - rewrite (Hother (py "patterns") eq_refl). exact Hp.
  - rewrite (Hother (py "user_preferences") eq_refl). exact Hu.
Qed.

Lemma good_patterns (w : world) (f : value -> result value) (x x' : value) :
  Spec.good w ->
  getitem (feedback_data w) (py "patterns") = Return x ->
  f x = Return x' -> Spec.ok_patterns x' ->
  exists w', modify (update_entry (py "patterns") f) w = (Return tt, w')
             /\ Spec.good w'
             /\ getitem (feedback_data w') (py "patterns") = Return x'.
Proof.
  intros [(Hc & Hp & Hu) Hw] Hx Hx' Hok'.
  destruct (update_entry_returns _ _ _ _ _ Hx Hx') as (v' & Hv' & Hsame & Hother).
  exists (with_data w v'). unfold modify. rewrite Hv'.
  split; [reflexivity|]. split; [|exact Hsame].
  split; [|exact Hw]. simpl. split; [|split].
  - rewrite (Hother (py "corrections") eq_refl). exact Hc.
  - exists x'. auto.
  - rewrite (Hother (py "user_preferences") eq_refl). exact Hu.
Qed.

Lemma good_preferences (w : world) (f : value -> result value) :
  Spec.good w ->
  (forall x, Spec.ok_preferences x ->
             exists x', f x = Return x' /\ Spec.ok_preferences x') ->
  exists w', modify (update_entry (py "user_preferences") f) w
             = (Return tt, w')
             /\ Spec.good w'.
Proof.
  intros [(Hc & Hp & Hu) Hw] Hf. destruct Hu as (x & Hx & Hok).
  destruct (Hf x Hok) as (x' & Hx' & Hok').
  destruct (update_entry_returns _ _ _ _ _ Hx Hx') as (v' & Hv' & Hsame & Hother).
  exists (with_data w v'). unfold modify. rewrite Hv'.
  split; [reflexivity|]. split; [|exact Hw]. simpl. split; [|split].
  - rewrite (Hother (py "corrections") eq_refl). exact Hc.
  - rewrite (Hother (py "patterns") eq_refl). exact Hp.
  - exists x'. auto.
Qed.

Lemma good_set_preference (k v : pystr) (w : world) :
  str_eqb (py "description_examples") k = false ->
  Spec.good w ->
  exists w', set_preference k v w = (Return tt, w') /\ Spec.good w'.
Proof.
  intros Hk Hgood. apply good_preferences; [exact Hgood|].
  intros x (up & ex & -> & Hex). eexists. split; [reflexivity|].
  exists (upsert k (VStr v) up), ex. split; [reflexivity|].
  rewrite lookup_upsert_neq by exact Hk. exact Hex.
Qed.

Lemma good_choose_preference (k a b : pystr) (ca cb : bool) (w : world) :
  str_eqb (py "description_examples") k = false ->
  Spec.good w ->
  exists w',
    (if ca then set_preference k a
     else if cb then set_preference k b else ret tt) w = (Return tt, w')
    /\ Spec.good w'.
Proof.
  intros Hk Hgood. destruct ca; [|destruct cb].
  - exact (good_set_preference k a w Hk Hgood).
  - exact (good_set_preference k b w Hk Hgood).
  - exists w. split; [reflexivity | exact Hgood].
Qed.

Lemma good_examples (w : world) :
  Spec.good w ->
  exists ex, preference (py "description_examples") w = (Return (VList ex), w).
Proof.
  intros [(_ & _ & (x & Hx & up & ex & -> & Hex)) _].
  exists ex. unfold preference, read. rewrite Hx. simpl. rewrite Hex.
  reflexivity.
Qed.

(** A change of the examples that keeps them a list. *)
Lemma good_update_examples (w : world) (f : value -> result value)
      (ex ex' : list value) :
  Spec.good w ->
  preference (py "description_examples") w = (Return (VList ex), w) ->
  f (VList ex) = Return (VList ex') ->
  exists w',
    update_preference (py "description_examples") f w = (Return tt, w')
    /\ Spec.good w'
    /\ preference (py "description_examples") w' = (Return (VList ex'), w').
Proof.
  intros Hgood Hread Hf.
  destruct Hgood as [(Hc & Hp & (x & Hx & up & ex0 & -> & Hex0)) Hw].
  assert (ex0 = ex) as ->.
  { unfold preference, read in Hread. rewrite Hx in Hread. simpl in Hread.
    rewrite Hex0 in Hread. inversion Hread. reflexivity. }
  assert (Hup : update_entry (py "description_examples") f (VDict up)
                = Return (VDict (upsert (py "description_examples")
                                        (VList ex') up))).
  { unfold update_entry. simpl. rewrite Hex0. simpl. rewrite Hf. reflexivity. }
  destruct (update_entry_returns _ _ _ _ _ Hx Hup) as (v' & Hv' & Hsame & Hother).
  exists (with_data w v'). unfold update_preference, modify. rewrite Hv'.
  split; [reflexivity|]. split.
  - split; [|exact Hw]. simpl. split; [|split].
    + rewrite (Hother (py "corrections") eq_refl). exact Hc.
    + rewrite (Hother (py "patterns") eq_refl). exact Hp.
    + eexists. split; [exact Hsame|]. eexists. eexists.
      split; [reflexivity|]. apply lookup_upsert_eq.
  - unfold preference, read. simpl. rewrite Hsame. simpl.
    rewrite lookup_upsert_eq. reflexivity.
Qed.

Lemma good_learn_description (corrected : pystr) (w : world) :
  Spec.good w ->
  exists w', learn_description corrected w = (Return tt, w') /\ Spec.good w'.
Proof.
  intros Hgood. unfold learn_description.
  destruct (good_choose_preference (py "description_style")
              brief_style detailed_style
              (length corrected <? 50) (200 <? length corrected) w eq_refl Hgood)
    as (w1 & H1 & Hgood1).
  rewrite (bindM_returns _ _ _ _ _ H1).
  destruct (good_examples w1 Hgood1) as (ex & Hex).
  rewrite (bindM_returns _ _ _ _ _ Hex).
  unfold lift at 1. unfold bindM at 1. simpl contains_str. cbv iota beta.
  destruct (existsb (is_str corrected) ex).
  { exists w1. split; [reflexivity | exact Hgood1]. }
  destruct (good_update_examples w1 (fun l => append l (VStr corrected))
              ex (ex ++ [VStr corrected]) Hgood1 Hex eq_refl)
    as (w2 & H2 & Hgood2 & Hex2).
  rewrite (bindM_returns _ _ _ _ _ H2).
  rewrite (bindM_returns _ _ _ _ _ Hex2).
  unfold lift at 1. unfold bindM at 1. simpl py_len. cbv iota beta.
  destruct (5 <? length (ex ++ [VStr corrected])).
  - destruct (ex ++ [VStr corrected]) as [|y rest] eqn:E.
    { destruct ex; discriminate. }
    destruct (good_update_examples w2 pop0 (y :: rest) rest Hgood2 Hex2 eq_refl)
      as (w3 & H3 & Hgood3 & _).
    exists w3. split; assumption.
  - exists w2. split; [reflexivity | exact Hgood2].
Qed.

Lemma good_fine_tuning (field original corrected : pystr) (w : world) :
  Spec.good w ->
  exists w',
    update_fine_tuning_preferences U field original corrected w
    = (Return tt, w')
    /\ Spec.good w'.
Proof.
  intros Hgood. unfold update_fine_tuning_preferences.
  destruct (str_eqb field (py "description")).
  { exact (good_learn_description corrected w Hgood). }
  destruct (str_eqb field (py "title")).
  { exact (good_choose_preference (py "title_format") _ _ _ _ w eq_refl Hgood). }
  destruct (str_eqb field (py "volume_issue")).
  { exact (good_choose_preference (py "volume_format") _ _ _ _ w eq_refl Hgood). }
  exists w. split; [reflexivity | exact Hgood].
Qed.

Lemma good_save_memory (w : world) :
  Spec.good w ->
  exists w', save_memory w = (Return tt, w') /\ Spec.good w'.
Proof.
  intros [(Hc & Hp & Hu) Hw]. unfold save_memory.
  unfold now at 1. unfold bindM at 1.
  destruct Hc as (x & Hx & Hok).
  destruct (setitem_returns (feedback_data w) _ (py "last_updated")
              (VStr (clock w (ticks w))) _ Hx) as (v' & Hv').
  unfold modify at 1. unfold bindM at 1. simpl feedback_data. rewrite Hv'.
  unfold write_file. simpl write_failure. rewrite Hw.
  eexists. split; [reflexivity|].
  split; [|exact Hw]. simpl. split; [|split].
  - rewrite (getitem_setitem_neq _ _ (py "corrections") _ _ Hv' eq_refl).
    exists x. auto.
  - rewrite (getitem_setitem_neq _ _ (py "patterns") _ _ Hv' eq_refl).
    exact Hp.
  - rewrite (getitem_setitem_neq _ _ (py "user_preferences") _ _ Hv' eq_refl).
    exact Hu.
Qed.

End Totality.

Section TotalityOfCorrections.
Import Feedback FeedbackMemory.
Variable U : UnicodeTables.

Lemma ok_patterns_upsert (field : pystr) (pd dd : dict) :
  Spec.ok_patterns (VDict pd) ->
  Spec.ok_patterns (VDict (upsert field (VDict dd) pd)).
Proof.
  intros (pd' & Heq & Hall). inversion Heq. subst pd'.
  eexists. split; [reflexivity|]. intros f y Hy.
  destruct (str_eqb f field) eqn:E.
  - apply str_eqb_eq in E. subst f. rewrite lookup_upsert_eq in Hy.
    inversion Hy. eauto.
  - rewrite lookup_upsert_neq in Hy by exact E. exact (Hall f y Hy).
Qed.

Lemma good_store_pattern (field key corrected : pystr) (pd dd : dict)
      (w : world) :
  Spec.good w ->
  getitem (feedback_data w) (py "patterns") = Return (VDict pd) ->
  Spec.ok_patterns (VDict pd) ->
  lookup field pd = Some (VDict dd) ->
  exists w',
    modify (update_entry (py "patterns")
              (update_entry field
                 (fun d => setitem d key (VStr corrected)))) w
    = (Return tt, w')
    /\ Spec.good w'.
Proof.
  intros Hgood Hget Hok Hfield.
  destruct (good_patterns w
              (update_entry field (fun d => setitem d key (VStr corrected)))
              (VDict pd)
              (VDict (upsert field (VDict (upsert key (VStr corrected) dd)) pd))
              Hgood Hget) as (w' & H & Hgood' & _).
  - unfold update_entry. simpl. rewrite Hfield. reflexivity.
  - apply ok_patterns_upsert. exact Hok.
  - exists w'. split; assumption.
Qed.

(** A well-shaped memory whose file can be written accepts every
    correction, and stays so. *)
Lemma add_correction_returns
      (filename field original corrected context : pystr) (w : world) :
  Spec.good w ->
  exists w',
    add_correction U filename field original corrected context w
    = (Return tt, w')
    /\ Spec.good w'.
Proof.
  intros Hgood. unfold add_correction.
  unfold now at 1. unfold bindM at 1.
  destruct (good_corrections (tick w)
              (fun l => append l (correction_record filename field original
                                    corrected context (clock w (ticks w))))
              (good_tick w Hgood)) as (w1 & H1 & Hgood1).
  { intros x (cs & ->). eexists. split; [reflexivity|]. eexists. reflexivity. }
  rewrite (bindM_returns _ _ _ _ _ H1).
  pose proof Hgood1 as [(_ & (x & Hx & Hok) & _) _].
  unfold read at 1. unfold bindM at 1. rewrite Hx.
  pose proof Hok as (pd & -> & Hall).
  unfold lift at 1. unfold bindM at 1. simpl contains_str. cbv iota beta.
  assert (Hstore : forall w2 pd2 dd,
             Spec.good w2 ->
             getitem (feedback_data w2) (py "patterns") = Return (VDict pd2) ->
             Spec.ok_patterns (VDict pd2) ->
             lookup field pd2 = Some (VDict dd) ->
             exists w',
               bindM
                 (modify (update_entry (py "patterns")
                            (update_entry field
                               (fun d => setitem d (pattern_key U original)
                                           (VStr corrected)))))
                 (fun _ =>
                    bindM (update_fine_tuning_preferences U field original
                             corrected)
                          (fun _ => save_memory)) w2
               = (Return tt, w')
               /\ Spec.good w').
  { intros w2 pd2 dd Hgood2 Hget2 Hok2 Hfield.
    destruct (good_store_pattern field (pattern_key U original) corrected
                pd2 dd w2 Hgood2 Hget2 Hok2 Hfield) as (w3 & H3 & Hgood3).
    rewrite (bindM_returns _ _ _ _ _ H3).
    destruct (good_fine_tuning U field original corrected w3 Hgood3)
      as (w4 & H4 & Hgood4).
    rewrite (bindM_returns _ _ _ _ _ H4).
    exact (good_save_memory w4 Hgood4). }
  unfold has_key. destruct (lookup field pd) as [y|] eqn:Efield.
  - destruct (Hall field y Efield) as (dd & ->).
    unfold ret at 1. unfold bindM at 1.
    exact (Hstore w1 pd dd Hgood1 Hx Hok Efield).
  - destruct (good_patterns w1 (fun p => setitem p field (VDict []))
                (VDict pd) (VDict (upsert field (VDict []) pd))
                Hgood1 Hx eq_refl (ok_patterns_upsert field pd [] Hok))
      as (w2 & H2 & Hgood2 & Hget2).
    rewrite (bindM_returns _ _ _ _ _ H2).
    apply (Hstore w2 _ [] Hgood2 Hget2 (ok_patterns_upsert field pd [] Hok)).
    apply lookup_upsert_eq.
Qed.

Lemma default_memory_well_shaped : Spec.well_shaped default_memory.
Proof.
  split; [|split].
  - eexists. split; [reflexivity|]. eexists. reflexivity.
  - eexists. split; [reflexivity|]. eexists. split; [reflexivity|].
    intros f y H. discriminate H.
  - eexists. split; [reflexivity|]. eexists. eexists.
    split; reflexivity.
Qed.

End TotalityOfCorrections.

(** C5, as stated, fails: a stored object that holds [corrections] only is
    loaded as it is, [patterns] is not defaulted, and [add_correction]
    raises [KeyError]. *)
Lemma C5_counterexample :
  FeedbackMemory.load_memory
    (Feedback.JsonFile (VDict [(py "corrections", VList [])]))
  = VDict [(py "corrections", VList [])]
  /\ Spec.data_at Samples.partial_memory (py "patterns")
     = Raise (Exn "KeyError" (py "'patterns'"))
  /\ fst (FeedbackMemory.add_correction ascii_tables
            (py "a.pdf") (py "title") (py "old title") (py "New Title")
            (py "File: a.pdf") Samples.partial_memory)
     = Raise (Exn "KeyError" (py "'patterns'")).
Proof. repeat split. Qed.

(** C5, amended.  Loading never fails: a missing or unreadable file gives
    the default memory, on which [add_correction] succeeds whenever the
    file can be written; a file that parses gives what it holds, as it is,
    and [add_correction] then succeeds when that memory is well shaped. *)
Theorem C5_load_memory (U : UnicodeTables) :
  FeedbackMemory.load_memory Feedback.Absent = FeedbackMemory.default_memory
  /\ FeedbackMemory.load_memory Feedback.Garbled
     = FeedbackMemory.default_memory
  /\ (forall content,
         FeedbackMemory.load_memory (Feedback.JsonFile content) = content)
  /\ (forall f clock filename field original corrected context,
         Spec.well_shaped (FeedbackMemory.load_memory f) ->
         exists w',
           FeedbackMemory.add_correction U filename field original corrected
             context (FeedbackMemory.init f None clock)
           = (Return tt, w'))
  /\ Spec.well_shaped FeedbackMemory.default_memory.
Proof.
  split; [reflexivity|]. split; [reflexivity|]. split; [reflexivity|].
  split; [|apply default_memory_well_shaped].
  intros f clock filename field original corrected context Hshape.
  destruct (add_correction_returns U filename field original corrected context
              (FeedbackMemory.init f None clock)) as (w' & H & _).
  - split; [exact Hshape | reflexivity].
  - exists w'. exact H.
Qed.

Lemma C5_witness :
  exists w',
    FeedbackMemory.add_correction ascii_tables
      (py "a.pdf") (py "title") (py "old title") (py "New Title")
      (py "File: a.pdf") Samples.fresh_memory
    = (Return tt, w').
Proof.
  apply (proj1 (proj2 (proj2 (proj2 (C5_load_memory ascii_tables))))
               Feedback.Absent Samples.fixed_clock).
  split; [|split].
  - eexists. split; [reflexivity|]. eexists. reflexivity.
  - eexists. split; [reflexivity|]. eexists. split; [reflexivity|].
    intros f y H. discriminate H.
  - eexists. split; [reflexivity|]. eexists. eexists. split; reflexivity.
Defined.

(** C7.  [add_correction] is idempotent on the pattern table: a second call
    with the same arguments leaves [self.feedback_data["patterns"]] exactly
    as the first call left it; on a well-shaped memory both calls return. *)
Theorem C7_patterns_idempotent
        (U : UnicodeTables)
        (filename field original corrected context : pystr)
        (w : Feedback.world) :
  (Spec.good w ->
   exists w1 w2,
     FeedbackMemory.add_correction U filename field original corrected
       context w = (Return tt, w1)
     /\ FeedbackMemory.add_correction U filename field original corrected
          context w1 = (Return tt, w2))
  /\ (forall w1 w2,
         FeedbackMemory.add_correction U filename field original corrected
           context w = (Return tt, w1) ->
         FeedbackMemory.add_correction U filename field original corrected
           context w1 = (Return tt, w2) ->
         Spec.data_at w2 (py "patterns") = Spec.data_at w1 (py "patterns")).
Proof.
  split.
  { intros Hgood.
    destruct (add_correction_returns U filename field original corrected
                context w Hgood) as (w1 & H1 & Hgood1).
    destruct (add_correction_returns U filename field original corrected
                context w1 Hgood1) as (w2 & H2 & _).
    exists w1, w2. split; assumption. }
  intros w1 w2 H1 H2.
  apply add_correction_inv in H1.
  destruct H1 as (wa & wb & _ & (pd & dd & Hpd & Hfield & Hkey) & _ & Hft & Hsave).
  assert (Hw1 : Spec.data_at w1 (py "patterns") = Return (VDict pd)).
  { rewrite (preserves_save_memory (py "patterns") eq_refl _ _ _ Hsave).
    rewrite (preserves_fine_tuning U (py "patterns") _ _ _ eq_refl _ _ _ Hft).
    exact Hpd. }
  apply add_correction_inv in H2.
  destruct H2 as (wc & wd & _ & _ & Hidem & Hft' & Hsave').
  rewrite (preserves_save_memory (py "patterns") eq_refl _ _ _ Hsave').
  rewrite (preserves_fine_tuning U (py "patterns") _ _ _ eq_refl _ _ _ Hft').
  rewrite (Hidem pd dd Hw1 Hfield Hkey). symmetry. exact Hw1.
Qed.

Lemma C7_witness :
  Spec.data_at
    (snd (FeedbackMemory.add_corrections ascii_tables
            [Samples.vol_no_correction; Samples.vol_no_correction]
            Samples.fresh_memory))
    (py "patterns")
  = Spec.data_at
      (snd (FeedbackMemory.add_corrections ascii_tables
              [Samples.vol_no_correction] Samples.fresh_memory))
      (py "patterns").
Proof.
  apply (proj2 (C7_patterns_idempotent ascii_tables
                  (py "a.pdf") (py "volume_issue") (py "3/4")
                  (py "Vol. 3, No. 4") (py "File: a.pdf")
                  Samples.fresh_memory));
    vm_compute; reflexivity.
Defined.

(** C9.  After a correction of [volume_issue], [volume_format] is the
    "Volume X, Issue Y" convention when the corrected value contains both
    ["Volume"] and ["Issue"], else the "Vol. X, No. Y" convention when it
    contains both ["Vol."] and ["No."], else what it was.  A correction to
    ["Vol. 3, No. 4"] sets the second convention and a later correction to
    ["Volume 3, Issue 4"] replaces it by the first.  On a well-shaped
    memory the correction returns. *)
Theorem C9_volume_format (U : UnicodeTables) :
  (forall filename original corrected context w w',
      FeedbackMemory.add_correction U filename (py "volume_issue")
        original corrected context w = (Return tt, w') ->
      Spec.pref_at w' (py "volume_format")
      = if contains (py "Volume") corrected && contains (py "Issue") corrected
        then Return (VStr (py "Use 'Volume X, Issue Y' format"))
        else if contains (py "Vol.") corrected && contains (py "No.") corrected
             then Return (VStr (py "Use 'Vol. X, No. Y' format"))
             else Spec.pref_at w (py "volume_format"))
  /\ (forall f1 o1 c1 f2 o2 c2 w w1 w2,
         FeedbackMemory.add_correction U f1 (py "volume_issue")
           o1 (py "Vol. 3, No. 4") c1 w = (Return tt, w1) ->
         FeedbackMemory.add_correction U f2 (py "volume_issue")
           o2 (py "Volume 3, Issue 4") c2 w1 = (Return tt, w2) ->
         Spec.pref_at w1 (py "volume_format")
         = Return (VStr (py "Use 'Vol. X, No. Y' format"))
         /\ Spec.pref_at w2 (py "volume_format")
            = Return (VStr (py "Use 'Volume X, Issue Y' format")))
  /\ (forall filename original corrected context w,
         Spec.good w ->
         exists w',
           FeedbackMemory.add_correction U filename (py "volume_issue")
             original corrected context w = (Return tt, w')).
Proof.
  assert (Hmain : forall filename original corrected context w w',
      FeedbackMemory.add_correction U filename (py "volume_issue")
        original corrected context w = (Return tt, w') ->
      Spec.pref_at w' (py "volume_format")
      = match Spec.inferred_preference U (py "volume_issue") corrected with
        | Some v => Return (VStr v)
        | None => Spec.pref_at w (py "volume_format")
        end).
  { intros filename original corrected context w w' H.
    apply (add_correction_pref U _ _ _ _ _ (py "volume_format")) in H.
    destruct H as (w1 & w2 & Hbefore & Hafter & Hft).
    rewrite Hafter, <- Hbefore.
    apply (fine_tuning_own_preference U (py "volume_issue")) in Hft.
    - exact Hft.
    - right. right. left. reflexivity. }
  split; [|split].
  3: { intros filename original corrected context w Hgood.
       destruct (add_correction_returns U filename (py "volume_issue")
                   original corrected context w Hgood) as (w' & H & _).
       exists w'. exact H. }
  - intros filename original corrected context w w' H.
    rewrite (Hmain _ _ _ _ _ _ H). unfold Spec.inferred_preference.
    simpl str_eqb. cbv iota.
    destruct (contains (py "Volume") corrected
              && contains (py "Issue") corrected); [reflexivity|].
    destruct (contains (py "Vol.") corrected
              && contains (py "No.") corrected); reflexivity.
  - intros f1 o1 c1 f2 o2 c2 w w1 w2 H1 H2. split.
    + rewrite (Hmain _ _ _ _ _ _ H1). reflexivity.
    + rewrite (Hmain _ _ _ _ _ _ H2). reflexivity.
Qed.

Lemma C9_witness :
  Spec.pref_at
    (snd (FeedbackMemory.add_corrections ascii_tables
            [Samples.vol_no_correction] Samples.fresh_memory))
    (py "volume_format")
  = Return (VStr (py "Use 'Vol. X, No. Y' format")).
Proof.
  apply (proj1 (C9_volume_format ascii_tables)
               (py "a.pdf") (py "3/4") (py "Vol. 3, No. 4") (py "File: a.pdf")
               Samples.fresh_memory).
  vm_compute. reflexivity.
Defined.

(** C6, as stated, fails: two histories that end with the same correction
    of [volume_issue] leave different values of [volume_format], because
    the last corrected value triggers no rule. *)
Lemma C6_counterexample :
  exists wa wb,
    FeedbackMemory.add_corrections ascii_tables
      [Samples.vol_no_correction; Samples.plain_correction]
      Samples.fresh_memory = (Return tt, wa)
    /\ FeedbackMemory.add_corrections ascii_tables
         [Samples.plain_correction] Samples.fresh_memory = (Return tt, wb)
    /\ Spec.pref_at wa (py "volume_format")
       <> Spec.pref_at wb (py "volume_format").
Proof.
  eexists. eexists. split; [vm_compute; reflexivity|].
  split; [vm_compute; reflexivity|].
  vm_compute. discriminate.
Qed.

(** C6, amended.  After a correction of [description], [title] or
    [volume_issue] whose corrected value triggers a rule of its field, the
    preference of the field is what the rule gives for that value, so two
    histories that end with it agree on the preference; when the value
    triggers no rule, the preference is what it was before the
    correction. *)
Theorem C6_latest_correction_wins
        (U : UnicodeTables) (field corrected : pystr)
        (f1 o1 c1 f2 o2 c2 : pystr) (wa wa' wb wb' : Feedback.world) :
  In field Spec.learning_fields ->
  FeedbackMemory.add_correction U f1 field o1 corrected c1 wa
  = (Return tt, wa') ->
  FeedbackMemory.add_correction U f2 field o2 corrected c2 wb
  = (Return tt, wb') ->
  match Spec.inferred_preference U field corrected with
  | Some v =>
      Spec.pref_at wa' (Spec.preference_key field) = Return (VStr v)
      /\ Spec.pref_at wb' (Spec.preference_key field)
         = Spec.pref_at wa' (Spec.preference_key field)
  | None =>
      Spec.pref_at wa' (Spec.preference_key field)
      = Spec.pref_at wa (Spec.preference_key field)
      /\ Spec.pref_at wb' (Spec.preference_key field)
         = Spec.pref_at wb (Spec.preference_key field)
  end.
Proof.
  intros Hfield Ha Hb.
  assert (Hone : forall f o c w w',
             FeedbackMemory.add_correction U f field o corrected c w
             = (Return tt, w') ->
             Spec.pref_at w' (Spec.preference_key field)
             = match Spec.inferred_preference U field corrected with
               | Some v => Return (VStr v)
               | None => Spec.pref_at w (Spec.preference_key field)
               end).
  { intros f o c w w' H.
    apply (add_correction_pref U _ _ _ _ _ (Spec.preference_key field)) in H.
    destruct H as (w1 & w2 & Hbefore & Hafter & Hft).
    rewrite Hafter, <- Hbefore.
    exact (fine_tuning_own_preference U _ _ _ _ _ Hfield Hft). }
  apply Hone in Ha. apply Hone in Hb.
  destruct (Spec.inferred_preference U field corrected).
  - split; [exact Ha | congruence].
  - split; assumption.
Qed.

Lemma C6_witness :
  Spec.pref_at
    (snd (FeedbackMemory.add_corrections ascii_tables
            [Samples.plain_correction; Samples.vol_no_correction]
            Samples.fresh_memory))
    (py "volume_format")
  = Return (VStr FeedbackMemory.vol_no_format)
  /\ Spec.pref_at
       (snd (FeedbackMemory.add_corrections ascii_tables
               [Samples.vol_no_correction] Samples.fresh_memory))
       (py "volume_format")
     = Spec.pref_at
         (snd (FeedbackMemory.add_corrections ascii_tables
                 [Samples.plain_correction; Samples.vol_no_correction]
                 Samples.fresh_memory))
         (py "volume_format").
Proof.
  apply (C6_latest_correction_wins ascii_tables
           (py "volume_issue") (py "Vol. 3, No. 4")
           (py "a.pdf") (py "3/4") (py "File: a.pdf")
           (py "a.pdf") (py "3/4") (py "File: a.pdf")
           (snd (FeedbackMemory.add_corrections ascii_tables
                   [Samples.plain_correction] Samples.fresh_memory))
           _
           Samples.fresh_memory).
  - right. right. left. reflexivity.
  - vm_compute. reflexivity.
  - vm_compute. reflexivity.
Defined.

(** C8.  From a state whose [description_examples] has at most 5 entries,
    a correction leaves at most 5 entries: a corrected description that is
    not among them is appended, and the first entry is removed when that
    makes 6; otherwise the list is unchanged.  On a well-shaped memory the
    correction returns. *)
Theorem C8_examples_bounded
        (U : UnicodeTables)
        (filename field original corrected context : pystr)
        (w : Feedback.world) (examples : list value) :
  Spec.pref_at w (py "description_examples") = Return (VList examples) ->
  length examples <= 5 ->
  (Spec.good w ->
   exists w',
     FeedbackMemory.add_correction U filename field original corrected
       context w = (Return tt, w'))
  /\ (forall w',
         FeedbackMemory.add_correction U filename field original corrected
           context w = (Return tt, w') ->
         exists examples',
           Spec.pref_at w' (py "description_examples")
           = Return (VList examples')
           /\ length examples' <= 5
           /\ examples'
              = (if str_eqb field (py "description")
                    && negb (existsb (Feedback.is_str corrected) examples)
                 then if length examples <? 5
                      then examples ++ [VStr corrected]
                      else tl examples ++ [VStr corrected]
                 else examples)).
Proof.
  intros Hex Hlen. split.
  { intros Hgood.
    destruct (add_correction_returns U filename field original corrected
                context w Hgood) as (w' & H & _).
    exists w'. exact H. }
  intros w' H.
  apply (add_correction_pref U _ _ _ _ _ (py "description_examples")) in H.
  destruct H as (w1 & w2 & Hbefore & Hafter & Hft).
  rewrite <- Hbefore in Hex.
  apply (fine_tuning_examples U _ _ _ _ _ _ Hft) in Hex.
  rewrite <- Hafter in Hex.
  exists (Spec.expected_examples field corrected examples).
  split; [exact Hex|].
  unfold Spec.expected_examples.
  destruct (str_eqb field (py "description")
            && negb (existsb (Feedback.is_str corrected) examples));
    [|split; [exact Hlen | reflexivity]].
  cbv zeta. rewrite length_app. simpl length.
  destruct (length examples <? 5) eqn:E.
  - apply Nat.ltb_lt in E.
    replace (5 <? length examples + 1) with false
      by (symmetry; apply Nat.ltb_ge; lia).
    split; [rewrite length_app; simpl; lia | reflexivity].
  - apply Nat.ltb_ge in E.
    replace (5 <? length examples + 1) with true
      by (symmetry; apply Nat.ltb_lt; lia).
    destruct examples as [|x rest]; [simpl in E; lia|].
    simpl. split; [rewrite length_app; simpl in *; lia | reflexivity].
Qed.

Lemma C8_witness :
  (Spec.good Samples.fresh_memory ->
   exists w',
     FeedbackMemory.add_correction ascii_tables
       (py "a.pdf") (py "description") (py "old") (py "A short description")
       (py "File: a.pdf") Samples.fresh_memory = (Return tt, w'))
  /\ (forall w',
         FeedbackMemory.add_correction ascii_tables
           (py "a.pdf") (py "description") (py "old")
           (py "A short description") (py "File: a.pdf")
           Samples.fresh_memory = (Return tt, w') ->
         exists examples',
           Spec.pref_at w' (py "description_examples")
           = Return (VList examples')
           /\ length examples' <= 5
           /\ examples' = [VStr (py "A short description")]).
Proof.
  apply (C8_examples_bounded ascii_tables
           (py "a.pdf") (py "description") (py "old")
           (py "A short description") (py "File: a.pdf")
           Samples.fresh_memory []).
  - reflexivity.
  - simpl. lia.
Defined.

(* ================================================================== *)
(** * Further properties of the validator *)
(* ================================================================== *)

Section ValidatorRules.
Import Validator.
Variable U : UnicodeTables.
Variable violation_message : dict -> pystr.

Lemma title_warnings_spec (title : pystr) (m : pystr) :
  In m (title_warnings title)
  <-> (m = py "Title missing or too short" /\ len title < 3)
      \/ (m = py "Title unusually long - may be incorrect" /\ 200 < len title).
Proof.
  unfold title_warnings.
  assert (Hshort : is_empty title || (len title <? 3) = (len title <? 3)).
  { destruct title; reflexivity. }
  rewrite Hshort.
  destruct (len title <? 3) eqn:E3.
  - apply Nat.ltb_lt in E3. simpl. split.
    + intros [<- | []]. left. auto.
    + intros [[-> _] | [_ H]]; [left; reflexivity | lia].
  - apply Nat.ltb_ge in E3. destruct (200 <? len title) eqn:E200.
    + apply Nat.ltb_lt in E200. simpl. split.
      * intros [<- | []]. right. auto.
      * intros [[_ H] | [-> _]]; [lia | left; reflexivity].
    + apply Nat.ltb_ge in E200. simpl. split; [tauto|].
      intros [[_ H] | [_ H]]; lia.
Qed.

Lemma description_warnings_spec (description : pystr) (m : pystr) :
  In m (description_warnings description)
  <-> (m = py "Description missing or too short" /\ len description < 10)
      \/ (m = py "Description unusually long - may include extra content"
          /\ 1000 < len description).
Proof.
  unfold description_warnings.
  assert (Hshort : is_empty description || (len description <? 10)
                   = (len description <? 10)).
  { destruct description; reflexivity. }
  rewrite Hshort.
  destruct (len description <? 10) eqn:E10.
  - apply Nat.ltb_lt in E10. simpl. split.
    + intros [<- | []]. left. auto.
    + intros [[-> _] | [_ H]]; [left; reflexivity | lia].
  - apply Nat.ltb_ge in E10. destruct (1000 <? len description) eqn:E1000.
    + apply Nat.ltb_lt in E1000. simpl. split.
      * intros [<- | []]. right. auto.
      * intros [[_ H] | [-> _]]; [lia | left; reflexivity].
    + apply Nat.ltb_ge in E1000. simpl. split; [tauto|].
      intros [[_ H] | [_ H]]; lia.
Qed.

Lemma date_warnings_spec (pub_date : pystr) (m : pystr) :
  In m (date_warnings U pub_date)
  <-> m = date_warning /\ pub_date <> [] /\ year_search U pub_date = false.
Proof.
  unfold date_warnings. destruct pub_date as [|c r]; simpl.
  - split; [tauto | intros (_ & H & _); congruence].
  - destruct (year_search U (c :: r)); simpl.
    + split; [tauto | intros (_ & _ & H); discriminate].
    + split.
      * intros [<- | []]. repeat split. discriminate.
      * intros (-> & _). left. reflexivity.
Qed.

Lemma warnings_of_validate (title pub_date description volume_issue : pystr) :
  warnings (validate_metadata U violation_message
              title pub_date description volume_issue)
  = title_warnings title ++ date_warnings U pub_date
      ++ description_warnings description.
Proof.
  unfold validate_metadata. cbn [warnings].
  rewrite metadata_conforms, app_nil_r. reflexivity.
Qed.

Lemma title_warnings_empty (title : pystr) :
  title_warnings title = [] <-> 3 <= len title <= 200.
Proof.
  split.
  - intros H.
    assert (H1 : ~ In (py "Title missing or too short") (title_warnings title))
      by (rewrite H; intros []).
    assert (H2 : ~ In (py "Title unusually long - may be incorrect")
                      (title_warnings title)) by (rewrite H; intros []).
    rewrite title_warnings_spec in H1, H2.
    split.
    + destruct (Nat.lt_ge_cases (len title) 3) as [Hlt|Hge]; [|exact Hge].
      exfalso. apply H1. left. auto.
    + destruct (Nat.lt_ge_cases 200 (len title)) as [Hlt|Hge]; [|exact Hge].
      exfalso. apply H2. right. auto.
  - intros [H3 H200]. destruct (title_warnings title) as [|m l] eqn:E;
      [reflexivity|].
    assert (Hin : In m (title_warnings title)) by (rewrite E; left; reflexivity).
    apply title_warnings_spec in Hin. destruct Hin as [[_ H] | [_ H]]; lia.
Qed.

Lemma description_warnings_empty (description : pystr) :
  description_warnings description = [] <-> 10 <= len description <= 1000.
Proof.
  split.
  - intros H.
    assert (H1 : ~ In (py "Description missing or too short")
                      (description_warnings description))
      by (rewrite H; intros []).
    assert (H2 : ~ In (py "Description unusually long - may include extra content")
                      (description_warnings description))
      by (rewrite H; intros []).
    rewrite description_warnings_spec in H1, H2.
    split.
    + destruct (Nat.lt_ge_cases (len description) 10) as [Hlt|Hge];
        [|exact Hge].
      exfalso. apply H1. left. auto.
    + destruct (Nat.lt_ge_cases 1000 (len description)) as [Hlt|Hge];
        [|exact Hge].
      exfalso. apply H2. right. auto.
  - intros [H10 H1000].
    destruct (description_warnings description) as [|m l] eqn:E;
      [reflexivity|].
    assert (Hin : In m (description_warnings description))
      by (rewrite E; left; reflexivity).
    apply description_warnings_spec in Hin.
    destruct Hin as [[_ H] | [_ H]]; lia.
Qed.

Lemma date_warnings_empty (pub_date : pystr) :
  date_warnings U pub_date = []
  <-> pub_date = [] \/ Spec.has_delimited_year U pub_date.
Proof.
  rewrite <- year_search_spec. unfold date_warnings.
  destruct pub_date as [|c r]; simpl.
  - split; auto.
  - destruct (year_search U (c :: r)); simpl.
    + split; auto.
    + split; [discriminate | intros [H | H]; discriminate].
Qed.

Lemma is_empty_app3 {A} (a b c : list A) :
  is_empty (a ++ b ++ c) = true <-> a = [] /\ b = [] /\ c = [].
Proof.
  destruct a; simpl.
  - destruct b; simpl.
    + destruct c; simpl; split; try tauto; try discriminate.
      intros (_ & _ & H). discriminate.
    + split; [discriminate | intros (_ & H & _); discriminate].
  - split; [discriminate | intros (H & _); discriminate].
Qed.

Lemma success_bounds (title pub_date description volume_issue : pystr) :
  success (validate_metadata U violation_message
             title pub_date description volume_issue) = true ->
  3 <= len title <= 200
  /\ (pub_date = [] \/ Spec.has_delimited_year U pub_date)
  /\ 10 <= len description <= 1000.
Proof.
  intros H.
  change (is_empty (warnings (validate_metadata U violation_message
                                title pub_date description volume_issue))
          = true) in H.
  rewrite warnings_of_validate in H. apply is_empty_app3 in H.
  destruct H as (Ht & Hp & Hd).
  apply title_warnings_empty in Ht. apply date_warnings_empty in Hp.
  apply description_warnings_empty in Hd. auto.
Qed.

End ValidatorRules.

(** X1.  [validate_metadata] reports success exactly when the title has 3 to
    200 characters, the description has 10 to 1000 characters, and the date
    is empty or holds a delimited year. *)
Theorem X1_success_characterised
        (U : UnicodeTables) (violation_message : dict -> pystr)
        (title pub_date description volume_issue : pystr) :
  Validator.success
    (Validator.validate_metadata U violation_message
       title pub_date description volume_issue) = true
  <-> 3 <= len title <= 200
      /\ (pub_date = [] \/ Spec.has_delimited_year U pub_date)
      /\ 10 <= len description <= 1000.
Proof.
  assert (Hs : Validator.success
                 (Validator.validate_metadata U violation_message
                    title pub_date description volume_issue)
               = Validator.is_empty
                   (Validator.warnings
                      (Validator.validate_metadata U violation_message
                         title pub_date description volume_issue)))
    by reflexivity.
  rewrite Hs, warnings_of_validate, is_empty_app3.
  rewrite title_warnings_empty, date_warnings_empty, description_warnings_empty.
  reflexivity.
Qed.

(** X2.  Every warning of [validate_metadata] is one of five fixed messages,
    so the schema check never adds one; at most three warnings occur, and
    neither the warnings nor the success flag depend on [volume_issue]. *)
Theorem X2_warnings_closed
        (U : UnicodeTables) (violation_message : dict -> pystr)
        (title pub_date description volume_issue : pystr) :
  let r := Validator.validate_metadata U violation_message
             title pub_date description volume_issue in
  Forall (fun m =>
            In m [ py "Title missing or too short";
                   py "Title unusually long - may be incorrect";
                   py "Date format unexpected - no 4-digit year found";
                   py "Description missing or too short";
                   py "Description unusually long - may include extra content" ])
         (Validator.warnings r)
  /\ length (Validator.warnings r) <= 3
  /\ forall other,
       Validator.warnings
         (Validator.validate_metadata U violation_message
            title pub_date description other) = Validator.warnings r
       /\ Validator.success
            (Validator.validate_metadata U violation_message
               title pub_date description other) = Validator.success r.
Proof.
  intros r. unfold r. split; [|split].
  - rewrite warnings_of_validate. apply Forall_forall. intros m Hm.
    rewrite !in_app_iff in Hm.
    rewrite title_warnings_spec, date_warnings_spec,
      description_warnings_spec in Hm.
    destruct Hm as [[[-> _] | [-> _]] | [(-> & _) | [[-> _] | [-> _]]]];
      simpl; auto 10.
  - rewrite warnings_of_validate, !length_app.
    unfold Validator.title_warnings, Validator.date_warnings,
      Validator.description_warnings.
    destruct (Validator.is_empty title || (len title <? 3));
      [|destruct (200 <? len title)];
      (destruct (negb (Validator.is_empty pub_date)
                 && negb (Validator.year_search U pub_date)));
      (destruct (Validator.is_empty description || (len description <? 10));
       [|destruct (1000 <? len description)]); simpl; lia.
  - intros other. split; reflexivity.
Qed.

(** X3.  The bounds of the title and description rules are exclusive on the
    short side and on the long side: the "too short" warnings appear exactly
    below 3 and 10 characters, the "unusually long" ones exactly above 200
    and 1000. *)
Theorem X3_length_rules
        (U : UnicodeTables) (violation_message : dict -> pystr)
        (title pub_date description volume_issue : pystr) :
  let ws := Validator.warnings
              (Validator.validate_metadata U violation_message
                 title pub_date description volume_issue) in
  (In (py "Title missing or too short") ws <-> len title < 3)
  /\ (In (py "Title unusually long - may be incorrect") ws
      <-> 200 < len title)
  /\ (In (py "Description missing or too short") ws <-> len description < 10)
  /\ (In (py "Description unusually long - may include extra content") ws
      <-> 1000 < len description).
Proof.
  intros ws. unfold ws. rewrite warnings_of_validate.
  repeat split; rewrite ?in_app_iff, ?title_warnings_spec,
    ?date_warnings_spec, ?description_warnings_spec;
    try (intros [[[_ H] | [H _]] | [(H & _) | [[H _] | [H _]]]];
         solve [exact H | vm_compute in H; discriminate H]);
    try (intros [[[H _] | [_ H]] | [(H & _) | [[H _] | [H _]]]];
         solve [exact H | vm_compute in H; discriminate H]);
    try (intros [[[H _] | [H _]] | [(H & _) | [[_ H] | [H _]]]];
         solve [exact H | vm_compute in H; discriminate H]);
    try (intros [[[H _] | [H _]] | [(H & _) | [[H _] | [_ H]]]];
         solve [exact H | vm_compute in H; discriminate H]);
    intros H; auto 10.
Qed.

(* ================================================================== *)
(** * Further properties of the segmenter *)
(* ================================================================== *)

Section SegmenterRules.
Import Segmenter.

Lemma drop_while_length (p : char -> bool) (s : pystr) :
  length (drop_while p s) <= length s.
Proof.
  destruct (drop_while_suffix p s) as [l H].
  rewrite H at 2. rewrite length_app. lia.
Qed.

Lemma strip_length (s : pystr) : length (strip s) <= length s.
Proof.
  unfold strip, rstrip, lstrip. rewrite length_rev.
  etransitivity; [apply drop_while_length|]. rewrite length_rev.
  apply drop_while_length.
Qed.

Lemma collapse_newlines_length (s : pystr) :
  forall skip, length (replace_from [NL; NL] [NL] skip s) <= length s.
Proof.
  induction s as [|c s IH]; intros skip; [simpl; lia|].
  destruct skip as [|k].
  - cbn [replace_from]. destruct (starts_with [NL; NL] (c :: s)).
    + simpl. specialize (IH 1). simpl in IH. lia.
    + simpl. specialize (IH 0). lia.
  - cbn [replace_from]. specialize (IH k). simpl. lia.
Qed.

Lemma sub_ws_runs_length (s : pystr) :
  forall in_run, length (sub_ws_runs in_run s) <= length s.
Proof.
  induction s as [|c s IH]; intros in_run; simpl; [lia|].
  destruct (isspace c); [destruct in_run|]; simpl;
    match goal with |- context [sub_ws_runs ?b s] => specialize (IH b) end;
    lia.
Qed.

Lemma clean_length (U : UnicodeTables) (raw_text : pystr) :
  length (clean U raw_text) <= length raw_text.
Proof.
  unfold clean, remove_artifacts, normalize_whitespace, replace.
  etransitivity; [apply filter_length_le|].
  etransitivity; [apply sub_ws_runs_length|].
  etransitivity; [apply collapse_newlines_length|].
  apply strip_length.
Qed.

Lemma segments_of_clean (U : UnicodeTables) (raw_text : pystr) :
  clean_and_segment U raw_text
  = Return (if 20 <? len (strip (clean U raw_text))
            then [strip (clean U raw_text)] else []).
Proof.
  assert (Hcand : candidate_segments (clean U raw_text)
                  = if 20 <? len (strip (clean U raw_text))
                    then [strip (clean U raw_text)] else []).
  { unfold candidate_segments. rewrite paragraphs_of_clean.
    unfold long_enough.
    destruct (20 <? len (strip (clean U raw_text))) eqn:E; [reflexivity|].
    apply sentences_of_short_text. apply Nat.ltb_ge in E. exact E. }
  unfold clean_and_segment, segment_attempt. simpl. rewrite Hcand.
  destruct (20 <? len (strip (clean U raw_text))); reflexivity.
Qed.

Lemma in_drop_while (p : char -> bool) (s : pystr) (c : char) :
  In c (drop_while p s) -> In c s.
Proof.
  destruct (drop_while_suffix p s) as [l H]. intros Hc.
  rewrite H. apply in_or_app. right. exact Hc.
Qed.

Lemma in_strip (s : pystr) (c : char) : In c (strip s) -> In c s.
Proof.
  unfold strip, rstrip, lstrip. intros H.
  apply in_rev in H. apply in_drop_while in H. apply in_rev in H.
  apply in_drop_while in H. exact H.
Qed.

Lemma clean_characters (U : UnicodeTables) (raw_text : pystr) (c : char) :
  In c (clean U raw_text) ->
  is_word U c = true \/ c = SPACE \/ kept_punct c = true.
Proof.
  unfold clean, remove_artifacts, normalize_whitespace. intros H.
  apply filter_In in H. destruct H as [Hin Hkept].
  unfold kept_char in Hkept. rewrite !orb_true_iff in Hkept.
  destruct Hkept as [[Hw | Hs] | Hp]; auto.
  right. left. exact (sub_ws_runs_space _ _ _ Hin Hs).
Qed.

End SegmenterRules.

(** X4.  A text of at most 20 characters gives no segment, and [process_pdf]
    then returns the preprocessing failure whatever the service answers. *)
Theorem X4_short_text_rejected
        (U : UnicodeTables) (post_json : pystr -> result value)
        (format_value : value -> pystr) (violation_message : dict -> pystr)
        (user_preferences : dict)
        (pdf_text : pystr) (target_date_range : option pystr) :
  len pdf_text <= 20 ->
  Segmenter.clean_and_segment U pdf_text = Return []
  /\ Orchestrator.process_pdf U post_json format_value violation_message
       user_preferences pdf_text target_date_range
     = Return {| Validator.data := [];
                 Validator.warnings :=
                   [py "No text segments found after preprocessing"];
                 Validator.success := false;
                 Validator.stage := py "preprocessing" |}.
Proof.
  intros Hlen.
  assert (Hseg : Segmenter.clean_and_segment U pdf_text = Return []).
  { rewrite segments_of_clean.
    pose proof (strip_length (Segmenter.clean U pdf_text)) as H1.
    pose proof (clean_length U pdf_text) as H2. unfold len in *.
    replace (20 <? length (strip (Segmenter.clean U pdf_text))) with false
      by (symmetry; apply Nat.ltb_ge; lia).
    reflexivity. }
  split; [exact Hseg|].
  unfold Orchestrator.process_pdf, Orchestrator.process_attempt.
  rewrite Hseg. reflexivity.
Qed.

Lemma X4_witness :
  Segmenter.clean_and_segment ascii_tables (py "Boletin # 12") = Return []
  /\ Orchestrator.process_pdf ascii_tables Samples.echo_service
       Samples.no_format Samples.no_message [] (py "Boletin # 12") None
     = Return {| Validator.data := [];
                 Validator.warnings :=
                   [py "No text segments found after preprocessing"];
                 Validator.success := false;
                 Validator.stage := py "preprocessing" |}.
Proof.
  apply (X4_short_text_rejected ascii_tables Samples.echo_service
           Samples.no_format Samples.no_message [] (py "Boletin # 12") None).
  unfold len. simpl. lia.
Defined.

(** X5.  A segment is the cleaned text without its outer whitespace: it is
    longer than 20 characters, neither starts nor ends with whitespace, and
    holds only word characters, single spaces and the nine punctuation
    marks of the cleaning pattern. *)
Theorem X5_segment_contents (U : UnicodeTables) (raw_text : pystr) :
  exists segments,
    Segmenter.clean_and_segment U raw_text = Return segments
    /\ Forall (fun s =>
                 s = strip (Segmenter.clean U raw_text)
                 /\ 20 < len s
                 /\ Spec.tight s
                 /\ len s <= len raw_text
                 /\ forall c, In c s ->
                      is_word U c = true \/ c = SPACE \/ kept_punct c = true)
              segments.
Proof.
  rewrite segments_of_clean. eexists. split; [reflexivity|].
  destruct (20 <? len (strip (Segmenter.clean U raw_text))) eqn:E;
    [|constructor].
  constructor; [|constructor].
  split; [reflexivity|]. split; [apply Nat.ltb_lt; exact E|].
  split; [apply strip_tight|]. split.
  - unfold len. etransitivity; [apply strip_length | apply clean_length].
  - intros c Hc. apply in_strip in Hc.
    exact (clean_characters U raw_text c Hc).
Qed.

(** X6.  The extractors take the first 3, the first 5 or all segments, but
    the segmenter returns at most one: the three text blocks are equal. *)
Theorem X6_one_text_block (U : UnicodeTables) (raw_text : pystr) :
  exists segments,
    Segmenter.clean_and_segment U raw_text = Return segments
    /\ join [NL] (firstn 3 segments) = join [NL] segments
    /\ join [NL] (firstn 5 segments) = join [NL] segments
    /\ (segments = [] \/ segments = [join [NL] segments]).
Proof.
  rewrite segments_of_clean. eexists. split; [reflexivity|].
  destruct (20 <? len (strip (Segmenter.clean U raw_text))); simpl; auto.
Qed.

(* ================================================================== *)
(** * Further properties of the orchestrator *)
(* ================================================================== *)

Section OrchestratorRules.
Import Validator Orchestrator.
Variable U : UnicodeTables.
Variable post_json : pystr -> result value.
Variable format_value : value -> pystr.
Variable violation_message : dict -> pystr.
Variable user_preferences : dict.

(** With a segment, the sequence is the four requests on the one text block,
    then the validation. *)
Lemma process_attempt_one_segment (pdf_text : pystr) (target : option pystr) :
  let text := strip (Segmenter.clean U pdf_text) in
  20 < len text ->
  process_attempt U post_json format_value violation_message user_preferences
                  pdf_text target
  = Py.bind (str_strip (Extractor._query_ollama post_json
                          (Extractor.title_prompt text)))
      (fun title =>
   Py.bind (str_strip (Extractor._query_ollama post_json
                          (Extractor.date_prompt target text)))
      (fun pub_date =>
   Py.bind (str_strip (Extractor._query_ollama post_json
                          (Extractor.description_prompt format_value
                             user_preferences text)))
      (fun description =>
   Py.bind (str_strip (Extractor._query_ollama post_json
                          (Extractor.volume_prompt text)))
      (fun volume_issue =>
   Return (validate_metadata U violation_message
             title pub_date description volume_issue))))).
Proof.
  intros text Hlen. unfold process_attempt.
  rewrite segments_of_clean. fold text.
  apply Nat.ltb_lt in Hlen. rewrite Hlen. reflexivity.
Qed.

Lemma str_strip_inv (v : value) (s : pystr) :
  str_strip v = Return s -> exists x, v = VStr x /\ s = strip x.
Proof.
  destruct v; simpl; try discriminate.
  intros H. inversion H. eauto.
Qed.

Lemma str_strip_raises (v : value) :
  Spec.is_string v = false -> str_strip v = Raise (no_attribute v "strip").
Proof. destruct v; simpl; try reflexivity. discriminate. Qed.

Lemma str_strip_returns (v : value) :
  Spec.is_string v = true -> exists s, str_strip v = Return s.
Proof. destruct v; simpl; try discriminate. eauto. Qed.

(** The fields of a validated result are stripped responses. *)
Lemma process_attempt_stripped (pdf_text : pystr) (target : option pystr) r :
  process_attempt U post_json format_value violation_message user_preferences
                  pdf_text target = Return r ->
  r = no_segments
  \/ exists a b c d,
       r = validate_metadata U violation_message
             (strip a) (strip b) (strip c) (strip d).
Proof.
  unfold process_attempt.
  destruct (Segmenter.clean_and_segment U pdf_text) as [segments|e];
    simpl; [|discriminate].
  destruct (is_empty segments).
  - intros H. inversion H. left. reflexivity.
  - unfold Extractor.extract_title, Extractor.extract_date,
      Extractor.extract_description, Extractor.extract_volume_issue.
    intros H.
    apply bind_inv in H. destruct H as (t & Ht & H).
    apply bind_inv in H. destruct H as (p & Hp & H).
    apply bind_inv in H. destruct H as (d & Hd & H).
    apply bind_inv in H. destruct H as (v & Hv & H).
    apply str_strip_inv in Ht. destruct Ht as (a & _ & ->).
    apply str_strip_inv in Hp. destruct Hp as (b & _ & ->).
    apply str_strip_inv in Hd. destruct Hd as (c & _ & ->).
    apply str_strip_inv in Hv. destruct Hv as (x & _ & ->).
    inversion H. right. exists a, b, c, x. reflexivity.
Qed.

End OrchestratorRules.

(** X7.  When every request to the service fails and the text gives a
    segment, [process_pdf] still returns a validated result: the four fields
    are empty and the warnings are the two for a missing title and a
    missing description. *)
Theorem X7_unreachable_service
        (U : UnicodeTables) (post_json : pystr -> result value)
        (format_value : value -> pystr) (violation_message : dict -> pystr)
        (user_preferences : dict)
        (pdf_text : pystr) (target_date_range : option pystr) :
  (forall prompt, exists e, post_json prompt = Raise e) ->
  20 < len (strip (Segmenter.clean U pdf_text)) ->
  Orchestrator.process_pdf U post_json format_value violation_message
    user_preferences pdf_text target_date_range
  = Return {| Validator.data := Validator.metadata [] [] [] [];
              Validator.warnings :=
                [py "Title missing or too short";
                 py "Description missing or too short"];
              Validator.success := false;
              Validator.stage := py "validation" |}.
Proof.
  intros Hfail Hlen.
  assert (Hq : forall prompt,
             str_strip (Extractor._query_ollama post_json prompt) = Return []).
  { intros prompt. unfold Extractor._query_ollama.
    destruct (Hfail prompt) as [e ->]. reflexivity. }
  rewrite process_pdf_returns.
  rewrite (process_attempt_one_segment U post_json format_value
             violation_message user_preferences pdf_text target_date_range Hlen).
  rewrite !Hq. reflexivity.
Qed.

Lemma X7_witness :
  Orchestrator.process_pdf ascii_tables Samples.unreachable_service
    Samples.no_format Samples.no_message [] Samples.sample_text None
  = Return {| Validator.data := Validator.metadata [] [] [] [];
              Validator.warnings :=
                [py "Title missing or too short";
                 py "Description missing or too short"];
              Validator.success := false;
              Validator.stage := py "validation" |}.
Proof.
  apply (X7_unreachable_service ascii_tables Samples.unreachable_service
           Samples.no_format Samples.no_message [] Samples.sample_text None).
  - intros prompt. eexists. reflexivity.
  - vm_compute. lia.
Defined.

(** X8.  A result with [success = True], the only kind whose data the
    callers read, comes from the validation stage and carries four stripped
    strings: a title of 3 to 200 characters, a description of 10 to 1000
    characters, and a date that is empty or holds a delimited year. *)
Theorem X8_successful_result
        (U : UnicodeTables) (post_json : pystr -> result value)
        (format_value : value -> pystr) (violation_message : dict -> pystr)
        (user_preferences : dict)
        (pdf_text : pystr) (target_date_range : option pystr)
        (r : Validator.PipelineResult) :
  Orchestrator.process_pdf U post_json format_value violation_message
    user_preferences pdf_text target_date_range = Return r ->
  Validator.success r = true ->
  Validator.stage r = py "validation"
  /\ Validator.warnings r = []
  /\ exists title pub_date description volume_issue,
       Validator.data r
       = Validator.metadata title pub_date description volume_issue
       /\ 3 <= len title <= 200
       /\ (pub_date = [] \/ Spec.has_delimited_year U pub_date)
       /\ 10 <= len description <= 1000
       /\ Spec.tight title /\ Spec.tight pub_date
       /\ Spec.tight description /\ Spec.tight volume_issue.
Proof.
  intros H Hs. rewrite process_pdf_returns in H. inversion H as [Hr]. clear H.
  destruct (Orchestrator.process_attempt U post_json format_value
              violation_message user_preferences pdf_text target_date_range)
    as [r'|e] eqn:E.
  - apply process_attempt_stripped in E.
    destruct E as [-> | (a & b & c & d & ->)].
    + subst r. discriminate Hs.
    + subst r. split; [reflexivity|].
      split.
      { destruct (Validator.warnings
                    (Validator.validate_metadata U violation_message
                       (strip a) (strip b) (strip c) (strip d))) eqn:Ew;
          [reflexivity|].
        unfold Validator.validate_metadata in Hs, Ew. cbn [Validator.success] in Hs.
        cbn [Validator.warnings] in Ew. rewrite Ew in Hs. discriminate Hs. }
      apply success_bounds in Hs.
      exists (strip a), (strip b), (strip c), (strip d).
      split; [reflexivity|].
      destruct Hs as (Ht & Hp & Hd).
      repeat split; try assumption; try apply strip_tight; try tauto.
  - subst r. discriminate Hs.
Qed.

Lemma X8_witness :
  Validator.stage Samples.echo_result = py "validation"
  /\ Validator.warnings Samples.echo_result = []
  /\ exists title pub_date description volume_issue,
       Validator.data Samples.echo_result
       = Validator.metadata title pub_date description volume_issue
       /\ 3 <= len title <= 200
       /\ (pub_date = [] \/ Spec.has_delimited_year ascii_tables pub_date)
       /\ 10 <= len description <= 1000
       /\ Spec.tight title /\ Spec.tight pub_date
       /\ Spec.tight description /\ Spec.tight volume_issue.
Proof.
  apply (X8_successful_result ascii_tables Samples.echo_service
           Samples.no_format Samples.no_message [] Samples.sample_text None).
  - vm_compute. reflexivity.
  - vm_compute. reflexivity.
Defined.

(** X9.  With a segment, [process_pdf] ends in the pipeline stage exactly
    when one of the four responses is not a string; the warning then names
    the first such response, and otherwise the stage is validation. *)
Theorem X9_pipeline_stage
        (U : UnicodeTables) (post_json : pystr -> result value)
        (format_value : value -> pystr) (violation_message : dict -> pystr)
        (user_preferences : dict)
        (pdf_text : pystr) (target_date_range : option pystr) :
  let text := strip (Segmenter.clean U pdf_text) in
  let responses :=
    map (Extractor._query_ollama post_json)
        [ Extractor.title_prompt text;
          Extractor.date_prompt target_date_range text;
          Extractor.description_prompt format_value user_preferences text;
          Extractor.volume_prompt text ] in
  20 < len text ->
  exists r,
    Orchestrator.process_pdf U post_json format_value violation_message
      user_preferences pdf_text target_date_range = Return r
    /\ (Validator.stage r = py "pipeline"
        <-> forallb Spec.is_string responses = false)
    /\ (forallb Spec.is_string responses = true ->
        Validator.stage r = py "validation")
    /\ (forall v,
           find (fun x => negb (Spec.is_string x)) responses = Some v ->
           r = Orchestrator.pipeline_failure (no_attribute v "strip")).
Proof.
  intros text responses Hlen.
  rewrite process_pdf_returns.
  rewrite (process_attempt_one_segment U post_json format_value
             violation_message user_preferences pdf_text target_date_range Hlen).
  fold text. unfold responses. cbn [map forallb find].
  generalize (Extractor._query_ollama post_json (Extractor.title_prompt text)).
  generalize (Extractor._query_ollama post_json
                (Extractor.date_prompt target_date_range text)).
  generalize (Extractor._query_ollama post_json
                (Extractor.description_prompt format_value user_preferences
                   text)).
  generalize (Extractor._query_ollama post_json (Extractor.volume_prompt text)).
  intros q4 q3 q2 q1. eexists. split; [reflexivity|].
  destruct (Spec.is_string q1) eqn:E1.
  2: { rewrite (str_strip_raises q1 E1). cbn.
       repeat split; auto; try discriminate.
       intros v Hv. inversion Hv. reflexivity. }
  destruct (str_strip_returns q1 E1) as [s1 ->].
  destruct (Spec.is_string q2) eqn:E2.
  2: { rewrite (str_strip_raises q2 E2). cbn.
       repeat split; auto; try discriminate.
       intros v Hv. inversion Hv. reflexivity. }
  destruct (str_strip_returns q2 E2) as [s2 ->].
  destruct (Spec.is_string q3) eqn:E3.
  2: { rewrite (str_strip_raises q3 E3). cbn.
       repeat split; auto; try discriminate.
       intros v Hv. inversion Hv. reflexivity. }
  destruct (str_strip_returns q3 E3) as [s3 ->].
  destruct (Spec.is_string q4) eqn:E4.
  2: { rewrite (str_strip_raises q4 E4). cbn.
       repeat split; auto; try discriminate.
       intros v Hv. inversion Hv. reflexivity. }
  destruct (str_strip_returns q4 E4) as [s4 ->].
  cbn. repeat split; auto; try discriminate.
Qed.

Lemma X9_witness :
  exists r,
    Orchestrator.process_pdf ascii_tables Samples.null_service
      Samples.no_format Samples.no_message [] Samples.sample_text None
    = Return r
    /\ Validator.stage r = py "pipeline".
Proof.
  destruct (X9_pipeline_stage ascii_tables Samples.null_service
              Samples.no_format Samples.no_message [] Samples.sample_text None)
    as (r & Hr & Hstage & _).
  - vm_compute. lia.
  - exists r. split; [exact Hr|]. apply Hstage. reflexivity.
Defined.

(* ================================================================== *)
(** * Further properties of the feedback memory *)
(* ================================================================== *)

Section SuggestionFacts.
Import Feedback FeedbackMemory.
Variable U : UnicodeTables.

Lemma upsert_upsert (k : pystr) (x y : value) (d : dict) :
  upsert k x (upsert k y d) = upsert k x d.
Proof.
  induction d as [|[k' v'] d IH]; simpl.
  - rewrite str_eqb_refl. reflexivity.
  - destruct (str_eqb k k') eqn:E; simpl; rewrite E; [reflexivity|].
    rewrite IH. reflexivity.
Qed.

(** The pattern table and the corrections after a call that returned. *)
Lemma add_correction_effect
      (filename field original corrected context : pystr) (w w' : world) :
  add_correction U filename field original corrected context w
  = (Return tt, w') ->
  (exists pd0,
      Spec.data_at w (py "patterns") = Return (VDict pd0)
      /\ (lookup field pd0 = None
          \/ exists table, lookup field pd0 = Some (VDict table))
      /\ Spec.data_at w' (py "patterns")
         = Return (VDict (upsert field
                            (VDict (upsert (pattern_key U original)
                                           (VStr corrected)
                                           (Spec.pattern_table field pd0)))
                            pd0)))
  /\ (exists cs,
         Spec.data_at w (py "corrections") = Return (VList cs)
         /\ Spec.data_at w' (py "corrections")
            = Return (VList (cs ++ [correction_record filename field original
                                       corrected context
                                       (clock w (ticks w))]))).
Proof.
  unfold add_correction. intros H.
  apply bindM_inv in H. destruct H as (stamp & w0 & Hnow & H).
  assert (Hstamp : stamp = clock w (ticks w))
    by (unfold now in Hnow; inversion Hnow; reflexivity).
  apply now_inv in Hnow. subst w0.
  apply bindM_inv in H. destruct H as (u1 & wa & Ha & H).
  apply modify_inv in Ha. destruct Ha as (va & Hva & ->). simpl in Hva.
  apply bindM_inv in H. destruct H as (patterns & wb & Hb & H).
  apply read_inv in Hb. destruct Hb as [Hpat ->]. simpl in Hpat.
  apply bindM_inv in H. destruct H as (known & wc & Hc & H).
  apply lift_inv in Hc. destruct Hc as [Hknown ->].
  apply bindM_inv in H. destruct H as (u2 & wd & Hd & H).
  apply bindM_inv in H. destruct H as (u3 & w1 & H1 & H).
  apply modify_inv in H1. destruct H1 as (v1 & Hv1 & ->).
  apply bindM_inv in H. destruct H as (u4 & w2 & H2 & H). destruct u4.
  assert (Hfinal : forall K,
             str_eqb K (py "user_preferences") = false ->
             str_eqb K (py "last_updated") = false ->
             Spec.data_at w' K = getitem v1 K).
  { intros K HK1 HK2.
    rewrite (preserves_save_memory K HK2 _ _ _ H).
    rewrite (preserves_fine_tuning U K _ _ _ HK1 _ _ _ H2). reflexivity. }
  assert (Hpat0 : getitem va (py "patterns")
                  = getitem (feedback_data w) (py "patterns"))
    by exact (update_entry_neq _ (py "patterns") _ _ _ Hva eq_refl).
  split.
  - rewrite (Hfinal (py "patterns") eq_refl eq_refl).
    apply update_entry_eq in Hv1. destruct Hv1 as (x & x' & Hx & Hx' & Hget).
    rewrite Hget.
    apply update_entry_inv in Hx'. destruct Hx' as (y & y' & Hy & Hy' & Hset).
    apply setitem_dict in Hy'. destruct Hy' as (yd & -> & ->).
    apply setitem_dict in Hset. destruct Hset as (xd & -> & ->).
    simpl in Hy.
    destruct known.
    + apply ret_inv in Hd. destruct Hd as [_ ->]. simpl in Hx.
      rewrite Hx in Hpat. inversion Hpat. subst patterns.
      exists xd. unfold Spec.data_at. rewrite <- Hpat0, Hx.
      split; [reflexivity|].
      destruct (lookup field xd) as [y|] eqn:Ef; [|discriminate].
      inversion Hy. subst y. split; [right; eauto|].
      unfold Spec.pattern_table. rewrite Ef. reflexivity.
    + apply modify_inv in Hd. destruct Hd as (vd & Hvd & ->). simpl in Hx.
      apply update_entry_eq in Hvd. destruct Hvd as (p & p' & Hp & Hp' & Hget').
      simpl in Hp. rewrite Hp in Hpat. inversion Hpat. subst patterns.
      apply setitem_dict in Hp'. destruct Hp' as (pd0 & -> & ->).
      rewrite Hget' in Hx. inversion Hx. subst xd.
      simpl in Hknown. unfold has_key in Hknown.
      destruct (lookup field pd0) eqn:Ef; [discriminate|].
      rewrite lookup_upsert_eq in Hy. inversion Hy. subst yd.
      exists pd0. unfold Spec.data_at. rewrite <- Hpat0, Hp.
      split; [reflexivity|]. split; [left; exact Ef|].
      unfold Spec.pattern_table. rewrite Ef, upsert_upsert. reflexivity.
  - rewrite (Hfinal (py "corrections") eq_refl eq_refl).
    rewrite (update_entry_neq _ (py "corrections") _ _ _ Hv1 eq_refl).
    assert (Hwd : getitem (feedback_data wd) (py "corrections")
                  = getitem va (py "corrections")).
    { destruct known.
      - apply ret_inv in Hd. destruct Hd as [_ ->]. reflexivity.
      - apply modify_inv in Hd. destruct Hd as (vd & Hvd & ->).
        exact (update_entry_neq _ (py "corrections") _ _ _ Hvd eq_refl). }
    rewrite Hwd.
    apply update_entry_eq in Hva. destruct Hva as (x & x' & Hx & Hx' & Hget).
    destruct x; simpl in Hx'; try discriminate.
    inversion Hx'. subst x'. exists items. subst stamp.
    split; [exact Hx | exact Hget].
Qed.

(** [get_suggestion] on a memory whose pattern table is known. *)
Lemma get_suggestion_missing (field value : pystr) (pd : dict) (w : world) :
  Spec.data_at w (py "patterns") = Return (VDict pd) ->
  lookup field pd = None ->
  get_suggestion U field value w = (Return None, w).
Proof.
  unfold Spec.data_at. intros Hpd Hf.
  unfold get_suggestion, bindM, read, lift. rewrite Hpd. simpl.
  unfold has_key. rewrite Hf. reflexivity.
Qed.

Lemma get_suggestion_table (field value : pystr) (pd table : dict)
      (w : world) :
  Spec.data_at w (py "patterns") = Return (VDict pd) ->
  lookup field pd = Some (VDict table) ->
  get_suggestion U field value w
  = (Return (lookup (pattern_key U value) table), w).
Proof.
  unfold Spec.data_at. intros Hpd Hf.
  unfold get_suggestion, bindM, read, lift. rewrite Hpd. simpl.
  unfold has_key. rewrite Hf. simpl. unfold has_key.
  destruct (lookup (pattern_key U value) table); reflexivity.
Qed.

End SuggestionFacts.

(** X10.  What [add_correction] learns, [get_suggestion] returns: after a
    correction of [field] from [original] to [corrected], every value with
    the pattern key of [original], and [original] itself, is answered by
    [corrected]. *)
Theorem X10_suggestion_after_correction
        (U : UnicodeTables)
        (filename field original corrected context : pystr)
        (w w' : Feedback.world) :
  FeedbackMemory.add_correction U filename field original corrected context w
  = (Return tt, w') ->
  (forall value,
      FeedbackMemory.pattern_key U value = FeedbackMemory.pattern_key U original ->
      FeedbackMemory.get_suggestion U field value w'
      = (Return (Some (VStr corrected)), w'))
  /\ FeedbackMemory.get_suggestion U field original w'
     = (Return (Some (VStr corrected)), w').
Proof.
  intros H. apply add_correction_effect in H.
  destruct H as [(pd0 & _ & _ & Hafter) _].
  assert (Hall : forall value,
             FeedbackMemory.pattern_key U value
             = FeedbackMemory.pattern_key U original ->
             FeedbackMemory.get_suggestion U field value w'
             = (Return (Some (VStr corrected)), w')).
  { intros value Hkey.
    rewrite (get_suggestion_table U field value _ _ w' Hafter
               (lookup_upsert_eq _ _ _)).
    rewrite Hkey, lookup_upsert_eq. reflexivity. }
  split; [exact Hall | apply Hall; reflexivity].
Qed.

Lemma X10_witness :
  FeedbackMemory.get_suggestion ascii_tables
    (py "volume_issue") (py "3/4")
    (snd (FeedbackMemory.add_corrections ascii_tables
            [Samples.vol_no_correction] Samples.fresh_memory))
  = (Return (Some (VStr (py "Vol. 3, No. 4"))),
     snd (FeedbackMemory.add_corrections ascii_tables
            [Samples.vol_no_correction] Samples.fresh_memory)).
Proof.
  apply (proj2 (X10_suggestion_after_correction ascii_tables
                  (py "a.pdf") (py "volume_issue") (py "3/4")
                  (py "Vol. 3, No. 4") (py "File: a.pdf")
                  Samples.fresh_memory _ eq_refl)).
Defined.

(** X11.  A correction changes no other suggestion: for another field, or
    for a value with another pattern key, [get_suggestion] answers after
    the correction what it answered before. *)
Theorem X11_other_suggestions_kept
        (U : UnicodeTables)
        (filename field original corrected context : pystr)
        (w w' : Feedback.world) (field' value : pystr) :
  FeedbackMemory.add_correction U filename field original corrected context w
  = (Return tt, w') ->
  field' <> field
  \/ FeedbackMemory.pattern_key U value <> FeedbackMemory.pattern_key U original ->
  fst (FeedbackMemory.get_suggestion U field' value w')
  = fst (FeedbackMemory.get_suggestion U field' value w).
Proof.
  intros H Hother. apply add_correction_effect in H.
  destruct H as [(pd0 & Hbefore & Htable & Hafter) _].
  destruct (str_eqb field' field) eqn:Ef.
  - apply str_eqb_eq in Ef. subst field'.
    destruct Hother as [Hneq | Hkey]; [congruence|].
    apply str_eqb_neq in Hkey.
    rewrite (get_suggestion_table U field value _ _ w' Hafter
               (lookup_upsert_eq _ _ _)).
    rewrite lookup_upsert_neq by exact Hkey.
    destruct Htable as [Hnone | (table & Hsome)].
    + rewrite (get_suggestion_missing U field value pd0 w Hbefore Hnone).
      unfold Spec.pattern_table. rewrite Hnone. reflexivity.
    + rewrite (get_suggestion_table U field value pd0 table w Hbefore Hsome).
      unfold Spec.pattern_table. rewrite Hsome. reflexivity.
  - assert (Hsame : lookup field'
                      (upsert field
                         (VDict (upsert (FeedbackMemory.pattern_key U original)
                                        (VStr corrected)
                                        (Spec.pattern_table field pd0))) pd0)
                    = lookup field' pd0)
      by (apply lookup_upsert_neq; exact Ef).
    unfold FeedbackMemory.get_suggestion, Feedback.bindM, Feedback.read,
      Feedback.lift.
    unfold Spec.data_at in Hbefore, Hafter. rewrite Hbefore, Hafter.
    simpl. unfold Feedback.has_key. rewrite Hsame.
    destruct (lookup field' pd0) as [y|]; [|reflexivity].
    simpl.
    destruct (Feedback.contains_str (FeedbackMemory.pattern_key U value) y)
      as [[|]|e]; simpl; try reflexivity.
    destruct (Feedback.getitem y (FeedbackMemory.pattern_key U value));
      reflexivity.
Qed.

Lemma X11_witness :
  fst (FeedbackMemory.get_suggestion ascii_tables (py "title") (py "3/4")
         (snd (FeedbackMemory.add_corrections ascii_tables
                 [Samples.vol_no_correction] Samples.fresh_memory)))
  = fst (FeedbackMemory.get_suggestion ascii_tables (py "title") (py "3/4")
           Samples.fresh_memory).
Proof.
  apply (X11_other_suggestions_kept ascii_tables
           (py "a.pdf") (py "volume_issue") (py "3/4")
           (py "Vol. 3, No. 4") (py "File: a.pdf")
           Samples.fresh_memory _ (py "title") (py "3/4") eq_refl).
  left. intros H. vm_compute in H. discriminate H.
Defined.

(** X12.  The list of corrections only grows at its end: a correction
    appends one record, with the six entries of the call and the reading of
    the clock, and leaves the earlier records in place. *)
Theorem X12_corrections_append_only
        (U : UnicodeTables)
        (filename field original corrected context : pystr)
        (w w' : Feedback.world) :
  FeedbackMemory.add_correction U filename field original corrected context w
  = (Return tt, w') ->
  exists earlier,
    Spec.data_at w (py "corrections") = Return (VList earlier)
    /\ Spec.data_at w' (py "corrections")
       = Return (VList (earlier ++
                        [VDict [ (py "filename", VStr filename);
                                 (py "field", VStr field);
                                 (py "original", VStr original);
                                 (py "corrected", VStr corrected);
                                 (py "context", VStr context);
                                 (py "timestamp",
                                   VStr (Feedback.clock w (Feedback.ticks w))) ]])).
Proof.
  intros H. apply add_correction_effect in H.
  destruct H as [_ (cs & Hbefore & Hafter)].
  exists cs. split; [exact Hbefore | exact Hafter].
Qed.

Lemma X12_witness :
  exists earlier,
    Spec.data_at Samples.fresh_memory (py "corrections")
    = Return (VList earlier)
    /\ Spec.data_at
         (snd (FeedbackMemory.add_corrections ascii_tables
                 [Samples.vol_no_correction] Samples.fresh_memory))
         (py "corrections")
       = Return (VList (earlier ++
                        [VDict [ (py "filename", VStr (py "a.pdf"));
                                 (py "field", VStr (py "volume_issue"));
                                 (py "original", VStr (py "3/4"));
                                 (py "corrected", VStr (py "Vol. 3, No. 4"));
                                 (py "context", VStr (py "File: a.pdf"));
                                 (py "timestamp",
                                   VStr (Feedback.clock Samples.fresh_memory
                                           (Feedback.ticks Samples.fresh_memory))) ]])).
Proof.
  apply (X12_corrections_append_only ascii_tables
           (py "a.pdf") (py "volume_issue") (py "3/4")
           (py "Vol. 3, No. 4") (py "File: a.pdf")
           Samples.fresh_memory _ eq_refl).
Defined.

Section DataOnly.
Import Feedback FeedbackMemory.
Variable U : UnicodeTables.

Lemma same_frame_refl (w : world) : Spec.same_frame w w.
Proof. repeat split. Qed.

Lemma same_frame_trans (w1 w2 w3 : world) :
  Spec.same_frame w1 w2 -> Spec.same_frame w2 w3 -> Spec.same_frame w1 w3.
Proof.
  intros (A1 & A2 & A3 & A4) (B1 & B2 & B3 & B4).
  repeat split; congruence.
Qed.

Lemma on_data_ret {A} (a : A) : Spec.on_data (ret a).
Proof. split; [intros w; apply same_frame_refl | intros w1 w2 H; auto]. Qed.

Lemma on_data_lift {A} (r : result A) : Spec.on_data (lift r).
Proof. split; [intros w; apply same_frame_refl | intros w1 w2 H; auto]. Qed.

Lemma on_data_read {A} (f : value -> result A) : Spec.on_data (read f).
Proof.
  split; [intros w; apply same_frame_refl|].
  intros w1 w2 H. unfold read. simpl. rewrite H. auto.
Qed.

Lemma on_data_modify (f : value -> result value) : Spec.on_data (modify f).
Proof.
  split.
  - intros w. unfold modify. destruct (f (feedback_data w)); simpl;
      repeat split.
  - intros w1 w2 H. unfold modify. rewrite H.
    destruct (f (feedback_data w2)); simpl; auto.
Qed.

Lemma on_data_bind {A B} (m : M A) (k : A -> M B) :
  Spec.on_data m -> (forall a, Spec.on_data (k a)) -> Spec.on_data (bindM m k).
Proof.
  intros [Hframe Hdata] Hk. split.
  - intros w. unfold bindM. specialize (Hframe w).
    destruct (m w) as [[a|e] w1]; simpl in *; [|exact Hframe].
    destruct (Hk a) as [Hframe' _].
    exact (same_frame_trans _ _ _ Hframe (Hframe' w1)).
  - intros w1 w2 H. unfold bindM. specialize (Hdata w1 w2 H).
    destruct (m w1) as [[a1|e1] w1']; destruct (m w2) as [[a2|e2] w2'];
      simpl in Hdata; destruct Hdata as [Hr Hd]; try discriminate Hr.
    + inversion Hr. subst a2. destruct (Hk a1) as [_ Hdata'].
      exact (Hdata' w1' w2' Hd).
    + simpl. inversion Hr. auto.
Qed.

Lemma on_data_fine_tuning (field original corrected : pystr) :
  Spec.on_data (update_fine_tuning_preferences U field original corrected).
Proof.
  unfold update_fine_tuning_preferences, learn_description, learn_title,
    learn_volume_issue, set_preference, update_preference, preference.
  repeat first
    [ apply on_data_ret | apply on_data_lift | apply on_data_read
    | apply on_data_modify
    | apply on_data_bind; [|intros ?]
    | match goal with
      | |- Spec.on_data (if ?c then _ else _) => destruct c
      end ].
Qed.

Lemma on_data_record_correction
      (filename field original corrected context stamp : pystr) :
  Spec.on_data (Spec.record_correction U filename field original corrected
                  context stamp).
Proof.
  unfold Spec.record_correction.
  repeat first
    [ apply on_data_fine_tuning
    | apply on_data_ret | apply on_data_lift | apply on_data_read
    | apply on_data_modify
    | apply on_data_bind; [|intros ?]
    | match goal with
      | |- Spec.on_data (if ?c then _ else _) => destruct c
      end ].
Qed.

Lemma bindM_assoc {A B C} (m : M A) (f : A -> M B) (g : B -> M C) (w : world) :
  bindM (bindM m f) g w = bindM m (fun a => bindM (f a) g) w.
Proof. unfold bindM. destruct (m w) as [[a|e] w1]; reflexivity. Qed.

Lemma bindM_ext {A B} (m : M A) (k k' : A -> M B) (w : world) :
  (forall a w1, k a w1 = k' a w1) -> bindM m k w = bindM m k' w.
Proof.
  intros H. unfold bindM. destruct (m w) as [[a|e] w1]; [apply H | reflexivity].
Qed.

Lemma add_correction_split
      (filename field original corrected context : pystr) (w : world) :
  add_correction U filename field original corrected context w
  = bindM now
      (fun stamp =>
         bindM (Spec.record_correction U filename field original corrected
                  context stamp)
               (fun _ => save_memory)) w.
Proof.
  unfold add_correction, Spec.record_correction.
  apply bindM_ext. intros stamp w1. symmetry.
  rewrite bindM_assoc. apply bindM_ext. intros u1 w2.
  rewrite bindM_assoc. apply bindM_ext. intros patterns w3.
  rewrite bindM_assoc. apply bindM_ext. intros known w4.
  rewrite bindM_assoc. apply bindM_ext. intros u2 w5.
  rewrite bindM_assoc. reflexivity.
Qed.

Lemma save_memory_inv (w w' : world) :
  save_memory w = (Return tt, w') ->
  disk w' = JsonFile (feedback_data w')
  /\ Spec.data_at w' (py "last_updated") = Return (VStr (clock w (ticks w)))
  /\ clock w' = clock w /\ ticks w' = S (ticks w)
  /\ write_failure w = None.
Proof.
  unfold save_memory. intros H.
  apply bindM_inv in H. destruct H as (stamp & w0 & Hnow & H).
  unfold now in Hnow. inversion Hnow. subst stamp w0. clear Hnow.
  apply bindM_inv in H. destruct H as (u & w1 & Hm & H).
  apply modify_inv in Hm. destruct Hm as (v & Hv & ->).
  apply write_file_inv in H. destruct H as [Hw ->]. simpl in *.
  repeat split; try assumption.
  unfold Spec.data_at. simpl. exact (getitem_setitem_eq _ _ _ _ Hv).
Qed.

End DataOnly.

Section KeyFacts.
Import FeedbackMemory.
Variable U : UnicodeTables.

Lemma ascii_to_lower_idempotent (c : char) :
  ascii_to_lower (ascii_to_lower c) = ascii_to_lower c.
Proof.
  unfold ascii_to_lower. destruct (ascii_upper c) eqn:E; [|rewrite E; reflexivity].
  unfold ascii_upper, in_range in *. apply andb_true_iff in E.
  destruct E as [E1 E2]. apply N.leb_le in E1, E2.
  replace ((65 <=? c + 32)%N && (c + 32 <=? 90)%N) with false; [reflexivity|].
  symmetry. apply andb_false_iff. right. apply N.leb_gt. lia.
Qed.

Lemma ascii_to_lower_ascii (c : char) :
  is_ascii c = true -> is_ascii (ascii_to_lower c) = true.
Proof.
  unfold ascii_to_lower, is_ascii. intros H.
  destruct (ascii_upper c) eqn:E; [|exact H].
  unfold ascii_upper, in_range in E. apply andb_true_iff in E.
  destruct E as [_ E2]. apply N.leb_le in E2. apply N.ltb_lt. lia.
Qed.

Lemma pattern_key_ascii (s : pystr) :
  s <> [] -> forallb is_ascii s = true ->
  pattern_key U s = firstn 50 (map ascii_to_lower s).
Proof.
  intros Hs Ha. destruct s as [|c r]; [congruence|].
  unfold pattern_key, lower. rewrite Ha. reflexivity.
Qed.

End KeyFacts.

(** X13.  The key of a pattern has at most 50 characters and several
    originals share one: an ASCII original and its lowercase form, an ASCII
    original of 50 characters or more and any ASCII continuation of it, and
    the blank original and the word "empty" in any letter case. *)
Theorem X13_pattern_key_collisions (U : UnicodeTables) :
  (forall s, length (FeedbackMemory.pattern_key U s) <= 50)
  /\ (forall s,
         forallb is_ascii s = true ->
         FeedbackMemory.pattern_key U (map ascii_to_lower s)
         = FeedbackMemory.pattern_key U s)
  /\ (forall s tail,
         50 <= length s ->
         forallb is_ascii s = true -> forallb is_ascii tail = true ->
         FeedbackMemory.pattern_key U (s ++ tail)
         = FeedbackMemory.pattern_key U s)
  /\ (forall s,
         forallb is_ascii s = true ->
         map ascii_to_lower s = py "empty" ->
         FeedbackMemory.pattern_key U s = FeedbackMemory.pattern_key U []).
Proof.
  split; [|split; [|split]].
  - intros s. unfold FeedbackMemory.pattern_key.
    destruct s; [vm_compute; lia | apply firstn_le_length].
  - intros s Ha. destruct s as [|c r]; [reflexivity|].
    rewrite (pattern_key_ascii U (c :: r)) by (congruence || exact Ha).
    rewrite pattern_key_ascii.
    + rewrite map_map.
      f_equal. apply map_ext. intros a. apply ascii_to_lower_idempotent.
    + discriminate.
    + rewrite forallb_forall in *. intros x Hx.
      apply in_map_iff in Hx. destruct Hx as (y & <- & Hy).
      apply ascii_to_lower_ascii. exact (Ha y Hy).
  - intros s tail Hlen Ha Ht.
    assert (Hs : s <> []) by (destruct s; [simpl in Hlen; lia | discriminate]).
    rewrite (pattern_key_ascii U s Hs Ha).
    rewrite pattern_key_ascii.
    + rewrite map_app, firstn_app, length_map.
      replace (50 - length s) with 0 by lia.
      rewrite firstn_O, app_nil_r. reflexivity.
    + destruct s; [congruence | discriminate].
    + rewrite forallb_app, Ha, Ht. reflexivity.
  - intros s Ha He.
    assert (Hs : s <> []) by (destruct s; [discriminate He | discriminate]).
    rewrite (pattern_key_ascii U s Hs Ha), He. reflexivity.
Qed.

Lemma X13_witness :
  FeedbackMemory.pattern_key ascii_tables (py "EMPTY")
  = FeedbackMemory.pattern_key ascii_tables [].
Proof.
  apply (proj2 (proj2 (proj2 (X13_pattern_key_collisions ascii_tables)))
               (py "EMPTY")); reflexivity.
Defined.

(** X14.  A correction that returns has written the memory: the file holds
    the data as it is in memory, opening a memory on that file gives the
    same data, and [last_updated] is the second reading of the clock. *)
Theorem X14_correction_persisted
        (U : UnicodeTables)
        (filename field original corrected context : pystr)
        (w w' : Feedback.world) :
  FeedbackMemory.add_correction U filename field original corrected context w
  = (Return tt, w') ->
  Feedback.disk w' = Feedback.JsonFile (Feedback.feedback_data w')
  /\ (forall failure clock,
         Feedback.feedback_data
           (FeedbackMemory.init (Feedback.disk w') failure clock)
         = Feedback.feedback_data w')
  /\ Spec.data_at w' (py "last_updated")
     = Return (VStr (Feedback.clock w (S (Feedback.ticks w))))
  /\ Feedback.ticks w' = S (S (Feedback.ticks w)).
Proof.
  intros H. rewrite add_correction_split in H.
  apply bindM_inv in H. destruct H as (stamp & w0 & Hnow & H).
  apply now_inv in Hnow. subst w0.
  apply bindM_inv in H. destruct H as (u & w2 & Hrec & H).
  destruct (on_data_record_correction U filename field original corrected
              context stamp) as [Hframe _].
  specialize (Hframe (Feedback.tick w)). rewrite Hrec in Hframe.
  destruct Hframe as (_ & _ & Hclock & Hticks). simpl in Hclock, Hticks.
  apply save_memory_inv in H.
  destruct H as (Hdisk & Hstamp & Hclock' & Hticks' & _).
  split; [exact Hdisk|]. split; [|split].
  - intros failure clock. simpl. rewrite Hdisk. reflexivity.
  - rewrite Hstamp, Hclock, Hticks. reflexivity.
  - rewrite Hticks', Hticks. reflexivity.
Qed.

Lemma X14_witness :
  Feedback.disk
    (snd (FeedbackMemory.add_corrections ascii_tables
            [Samples.vol_no_correction] Samples.fresh_memory))
  = Feedback.JsonFile
      (Feedback.feedback_data
         (snd (FeedbackMemory.add_corrections ascii_tables
                 [Samples.vol_no_correction] Samples.fresh_memory))).
Proof.
  apply (X14_correction_persisted ascii_tables
           (py "a.pdf") (py "volume_issue") (py "3/4")
           (py "Vol. 3, No. 4") (py "File: a.pdf")
           Samples.fresh_memory _ eq_refl).
Defined.

(** X15.  A correction of a field other than [description], [title] and
    [volume_issue], such as [pub_date], teaches a pattern and leaves the
    preferences as they were. *)
Theorem X15_no_rule_for_other_fields
        (U : UnicodeTables)
        (filename field original corrected context : pystr)
        (w w' : Feedback.world) :
  ~ In field Spec.learning_fields ->
  FeedbackMemory.add_correction U filename field original corrected context w
  = (Return tt, w') ->
  Spec.data_at w' (py "user_preferences")
  = Spec.data_at w (py "user_preferences")
  /\ FeedbackMemory.get_suggestion U field original w'
     = (Return (Some (VStr corrected)), w').
Proof.
  intros Hfield H. split.
  - apply add_correction_inv in H.
    destruct H as (w1 & w2 & Hup & _ & _ & Hft & Hsave).
    rewrite (preserves_save_memory (py "user_preferences") eq_refl _ _ _ Hsave).
    rewrite <- Hup.
    unfold FeedbackMemory.update_fine_tuning_preferences in Hft.
    assert (H1 : str_eqb field (py "description") = false).
    { apply str_eqb_neq. intros ->. apply Hfield. left. reflexivity. }
    assert (H2 : str_eqb field (py "title") = false).
    { apply str_eqb_neq. intros ->. apply Hfield. right. left. reflexivity. }
    assert (H3 : str_eqb field (py "volume_issue") = false).
    { apply str_eqb_neq. intros ->. apply Hfield. right. right. left.
      reflexivity. }
    rewrite H1, H2, H3 in Hft. apply ret_inv in Hft.
    destruct Hft as [_ ->]. reflexivity.
  - apply add_correction_effect in H.
    destruct H as [(pd0 & _ & _ & Hafter) _].
    rewrite (get_suggestion_table U field original _ _ w' Hafter
               (lookup_upsert_eq _ _ _)).
    rewrite lookup_upsert_eq. reflexivity.
Qed.

Lemma X15_witness :
  Spec.data_at
    (snd (FeedbackMemory.add_correction ascii_tables
            (py "a.pdf") (py "pub_date") (py "1979") (py "June 1979")
            (py "File: a.pdf") Samples.fresh_memory))
    (py "user_preferences")
  = Spec.data_at Samples.fresh_memory (py "user_preferences")
  /\ FeedbackMemory.get_suggestion ascii_tables (py "pub_date") (py "1979")
       (snd (FeedbackMemory.add_correction ascii_tables
               (py "a.pdf") (py "pub_date") (py "1979") (py "June 1979")
               (py "File: a.pdf") Samples.fresh_memory))
     = (Return (Some (VStr (py "June 1979"))),
        snd (FeedbackMemory.add_correction ascii_tables
               (py "a.pdf") (py "pub_date") (py "1979") (py "June 1979")
               (py "File: a.pdf") Samples.fresh_memory)).
Proof.
  apply (X15_no_rule_for_other_fields ascii_tables
           (py "a.pdf") (py "pub_date") (py "1979") (py "June 1979")
           (py "File: a.pdf") Samples.fresh_memory).
  - intros [H | [H | [H | []]]]; vm_compute in H; discriminate H.
  - vm_compute. reflexivity.
Defined.

Section ExampleFacts.
Import Feedback FeedbackMemory.

Lemma not_among (corrected : pystr) (examples : list value) :
  existsb (is_str corrected) examples = false -> ~ In (VStr corrected) examples.
Proof.
  intros H Hin.
  assert (Ht : existsb (is_str corrected) examples = true).
  { apply existsb_exists. exists (VStr corrected). split; [exact Hin|].
    simpl. apply str_eqb_refl. }
  congruence.
Qed.

Lemma NoDup_snoc {A} (l : list A) (x : A) :
  NoDup l -> ~ In x l -> NoDup (l ++ [x]).
Proof.
  induction l as [|y l IH]; intros Hl Hx; simpl.
  - constructor; [intros [] | constructor].
  - inversion Hl as [|? ? Hy Hl']. subst. constructor.
    + intros Hin. apply in_app_or in Hin. destruct Hin as [Hin | [-> | []]].
      * exact (Hy Hin).
      * apply Hx. left. reflexivity.
    + apply IH; [exact Hl'|]. intros Hin. apply Hx. right. exact Hin.
Qed.

Lemma expected_examples_nodup (field corrected : pystr) (examples : list value) :
  NoDup examples -> NoDup (Spec.expected_examples field corrected examples).
Proof.
  intros Hnd. unfold Spec.expected_examples.
  destruct (str_eqb field (py "description")); simpl; [|exact Hnd].
  destruct (existsb (is_str corrected) examples) eqn:E; simpl; [exact Hnd|].
  assert (Hgrown : NoDup (examples ++ [VStr corrected]))
    by (apply NoDup_snoc; [exact Hnd | apply not_among; exact E]).
  destruct (5 <? length (examples ++ [VStr corrected])); [|exact Hgrown].
  destruct (examples ++ [VStr corrected]) as [|x rest]; [exact Hgrown|].
  simpl. inversion Hgrown. assumption.
Qed.

End ExampleFacts.

(** X16.  [description_examples] never holds an example twice: a list
    without repetition is still without repetition after a correction. *)
Theorem X16_examples_without_repetition
        (U : UnicodeTables)
        (filename field original corrected context : pystr)
        (w w' : Feedback.world) (examples : list value) :
  Spec.pref_at w (py "description_examples") = Return (VList examples) ->
  NoDup examples ->
  FeedbackMemory.add_correction U filename field original corrected context w
  = (Return tt, w') ->
  exists examples',
    Spec.pref_at w' (py "description_examples") = Return (VList examples')
    /\ NoDup examples'.
Proof.
  intros Hex Hnd H.
  apply (add_correction_pref U _ _ _ _ _ (py "description_examples")) in H.
  destruct H as (w1 & w2 & Hbefore & Hafter & Hft).
  rewrite <- Hbefore in Hex.
  apply (fine_tuning_examples U _ _ _ _ _ _ Hft) in Hex.
  rewrite <- Hafter in Hex.
  exists (Spec.expected_examples field corrected examples).
  split; [exact Hex | apply expected_examples_nodup; exact Hnd].
Qed.

Lemma X16_witness :
  exists examples',
    Spec.pref_at
      (snd (FeedbackMemory.add_correction ascii_tables
              (py "a.pdf") (py "description") (py "old")
              (py "A short description") (py "File: a.pdf")
              Samples.fresh_memory))
      (py "description_examples") = Return (VList examples')
    /\ NoDup examples'.
Proof.
  apply (X16_examples_without_repetition ascii_tables
           (py "a.pdf") (py "description") (py "old")
           (py "A short description") (py "File: a.pdf")
           Samples.fresh_memory _ []).
  - reflexivity.
  - constructor.
  - vm_compute. reflexivity.
Defined.

(** X17.  When the file cannot be written, [add_correction] on a
    well-shaped memory raises the error of the write after it has changed
    the memory: the file is as it was, the correction is in the list in
    memory. *)
Theorem X17_write_failure
        (U : UnicodeTables)
        (filename field original corrected context : pystr)
        (w : Feedback.world) (e : exn) :
  Spec.well_shaped (Feedback.feedback_data w) ->
  Feedback.write_failure w = Some e ->
  exists w' earlier,
    FeedbackMemory.add_correction U filename field original corrected context w
    = (Raise e, w')
    /\ Feedback.disk w' = Feedback.disk w
    /\ Spec.data_at w (py "corrections") = Return (VList earlier)
    /\ Spec.data_at w' (py "corrections")
       = Return (VList (earlier ++
                        [FeedbackMemory.correction_record filename field
                           original corrected context
                           (Feedback.clock w (Feedback.ticks w))])).
Proof.
  intros Hshape Hfail.
  destruct (add_correction_returns U filename field original corrected context
              (Spec.writable w)) as (ws & Hs & _).
  { split; [exact Hshape | reflexivity]. }
  pose proof (add_correction_effect U _ _ _ _ _ _ _ Hs)
    as [_ (earlier & Hbefore & Hafter)].
  rewrite add_correction_split in Hs.
  apply bindM_inv in Hs. destruct Hs as (stamp & w0 & Hnow & Hs).
  unfold Feedback.now in Hnow. inversion Hnow. subst stamp w0. clear Hnow.
  apply bindM_inv in Hs. destruct Hs as (u & w2s & Hrec & Hsave).
  pose proof (preserves_save_memory (py "corrections") eq_refl _ _ _ Hsave)
    as Hkeep.
  destruct (on_data_record_correction U filename field original corrected
              context (Feedback.clock w (Feedback.ticks w)))
    as [Hframe Hdata].
  specialize (Hdata (Feedback.tick w) (Feedback.tick (Spec.writable w))
                    eq_refl).
  specialize (Hframe (Feedback.tick w)).
  simpl in Hrec. rewrite Hrec in Hdata. simpl in Hdata.
  destruct (Spec.record_correction U filename field original corrected
              context (Feedback.clock w (Feedback.ticks w))
              (Feedback.tick w)) as [r w2] eqn:Erec.
  simpl in Hdata, Hframe. destruct Hdata as [-> Hd].
  destruct Hframe as (Hdisk & Hwf & _ & _). simpl in Hdisk, Hwf.
  unfold FeedbackMemory.save_memory in Hsave.
  apply bindM_inv in Hsave. destruct Hsave as (stamp2 & w3 & Hnow2 & Hsave).
  unfold Feedback.now in Hnow2. inversion Hnow2. subst stamp2 w3. clear Hnow2.
  apply bindM_inv in Hsave. destruct Hsave as (u2 & w4 & Hmod & _).
  apply modify_inv in Hmod. destruct Hmod as (v & Hv & _). simpl in Hv.
  apply setitem_dict in Hv. destruct Hv as (d & Hdict & _).
  rewrite <- Hd in Hdict.
  eexists. exists earlier.
  rewrite add_correction_split.
  unfold Feedback.bindM at 1. unfold Feedback.now at 1.
  unfold Feedback.bindM at 1. rewrite Erec.
  unfold FeedbackMemory.save_memory, Feedback.bindM, Feedback.now,
    Feedback.modify, FeedbackMemory.write_file.
  simpl Feedback.feedback_data. rewrite Hdict. simpl.
  rewrite Hwf, Hfail. split; [reflexivity|].
  split; [exact Hdisk|]. split; [exact Hbefore|].
  unfold Spec.data_at. simpl.
  rewrite lookup_upsert_neq by reflexivity.
  unfold Spec.data_at in Hafter, Hkeep. rewrite Hkeep, <- Hd, Hdict in Hafter.
  exact Hafter.
Qed.

Lemma X17_witness :
  exists w' earlier,
    FeedbackMemory.add_correction ascii_tables
      (py "a.pdf") (py "title") (py "old title") (py "New Title")
      (py "File: a.pdf")
      (FeedbackMemory.init Feedback.Absent
         (Some (Exn "PermissionError" (py "[Errno 13] Permission denied")))
         Samples.fixed_clock)
    = (Raise (Exn "PermissionError" (py "[Errno 13] Permission denied")), w')
    /\ Feedback.disk w' = Feedback.Absent
    /\ Return (VList []) = Return (VList earlier)
    /\ Spec.data_at w' (py "corrections")
       = Return (VList (earlier ++
                        [FeedbackMemory.correction_record
                           (py "a.pdf") (py "title") (py "old title")
                           (py "New Title") (py "File: a.pdf")
                           (Samples.fixed_clock 0)])).
Proof.
  apply (X17_write_failure ascii_tables
           (py "a.pdf") (py "title") (py "old title") (py "New Title")
           (py "File: a.pdf")
           (FeedbackMemory.init Feedback.Absent
              (Some (Exn "PermissionError" (py "[Errno 13] Permission denied")))
              Samples.fixed_clock)).
  - split; [|split].
    + eexists. split; [reflexivity|]. eexists. reflexivity.
    + eexists. split; [reflexivity|]. eexists. split; [reflexivity|].
      intros f y H. discriminate H.
    + eexists. split; [reflexivity|]. eexists. eexists. split; reflexivity.
  - reflexivity.
Defined.

Section PromptFacts.
Import Feedback FeedbackMemory Extractor.

Lemma is_infix_here (x b : pystr) : Spec.is_infix x (x ++ b).
Proof. exists [], b. reflexivity. Qed.

Lemma is_infix_left (x y z : pystr) :
  Spec.is_infix x y -> Spec.is_infix x (y ++ z).
Proof.
  intros (a & b & ->). exists a, (b ++ z). rewrite <- !app_assoc. reflexivity.
Qed.

Lemma is_infix_right (x y z : pystr) :
  Spec.is_infix x y -> Spec.is_infix x (z ++ y).
Proof.
  intros (a & b & ->). exists (z ++ a), b. rewrite <- !app_assoc. reflexivity.
Qed.

Lemma is_infix_first_line (x p : pystr) (rest : list pystr) :
  Spec.is_infix x p -> Spec.is_infix x (lines (p :: rest)).
Proof.
  intros H. unfold lines. destruct rest as [|q rest]; [exact H|].
  cbn [join]. apply is_infix_left. exact H.
Qed.

(** The style guide is part of the description prompt whenever the
    preferences hold a style. *)
Lemma style_in_prompt (format_value : value -> pystr)
      (preferences : dict) (style text : pystr) :
  lookup (py "description_style") preferences = Some (VStr style) ->
  Spec.is_infix (py "User preferences: " ++ style)
                (description_prompt format_value preferences text).
Proof.
  intros Hstyle. unfold description_prompt. apply is_infix_first_line.
  unfold description_base_prompt.
  assert (Htruthy : truthy_dict preferences = true)
    by (destruct preferences; [discriminate Hstyle | reflexivity]).
  rewrite Htruthy, Hstyle. cbn [to_str].
  destruct (lookup (py "description_examples") preferences).
  - apply is_infix_left. apply is_infix_right. apply is_infix_right.
    exists [], []. rewrite app_nil_r. reflexivity.
  - apply is_infix_right. apply is_infix_right.
    exists [], []. rewrite app_nil_r. reflexivity.
Qed.

Lemma pref_at_lookup (w : world) (k : pystr) (v : value) :
  Spec.pref_at w k = Return v ->
  exists preferences,
    get_user_preferences w = (Return (VDict preferences), w)
    /\ lookup k preferences = Some v.
Proof.
  unfold Spec.pref_at, preference, get_user_preferences, read. simpl.
  intros H. apply bind_inv in H. destruct H as (up & Hup & Hk).
  apply getitem_dict in Hk. destruct Hk as (d & -> & Hk).
  exists d. rewrite Hup. auto.
Qed.

End PromptFacts.

(** X18.  What a correction teaches reaches the next prompt: after a
    corrected description shorter than 50 characters (longer than 200), the
    preferences that [get_user_preferences] hands to the pipeline make every
    description prompt carry the brief (detailed) style guide. *)
Theorem X18_style_reaches_prompt
        (U : UnicodeTables)
        (filename original corrected context : pystr)
        (w w' : Feedback.world) :
  FeedbackMemory.add_correction U filename (py "description") original
    corrected context w = (Return tt, w') ->
  length corrected < 50 \/ 200 < length corrected ->
  exists preferences,
    FeedbackMemory.get_user_preferences w' = (Return (VDict preferences), w')
    /\ forall format_value text,
         Spec.is_infix
           (py "User preferences: "
               ++ (if length corrected <? 50
                   then py "Keep descriptions brief and concise"
                   else py "Provide detailed comprehensive descriptions"))
           (Extractor.description_prompt format_value preferences text).
Proof.
  intros H Hlen.
  apply (add_correction_pref U _ _ _ _ _ (py "description_style")) in H.
  destruct H as (w1 & w2 & _ & Hafter & Hft).
  apply (fine_tuning_own_preference U (py "description")) in Hft;
    [|left; reflexivity].
  change (Spec.preference_key (py "description"))
    with (py "description_style") in Hft.
  rewrite <- Hafter in Hft.
  unfold Spec.inferred_preference in Hft. simpl str_eqb in Hft. cbv iota in Hft.
  assert (Hstyle : Spec.pref_at w' (py "description_style")
                   = Return (VStr (if length corrected <? 50
                                   then FeedbackMemory.brief_style
                                   else FeedbackMemory.detailed_style))).
  { destruct (length corrected <? 50) eqn:E50; [exact Hft|].
    apply Nat.ltb_ge in E50.
    destruct (200 <? length corrected) eqn:E200; [exact Hft|].
    apply Nat.ltb_ge in E200. lia. }
  apply pref_at_lookup in Hstyle. destruct Hstyle as (preferences & Hget & Hk).
  exists preferences. split; [exact Hget|].
  intros format_value text.
  pose proof (style_in_prompt format_value preferences _ text Hk) as Hin.
  destruct (length corrected <? 50); exact Hin.
Qed.

Lemma X18_witness :
  exists preferences,
    FeedbackMemory.get_user_preferences
      (snd (FeedbackMemory.add_correction ascii_tables
              (py "a.pdf") (py "description") (py "old")
              (py "A short description") (py "File: a.pdf")
              Samples.fresh_memory))
    = (Return (VDict preferences),
       snd (FeedbackMemory.add_correction ascii_tables
              (py "a.pdf") (py "description") (py "old")
              (py "A short description") (py "File: a.pdf")
              Samples.fresh_memory))
    /\ forall format_value text,
         Spec.is_infix
           (py "User preferences: "
               ++ (if length (py "A short description") <? 50
                   then py "Keep descriptions brief and concise"
                   else py "Provide detailed comprehensive descriptions"))
           (Extractor.description_prompt format_value preferences text).
Proof.
  apply (X18_style_reaches_prompt ascii_tables
           (py "a.pdf") (py "old") (py "A short description")
           (py "File: a.pdf") Samples.fresh_memory).
  - vm_compute. reflexivity.
  - left. vm_compute. lia.
Defined.

(* ================================================================== *)
(** * Properties of the web application *)
(* ================================================================== *)

Section WebFacts.
Import Web.

Lemma contains_char (c : char) (s : pystr) :
  contains [c] s = true <-> In c s.
Proof.
  induction s as [|x s IH]; simpl.
  - split; [discriminate | tauto].
  - rewrite orb_true_iff, IH, andb_true_r, char_eqb_eq.
    split; intros [H | H]; auto.
Qed.

Lemma rsplit1_none (sep : char) (s : pystr) :
  ~ In sep s -> rsplit1 sep s = None.
Proof.
  induction s as [|c s IH]; intros H; simpl; [reflexivity|].
  rewrite IH by (intros Hin; apply H; right; exact Hin).
  destruct (char_eqb c sep) eqn:E; [|reflexivity].
  apply char_eqb_eq in E. exfalso. apply H. left. exact E.
Qed.

Lemma rsplit1_last (sep : char) (before after : pystr) :
  ~ In sep after -> rsplit1 sep (before ++ sep :: after) = Some (before, after).
Proof.
  intros H. induction before as [|c before IH]; simpl.
  - rewrite (rsplit1_none sep after H).
    unfold char_eqb. rewrite N.eqb_refl. reflexivity.
  - rewrite IH. reflexivity.
Qed.

Lemma rsplit1_some (sep : char) (s before after : pystr) :
  rsplit1 sep s = Some (before, after) ->
  s = before ++ sep :: after /\ ~ In sep after.
Proof.
  revert before after. induction s as [|c s IH]; intros before after;
    simpl; [discriminate|].
  destruct (rsplit1 sep s) as [[b a]|] eqn:E.
  - intros H. inversion H. subst. destruct (IH b after eq_refl) as [-> Hn].
    split; [reflexivity | exact Hn].
  - destruct (char_eqb c sep) eqn:Ec; [|discriminate].
    intros H. inversion H. subst. apply char_eqb_eq in Ec. subst c.
    split; [reflexivity|].
    intros Hin. clear IH H. induction after as [|x after IH]; [exact Hin|].
    simpl in E. destruct (rsplit1 sep after) as [[b a]|] eqn:E'; [discriminate|].
    destruct (char_eqb x sep) eqn:Ex; [discriminate|].
    destruct Hin as [-> | Hin].
    + unfold char_eqb in Ex. rewrite N.eqb_refl in Ex. discriminate.
    + exact (IH eq_refl Hin).
Qed.

End WebFacts.

(** X19.  [allowed_file] never raises, and accepts exactly the names whose
    part after the last dot is ["pdf"] in any letter case; the part before
    the dot may be empty, and a name without a dot is refused. *)
Theorem X19_allowed_file (U : UnicodeTables) (filename : pystr) :
  (exists b, Web.allowed_file U filename = Return b)
  /\ (Web.allowed_file U filename = Return true
      <-> exists stem extension,
            filename = stem ++ [Web.DOT] ++ extension
            /\ ~ In Web.DOT extension
            /\ lower U extension = py "pdf")
  /\ (~ In Web.DOT filename -> Web.allowed_file U filename = Return false).
Proof.
  unfold Web.allowed_file, Web.rsplit_once.
  destruct (contains [Web.DOT] filename) eqn:Ec.
  - apply contains_char in Ec.
    destruct (Web.rsplit1 Web.DOT filename) as [[stem ext]|] eqn:Es.
    + cbn [nth_error]. unfold Web.ALLOWED_EXTENSIONS. cbn [existsb].
      apply rsplit1_some in Es. destruct Es as [Heq Hn].
      split; [eauto|]. split; [|tauto].
      rewrite orb_false_r. split.
      * intros H. injection H as Hb. apply str_eqb_eq in Hb.
        exists stem, ext. split; [exact Heq|]. split; assumption.
      * intros (stem' & ext' & Heq' & Hn' & Hl).
        assert (Hsame : Some (stem, ext) = Some (stem', ext')).
        { assert (H1 : Web.rsplit1 Web.DOT filename = Some (stem, ext))
            by (rewrite Heq; apply rsplit1_last; exact Hn).
          assert (H2 : Web.rsplit1 Web.DOT filename = Some (stem', ext'))
            by (rewrite Heq'; apply (rsplit1_last Web.DOT stem' ext' Hn')).
          congruence. }
        inversion Hsame. subst. rewrite Hl. reflexivity.
    + exfalso. clear -Ec Es. induction filename as [|c s IH]; [exact Ec|].
      simpl in Es. destruct (Web.rsplit1 Web.DOT s) as [[b a]|]; [discriminate|].
      destruct (char_eqb c Web.DOT) eqn:E; [discriminate|].
      destruct Ec as [-> | Hin]; [|exact (IH Hin eq_refl)].
      unfold char_eqb in E. rewrite N.eqb_refl in E. discriminate.
  - split; [eauto|]. split; [|reflexivity].
    split; [discriminate|].
    intros (stem & ext & -> & _ & _).
    assert (Hin : In Web.DOT (stem ++ [Web.DOT] ++ ext))
      by (apply in_or_app; right; left; reflexivity).
    apply contains_char in Hin. congruence.
Qed.

Lemma X19_witness :
  Web.allowed_file ascii_tables (py "boletin.1979.PDF") = Return true.
Proof.
  apply (proj1 (proj2 (X19_allowed_file ascii_tables (py "boletin.1979.PDF")))).
  exists (py "boletin.1979"), (py "PDF").
  split; [reflexivity|]. split; [|reflexivity].
  intros [H | [H | [H | []]]]; discriminate H.
Defined.

Section UploadFacts.
Import Validator Orchestrator.
Variable U : UnicodeTables.
Variable post_json : pystr -> result value.
Variable format_value : value -> pystr.
Variable violation_message : dict -> pystr.
Variable user_preferences : dict.

(** The three results of [process_pdf]. *)
Lemma process_pdf_cases (pdf_text : pystr) (target : option pystr)
      (r : PipelineResult) :
  process_pdf U post_json format_value violation_message user_preferences
              pdf_text target = Return r ->
  r = no_segments
  \/ (exists e, r = pipeline_failure e)
  \/ exists title pub_date description volume_issue,
       r = validate_metadata U violation_message
             title pub_date description volume_issue.
Proof.
  intros H. rewrite process_pdf_returns in H. inversion H as [Hr]. clear H.
  destruct (process_attempt U post_json format_value violation_message
              user_preferences pdf_text target) as [r'|e] eqn:E.
  - apply process_attempt_shape in E. destruct E as [-> | E]; auto.
  - right. left. exists e. reflexivity.
Qed.

Lemma stage_with_segment (pdf_text : pystr) (target : option pystr) :
  20 < len (strip (Segmenter.clean U pdf_text)) ->
  exists r,
    process_pdf U post_json format_value violation_message user_preferences
                pdf_text target = Return r
    /\ (stage r = py "validation" \/ stage r = py "pipeline").
Proof.
  intros Hlen. rewrite process_pdf_returns.
  rewrite (process_attempt_one_segment U post_json format_value
             violation_message user_preferences pdf_text target Hlen).
  eexists. split; [reflexivity|].
  destruct (str_strip _) as [t|e]; [|right; reflexivity]. cbn [Py.bind].
  destruct (str_strip _) as [p|e]; [|right; reflexivity]. cbn [Py.bind].
  destruct (str_strip _) as [d|e]; [|right; reflexivity]. cbn [Py.bind].
  destruct (str_strip _) as [v|e]; [|right; reflexivity]. cbn [Py.bind].
  left. reflexivity.
Qed.

Lemma strip_keeps_tight_prefix (p x : pystr) :
  p <> [] -> Spec.tight p -> exists x', strip (p ++ x) = p ++ x'.
Proof.
  intros Hp [Hfirst Hlast]. destruct p as [|c r]; [congruence|].
  destruct (rev (c :: r)) as [|d q] eqn:E.
  { apply (f_equal (@length _)) in E. rewrite length_rev in E. discriminate. }
  unfold strip, lstrip, rstrip.
  replace (drop_while isspace ((c :: r) ++ x)) with ((c :: r) ++ x)
    by (simpl; rewrite Hfirst; reflexivity).
  rewrite rev_app_distr, E.
  destruct (drop_while_stops isspace (rev x) d q Hlast) as [a' ->].
  exists (rev a'). rewrite rev_app_distr.
  replace (rev (d :: q)) with (c :: r)
    by (rewrite <- E, rev_involutive; reflexivity).
  reflexivity.
Qed.

End UploadFacts.

(** X20.  The metadata that [upload_file] shows always has [title],
    [description], [volume_issue], the warnings and the stage; it has
    [pub_date] only for a successful result and [date] only for a failed
    one, and a failed result, whatever was extracted, shows the same fixed
    text in the four fields. *)
Theorem X20_upload_metadata
        (U : UnicodeTables) (post_json : pystr -> result value)
        (format_value : value -> pystr) (violation_message : dict -> pystr)
        (user_preferences : dict) (pdf_text : pystr)
        (r : Validator.PipelineResult) :
  Orchestrator.process_pdf U post_json format_value violation_message
    user_preferences pdf_text None = Return r ->
  let metadata := Web.upload_metadata r in
  lookup (py "pipeline_warnings") metadata
  = Some (VList (map VStr (Validator.warnings r)))
  /\ lookup (py "processing_stage") metadata = Some (VStr (Validator.stage r))
  /\ (Validator.success r = true ->
      (exists title pub_date description volume_issue,
          lookup (py "title") metadata = Some (VStr title)
          /\ lookup (py "pub_date") metadata = Some (VStr pub_date)
          /\ lookup (py "description") metadata = Some (VStr description)
          /\ lookup (py "volume_issue") metadata = Some (VStr volume_issue))
      /\ lookup (py "date") metadata = None
      /\ lookup (py "error") metadata = None)
  /\ (Validator.success r = false ->
      lookup (py "title") metadata = Some Web.failed
      /\ lookup (py "date") metadata = Some Web.failed
      /\ lookup (py "description") metadata = Some Web.failed
      /\ lookup (py "volume_issue") metadata = Some Web.failed
      /\ lookup (py "pub_date") metadata = None
      /\ lookup (py "error") metadata
         = Some (VStr (py "Pipeline error: "
                          ++ join (py "; ") (Validator.warnings r)))).
Proof.
  intros H metadata. unfold metadata, Web.upload_metadata.
  apply process_pdf_cases in H.
  destruct H as [-> | [(e & ->) | (t & p & d & v & ->)]].
  - repeat split; try discriminate.
  - repeat split; try discriminate.
  - destruct (Validator.success
                (Validator.validate_metadata U violation_message t p d v))
      eqn:Es.
    + split; [rewrite lookup_upsert_neq by reflexivity; apply lookup_upsert_eq|].
      split; [apply lookup_upsert_eq|].
      split; [|discriminate]. intros _.
      split; [exists t, p, d, v; repeat split|]. split; reflexivity.
    + repeat split; try discriminate.
Qed.

Lemma X20_witness :
  lookup (py "processing_stage") (Web.upload_metadata Samples.echo_result)
  = Some (VStr (Validator.stage Samples.echo_result)).
Proof.
  assert (H : Orchestrator.process_pdf ascii_tables Samples.echo_service
                Samples.no_format Samples.no_message [] Samples.sample_text
                None = Return Samples.echo_result)
    by (vm_compute; reflexivity).
  exact (proj1 (proj2 (X20_upload_metadata ascii_tables Samples.echo_service
                         Samples.no_format Samples.no_message []
                         Samples.sample_text Samples.echo_result H))).
Defined.

(** X21.  [upload_file] does not look at what [extract_text_from_pdf]
    returns: when the PDF cannot be read, the error text goes through the
    pipeline as if it were the document.  It always gives a segment, which
    starts with the words of the error text, so the requests to the service
    are made about that text. *)
Theorem X21_error_text_is_processed
        (U : UnicodeTables) (post_json : pystr -> result value)
        (format_value : value -> pystr) (violation_message : dict -> pystr)
        (user_preferences : dict) (e : exn) :
  let text := Web.extract_text_from_pdf (Raise e) in
  exists rest r,
    Segmenter.clean_and_segment U text
    = Return [py "Error extracting text from PDF:" ++ rest]
    /\ Orchestrator.process_pdf U post_json format_value violation_message
         user_preferences text None = Return r
    /\ (Validator.stage r = py "validation"
        \/ Validator.stage r = py "pipeline").
Proof.
  intros text.
  set (p := py "Error extracting text from PDF:").
  assert (Htight : Spec.tight p) by (split; reflexivity).
  assert (Hne : p <> []) by discriminate.
  assert (Htext : text = p ++ (SPACE :: exn_message e)) by reflexivity.
  destruct (strip_keeps_tight_prefix p (SPACE :: exn_message e) Hne Htight)
    as [x1 H1].
  assert (Hclean : exists x2, Segmenter.clean U text = p ++ x2).
  { unfold Segmenter.clean. rewrite Htext, H1.
    exists (remove_artifacts U
              (normalize_whitespace (replace [NL; NL] [NL] x1))).
    reflexivity. }
  destruct Hclean as [x2 H2].
  destruct (strip_keeps_tight_prefix p x2 Hne Htight) as [x3 H3].
  assert (Hlen : 20 < len (strip (Segmenter.clean U text))).
  { rewrite H2, H3. unfold len. rewrite length_app.
    change (length p) with 31. lia. }
  destruct (stage_with_segment U post_json format_value violation_message
              user_preferences text None Hlen) as (r & Hr & Hstage).
  exists x3, r. split; [|split; assumption].
  rewrite segments_of_clean. apply Nat.ltb_lt in Hlen. rewrite Hlen.
  rewrite H2, H3. reflexivity.
Qed.

(* ================================================================== *)
(** * Properties of the batch checker *)
(* ================================================================== *)

Section CheckerFacts.
Import Validator Feedback FeedbackMemory Checker.
Variable U : UnicodeTables.
Variable float_nonzero : pystr -> bool.

Lemma read_only_ret {A} (a : A) : Spec.read_only (ret a).
Proof. intros w. reflexivity. Qed.

Lemma read_only_lift {A} (r : result A) : Spec.read_only (lift r).
Proof. intros w. reflexivity. Qed.

Lemma read_only_read {A} (f : value -> result A) : Spec.read_only (read f).
Proof. intros w. reflexivity. Qed.

Lemma read_only_bind {A B} (m : M A) (k : A -> M B) :
  Spec.read_only m -> (forall a, Spec.read_only (k a)) ->
  Spec.read_only (bindM m k).
Proof.
  intros Hm Hk w. unfold bindM. specialize (Hm w).
  destruct (m w) as [[a|e] w1]; simpl in Hm; subst w1; [apply Hk | reflexivity].
Qed.

Ltac read_only_steps :=
  repeat first
    [ apply read_only_ret | apply read_only_lift | apply read_only_read
    | apply read_only_bind; [|intros ?]
    | match goal with
      | |- Spec.read_only (if ?c then _ else _) => destruct c
      | |- Spec.read_only (match ?c with _ => _ end) => destruct c
      end ].

Lemma read_only_get_suggestion (field value : pystr) :
  Spec.read_only (get_suggestion U field value).
Proof. unfold get_suggestion. read_only_steps. Qed.

Lemma read_only_suggestion_for (field : pystr) (current : value) :
  Spec.read_only (suggestion_for U float_nonzero field current).
Proof.
  unfold suggestion_for.
  destruct current; try apply read_only_get_suggestion;
    match goal with
    | |- Spec.read_only (if ?c then _ else _) =>
        destruct c; [read_only_steps | apply read_only_get_suggestion]
    end.
Qed.

Lemma read_only_suggest (metadata : dict) (field_key : pystr) :
  Spec.read_only (suggest U float_nonzero metadata field_key).
Proof.
  unfold suggest. apply read_only_bind; [apply read_only_suggestion_for|].
  intros suggestion. read_only_steps.
Qed.

Lemma read_only_apply_suggestions (field_keys : list pystr) :
  forall metadata,
    Spec.read_only (apply_suggestions U float_nonzero field_keys metadata).
Proof.
  induction field_keys as [|k rest IH]; intros metadata; simpl.
  - apply read_only_ret.
  - apply read_only_bind; [apply read_only_suggest | intros md; apply IH].
Qed.

(** A step of the loop writes under the key of its own field only. *)
Lemma suggest_inv (metadata metadata' : dict) (field_key : pystr)
      (w w' : world) :
  suggest U float_nonzero metadata field_key w = (Return metadata', w') ->
  exists suggestion,
    suggestion_for U float_nonzero field_key
      (match lookup field_key metadata with
       | Some v => v
       | None => VStr []
       end) w = (Return suggestion, w')
    /\ metadata'
       = match suggestion with
         | Some s =>
             if truthy float_nonzero s
                && differs s (match lookup field_key metadata with
                              | Some v => v
                              | None => VStr []
                              end)
             then upsert (field_key ++ py "_suggested") s metadata
             else metadata
         | None => metadata
         end.
Proof.
  unfold suggest. intros H.
  apply bindM_inv in H. destruct H as (suggestion & w1 & Hs & H).
  exists suggestion.
  destruct suggestion as [s|].
  - destruct (truthy float_nonzero s && differs s _);
      apply ret_inv in H; destruct H as [-> ->]; auto.
  - apply ret_inv in H. destruct H as [-> ->]. auto.
Qed.

Lemma suggest_keeps (metadata metadata' : dict) (field_key key : pystr)
      (w w' : world) :
  suggest U float_nonzero metadata field_key w = (Return metadata', w') ->
  str_eqb key (field_key ++ py "_suggested") = false ->
  lookup key metadata' = lookup key metadata.
Proof.
  intros H Hkey. apply suggest_inv in H. destruct H as (suggestion & _ & ->).
  destruct suggestion as [s|]; [|reflexivity].
  destruct (truthy float_nonzero s && differs s _); [|reflexivity].
  apply lookup_upsert_neq. exact Hkey.
Qed.

End CheckerFacts.

(** X22.  [process_single_file] never raises and never changes the memory;
    it returns [None], without a request to the service, when the text
    could not be read and also when a text that was read starts with
    ["Error"]. *)
Theorem X22_process_single_file_total
        (U : UnicodeTables) (post_json : pystr -> result value)
        (format_value : value -> pystr) (violation_message : dict -> pystr)
        (user_preferences : dict) (float_nonzero : pystr -> bool)
        (file_path : pystr) (pages : result (list pystr))
        (target_date_range : option pystr) (w : Feedback.world) :
  exists entry,
    Checker.process_single_file U post_json format_value violation_message
      user_preferences float_nonzero file_path pages target_date_range w
    = (Return entry, w)
    /\ (starts_with (py "Error") (Checker.extract_text_from_pdf pages) = true ->
        entry = None)
    /\ (forall e, pages = Raise e -> entry = None).
Proof.
  assert (Hmain : exists entry,
             Checker.process_single_file U post_json format_value
               violation_message user_preferences float_nonzero file_path
               pages target_date_range w = (Return entry, w)
             /\ (starts_with (py "Error") (Checker.extract_text_from_pdf pages)
                 = true -> entry = None)).
  { unfold Checker.process_single_file.
    destruct (starts_with (py "Error") (Checker.extract_text_from_pdf pages)).
    { exists None. split; [reflexivity | auto]. }
    unfold Checker.try_exceptM.
    match goal with
    | |- context [match ?body w with _ => _ end] =>
        assert (Hro : Spec.read_only body)
    end.
    { apply read_only_bind; [apply read_only_lift | intros r].
      destruct (Validator.success r); [|apply read_only_ret].
      apply read_only_bind;
        [apply read_only_apply_suggestions | intros md; apply read_only_ret]. }
    specialize (Hro w).
    match goal with
    | |- context [match ?body w with _ => _ end] =>
        destruct (body w) as [[entry|e] w1]
    end; simpl in Hro; subst w1.
    - exists entry. split; [reflexivity | discriminate].
    - exists None. split; [reflexivity | discriminate]. }
  destruct Hmain as (entry & Hrun & Herror).
  exists entry. split; [exact Hrun|]. split; [exact Herror|].
  intros e ->. apply Herror. reflexivity.
Qed.

(** X23.  An entry of [process_single_file] carries the extracted fields
    and, for the title, the suggestion of the memory when it is not empty
    and differs from the title; it never carries a suggestion for the
    description, whatever the memory has learned about descriptions,
    because the loop asks for ["abstract"]. *)
Theorem X23_suggestions_in_entry
        (U : UnicodeTables) (post_json : pystr -> result value)
        (format_value : value -> pystr) (violation_message : dict -> pystr)
        (user_preferences : dict) (float_nonzero : pystr -> bool)
        (file_path : pystr) (pages : result (list pystr))
        (target_date_range : option pystr) (w w' : Feedback.world)
        (entry : value) :
  Checker.process_single_file U post_json format_value violation_message
    user_preferences float_nonzero file_path pages target_date_range w
  = (Return (Some entry), w') ->
  exists fields metadata title description,
    entry = VDict fields
    /\ lookup (py "metadata") fields = Some (VDict metadata)
    /\ lookup (py "title") metadata = Some (VStr title)
    /\ lookup (py "description") metadata = Some (VStr description)
    /\ lookup (py "description_suggested") metadata = None
    /\ forall suggestion,
         FeedbackMemory.get_suggestion U (py "title") title w
         = (Return (Some (VStr suggestion)), w) ->
         suggestion <> [] -> suggestion <> title ->
         lookup (py "title_suggested") metadata = Some (VStr suggestion).
Proof.
  unfold Checker.process_single_file. intros H.
  destruct (starts_with (py "Error") (Checker.extract_text_from_pdf pages));
    [discriminate H|].
  unfold Checker.try_exceptM in H.
  match type of H with
  | match ?body w with _ => _ end = _ =>
      destruct (body w) as [[o|e] w1] eqn:Ebody; [|discriminate H]
  end.
  inversion H. subst o w1. clear H.
  apply bindM_inv in Ebody. destruct Ebody as (r & w1 & Hr & Hrest).
  apply lift_inv in Hr. destruct Hr as [Hr ->].
  destruct (Validator.success r) eqn:Hs; [|discriminate Hrest].
  apply process_pdf_cases in Hr.
  destruct Hr as [-> | [(e & ->) | (t & p & d & v & ->)]];
    try discriminate Hs.
  apply bindM_inv in Hrest. destruct Hrest as (md & w2 & Hloop & Hret).
  apply ret_inv in Hret. destruct Hret as [Hentry ->].
  inversion Hentry as [Hfields]. clear Hentry.
  change (Validator.data
            (Validator.validate_metadata U violation_message t p d v))
    with (Validator.metadata t p d v) in Hloop.
  unfold Checker.suggested_fields in Hloop. cbn [Checker.apply_suggestions] in Hloop.
  apply bindM_inv in Hloop. destruct Hloop as (md1 & wa & H1 & Hloop).
  apply bindM_inv in Hloop. destruct Hloop as (md2 & wb & H2 & Hloop).
  apply bindM_inv in Hloop. destruct Hloop as (md3 & wc & H3 & Hloop).
  apply bindM_inv in Hloop. destruct Hloop as (md4 & wd & H4 & Hloop).
  apply ret_inv in Hloop. destruct Hloop as [-> ->].
  assert (Hkeep : forall key,
             str_eqb key (py "title_suggested") = false ->
             str_eqb key (py "pub_date_suggested") = false ->
             str_eqb key (py "abstract_suggested") = false ->
             str_eqb key (py "volume_issue_suggested") = false ->
             lookup key md4 = lookup key (Validator.metadata t p d v)).
  { intros key K1 K2 K3 K4.
    rewrite (suggest_keeps U float_nonzero _ _ _ key _ _ H4 K4).
    rewrite (suggest_keeps U float_nonzero _ _ _ key _ _ H3 K3).
    rewrite (suggest_keeps U float_nonzero _ _ _ key _ _ H2 K2).
    exact (suggest_keeps U float_nonzero _ _ _ key _ _ H1 K1). }
  eexists. exists md4, t, d.
  split; [reflexivity|]. split; [reflexivity|].
  split; [exact (Hkeep (py "title") eq_refl eq_refl eq_refl eq_refl)|].
  split; [exact (Hkeep (py "description") eq_refl eq_refl eq_refl eq_refl)|].
  split;
    [exact (Hkeep (py "description_suggested") eq_refl eq_refl eq_refl eq_refl)|].
  intros suggestion Hsug Hne Hdiff.
  rewrite (suggest_keeps U float_nonzero _ _ _ (py "title_suggested") _ _ H4
             eq_refl).
  rewrite (suggest_keeps U float_nonzero _ _ _ (py "title_suggested") _ _ H3
             eq_refl).
  rewrite (suggest_keeps U float_nonzero _ _ _ (py "title_suggested") _ _ H2
             eq_refl).
  apply suggest_inv in H1. destruct H1 as (sug & Hfor & ->).
  change (lookup (py "title") (Validator.metadata t p d v))
    with (Some (VStr t)) in Hfor |- *.
  cbn [Checker.suggestion_for] in Hfor.
  rewrite Hsug in Hfor. inversion Hfor. subst sug.
  assert (Htruthy : Checker.truthy float_nonzero (VStr suggestion) = true)
    by (destruct suggestion; [congruence | reflexivity]).
  assert (Hdiffers : Checker.differs (VStr suggestion) (VStr t) = true).
  { simpl. apply negb_true_iff. apply str_eqb_neq. congruence. }
  rewrite Htruthy, Hdiffers. cbn [andb].
  apply lookup_upsert_eq.
Qed.

Lemma X23_witness :
  exists fields metadata title description,
    Samples.sample_entry = VDict fields
    /\ lookup (py "metadata") fields = Some (VDict metadata)
    /\ lookup (py "title") metadata = Some (VStr title)
    /\ lookup (py "description") metadata = Some (VStr description)
    /\ lookup (py "description_suggested") metadata = None
    /\ forall suggestion,
         FeedbackMemory.get_suggestion ascii_tables (py "title") title
           Samples.title_memory
         = (Return (Some (VStr suggestion)), Samples.title_memory) ->
         suggestion <> [] -> suggestion <> title ->
         lookup (py "title_suggested") metadata = Some (VStr suggestion).
Proof.
  apply (X23_suggestions_in_entry ascii_tables Samples.echo_service
           Samples.no_format Samples.no_message [] Samples.any_float_nonzero
           (py "raw/a.pdf") (Return [Samples.sample_page]) None
           Samples.title_memory Samples.title_memory).
  vm_compute. reflexivity.
Defined.

Section HistoryFacts.
Import Feedback FeedbackMemory.
Variable U : UnicodeTables.



End HistoryFacts.

(** X24.  A well-shaped memory whose file can be written accepts every
    history of corrections; the list of corrections then holds the earlier
    records followed by one record for each correction of the history. *)
Theorem X24_histories_accepted
        (U : UnicodeTables) (history : list FeedbackMemory.correction)
        (w : Feedback.world) (earlier : list value) :
  Spec.good w ->
  Spec.data_at w (py "corrections") = Return (VList earlier) ->
  exists w' added,
    FeedbackMemory.add_corrections U history w = (Return tt, w')
    /\ Spec.good w'
    /\ Spec.data_at w' (py "corrections") = Return (VList (earlier ++ added))
    /\ length added = length history.
Proof.
  revert w earlier. induction history as [|c rest IH]; intros w earlier Hgood Hc.
  - exists w, []. simpl. rewrite app_nil_r. auto.
  - simpl.
    destruct (add_correction_returns U (FeedbackMemory.c_filename c)
                (FeedbackMemory.c_field c) (FeedbackMemory.c_original c)
                (FeedbackMemory.c_corrected c) (FeedbackMemory.c_context c)
                w Hgood) as (w1 & H1 & Hgood1).
    rewrite (bindM_returns _ _ _ _ _ H1).
    apply add_correction_effect in H1.
    destruct H1 as [_ (cs & Hbefore & Hafter)].
    rewrite Hc in Hbefore. inversion Hbefore. subst cs.
    destruct (IH w1 _ Hgood1 Hafter) as (w' & added & Hrun & Hgood' & Hcs & Hlen).
    exists w'. eexists. split; [exact Hrun|]. split; [exact Hgood'|].
    split; [rewrite Hcs, <- app_assoc; reflexivity|].
    simpl. rewrite Hlen. reflexivity.
Qed.

Lemma X24_witness :
  exists w' added,
    FeedbackMemory.add_corrections ascii_tables
      [Samples.vol_no_correction; Samples.plain_correction]
      Samples.fresh_memory = (Return tt, w')
    /\ Spec.good w'
    /\ Spec.data_at w' (py "corrections") = Return (VList ([] ++ added))
    /\ length added = 2.
Proof.
  apply (X24_histories_accepted ascii_tables
           [Samples.vol_no_correction; Samples.plain_correction]
           Samples.fresh_memory []).
  - split; [|reflexivity]. split; [|split].
    + eexists. split; [reflexivity|]. eexists. reflexivity.
    + eexists. split; [reflexivity|]. eexists. split; [reflexivity|].
      intros f y H. discriminate H.
    + eexists. split; [reflexivity|]. eexists. eexists. split; reflexivity.
  - reflexivity.
Defined.


